(** * getSiteLinks: a shallow embedding of [getSiteLinks.py]

    The development follows the source file top-down:

    - [PyStr]: the few [str] methods the program calls ([strip],
      [lower], [splitlines], [startswith], [int]);
    - [Re]: the fragment of the backtracking regular-expression engine
      that [datetime.strptime] relies on;
    - [Strptime]: [datetime.strptime] / [strftime] for the directives
      that occur in [lDateFormats];
    - [parseAndFormatDate], the date normaliser of the program;
    - the spider ([spiderCustom.__init__], [startRequests], [parse],
      [closed]) together with a small model of the crawl engine that
      drives it.

    Python strings are modelled by [string]; every [ascii] stands for
    one code point below 256 (the Latin-1 range), which is the range on
    which the character classes below are stated. *)

From Stdlib Require Import ZArith Ascii String List Bool Lia DecimalString DecimalNat Sorted.
From stdpp Require Import base decidable list strings gmap.

Local Open Scope string_scope.
Local Open Scope Z_scope.
#[local] Set Warnings "-clear-no-such-hyp".

(* ===================================================================== *)
(** ** Python [str] methods                                               *)
(* ===================================================================== *)

Module PyStr.

Definition code (c : ascii) : Z := Z.of_nat (nat_of_ascii c).

Definition in_range (lo hi : Z) (c : ascii) : bool :=
  (lo <=? code c) && (code c <=? hi).

(** [str.isspace] on one code point below 256: TAB..CR, FS..US,
    SPACE, NEL and NBSP.  It is also what [\s] matches. *)
Definition is_space (c : ascii) : bool :=
  in_range 9 13 c || in_range 28 32 c || (code c =? 133) || (code c =? 160).

(** [\d] on one code point below 256. *)
Definition is_digit (c : ascii) : bool := in_range 48 57 c.

(** [str.lower] on one code point below 256. *)
Definition lower_char (c : ascii) : ascii :=
  if in_range 65 90 c
     || (in_range 192 222 c && negb (code c =? 215))
  then ascii_of_nat (nat_of_ascii c + 32)
  else c.

Fixpoint lower (s : string) : string :=
  match s with
  | EmptyString => EmptyString
  | String c s' => String (lower_char c) (lower s')
  end.

Fixpoint lstrip (s : string) : string :=
  match s with
  | String c s' => if is_space c then lstrip s' else s
  | EmptyString => EmptyString
  end.

(** [rstrip] keeps a character when it is not white space or when
    something survives to its right. *)
Fixpoint rstrip (s : string) : string :=
  match s with
  | EmptyString => EmptyString
  | String c s' =>
      match rstrip s' with
      | EmptyString => if is_space c then EmptyString else String c EmptyString
      | r => String c r
      end
  end.

Definition strip (s : string) : string := rstrip (lstrip s).

(** Truth value of a [str]: non-empty. *)
Definition truthy (s : string) : bool :=
  match s with EmptyString => false | _ => true end.

Fixpoint startswith (s p : string) : bool :=
  match p, s with
  | EmptyString, _ => true
  | String a p', String b s' => Ascii.eqb a b && startswith s' p'
  | String _ _, EmptyString => false
  end.

(** Line boundaries of [str.splitlines] below 256: LF, VT, FF, CR,
    FS, GS, RS and NEL; CR LF counts once. *)
Definition is_linebreak (c : ascii) : bool :=
  in_range 10 13 c || in_range 28 30 c || (code c =? 133).

Definition rev_string (s : string) : string :=
  string_of_list_ascii (rev (list_ascii_of_string s)).

(** [splitlines_aux cur s]: [cur] is the current line, reversed. *)
Fixpoint splitlines_aux (cur : string) (s : string) : list string :=
  match s with
  | EmptyString =>
      match cur with EmptyString => [] | _ => [rev_string cur] end
  | String c s' =>
      if is_linebreak c then
        match s' with
        | String c' s'' =>
            if (code c =? 13) && (code c' =? 10)
            then rev_string cur :: splitlines_aux EmptyString s''
            else rev_string cur :: splitlines_aux EmptyString s'
        | EmptyString => [rev_string cur]
        end
      else splitlines_aux (String c cur) s'
  end.

Definition splitlines (s : string) : list string :=
  splitlines_aux EmptyString s.

Fixpoint digits_value (acc : Z) (s : string) : option Z :=
  match s with
  | EmptyString => Some acc
  | String c s' =>
      if is_digit c then digits_value (10 * acc + (code c - 48)) s'
      else None
  end.

(** [int(s)] for the texts [strptime] hands to it: optional
    surrounding white space around a non-empty run of digits; anything
    else raises [ValueError] ([None]).  Signs and underscores never
    reach [int] from a group matched by the expressions below. *)
Definition int (s : string) : option Z :=
  match strip s with
  | EmptyString => None
  | t => digits_value 0 t
  end.

Definition digit_char (n : Z) : ascii := ascii_of_nat (Z.to_nat (48 + n mod 10)).

(** ["%02d" % n] and ["%04d" % n] for a non-negative [n] that fits. *)
Definition pad2 (n : Z) : string :=
  String (digit_char (n / 10)) (String (digit_char n) EmptyString).

Definition pad4 (n : Z) : string :=
  String (digit_char (n / 1000)) (String (digit_char (n / 100))
    (String (digit_char (n / 10)) (String (digit_char n) EmptyString))).

End PyStr.

(* ===================================================================== *)
(** ** The regular-expression fragment used by [strptime]                 *)
(* ===================================================================== *)

(** [datetime.strptime] turns a format into a regular expression and
    runs [re.match] on it with [re.IGNORECASE].  The fragment below is
    what the directive table of [_strptime.TimeRE] needs; [rmatch] is a
    backtracking matcher in continuation-passing style, so alternatives
    are explored in the order the [re] module explores them. *)

Module Re.
Import PyStr.

Inductive regex : Type :=
| Eps                                   (* the empty expression *)
| Chr (c : ascii)                       (* a literal, under IGNORECASE *)
| ChrCS (c : ascii)                     (* (?-i:c) *)
| Digit                                 (* \d *)
| Range (lo hi : ascii)                 (* [lo-hi] *)
| OneOf (cs : list ascii)               (* [abc] *)
| SpacePlus                             (* \s+ *)
| Seq (r1 r2 : regex)
| Alt (r1 r2 : regex)                   (* r1|r2 *)
| Opt (r : regex)                       (* (r)? , greedy *)
| Group (name : ascii) (r : regex).     (* (?P<name>r) *)

(** Captured groups, in the order they were closed. *)
Definition groups := list (ascii * string).

Definition ieq (a b : ascii) : bool := Ascii.eqb (lower_char a) (lower_char b).

Fixpoint take (n : nat) (s : string) : string :=
  match n, s with
  | S n', String c s' => String c (take n' s')
  | _, _ => EmptyString
  end.

Fixpoint drop (n : nat) (s : string) : string :=
  match n, s with
  | S n', String _ s' => drop n' s'
  | _, _ => s
  end.

(** Greedy [\s+]: take as much white space as possible, give one
    character back at a time when the continuation fails. *)
Fixpoint spaces_plus {A} (pos : nat) (s : string)
         (k : nat -> string -> option A) : option A :=
  match s with
  | String c s' =>
      if is_space c then
        match spaces_plus (S pos) s' k with
        | Some x => Some x
        | None => k (S pos) s'
        end
      else None
  | EmptyString => None
  end.

Definition one {A} (p : ascii -> bool) (s : string)
           (k : string -> option A) : option A :=
  match s with
  | String c s' => if p c then k s' else None
  | EmptyString => None
  end.

Definition slice (i j : nat) (s : string) : string := take (j - i) (drop i s).

(** [rmatch subj r pos s g k] matches [r] at position [pos] of the
    subject [subj], where [s] is the subject from [pos] on.  A group
    records the text between the positions at which it was entered
    and left. *)
Fixpoint rmatch {A} (subj : string) (r : regex) (pos : nat) (s : string)
         (g : groups) (k : groups -> nat -> string -> option A) : option A :=
  match r with
  | Eps => k g pos s
  | Chr c => one (ieq c) s (k g (S pos))
  | ChrCS c => one (Ascii.eqb c) s (k g (S pos))
  | Digit => one is_digit s (k g (S pos))
  | Range lo hi => one (in_range (code lo) (code hi)) s (k g (S pos))
  | OneOf cs => one (fun c => existsb (Ascii.eqb c) cs) s (k g (S pos))
  | SpacePlus => spaces_plus pos s (k g)
  | Seq r1 r2 =>
      rmatch subj r1 pos s g (fun g' pos' s' => rmatch subj r2 pos' s' g' k)
  | Alt r1 r2 =>
      match rmatch subj r1 pos s g k with
      | Some x => Some x
      | None => rmatch subj r2 pos s g k
      end
  | Opt r1 =>
      match rmatch subj r1 pos s g k with
      | Some x => Some x
      | None => k g pos s
      end
  | Group name r1 =>
      rmatch subj r1 pos s g
        (fun g' pos' s' => k (g' ++ [(name, slice pos pos' subj)])%list pos' s')
  end.

(** [re.match]: the first match in backtracking order, as the groups
    and the unconsumed rest of the subject. *)
Definition re_match (r : regex) (s : string) : option (groups * string) :=
  rmatch s r 0 s [] (fun g _ rest => Some (g, rest)).

Fixpoint seqs (rs : list regex) : regex :=
  match rs with
  | [] => Eps
  | [r] => r
  | r :: rs' => Seq r (seqs rs')
  end.

Fixpoint alts (rs : list regex) : regex :=
  match rs with
  | [] => Eps
  | [r] => r
  | r :: rs' => Alt r (alts rs')
  end.

(** A literal word, as produced by [re.escape]. *)
Fixpoint lit (s : string) : regex :=
  match s with
  | EmptyString => Eps
  | String c EmptyString => Chr c
  | String c s' => Seq (Chr c) (lit s')
  end.

Fixpoint group_lookup (name : ascii) (g : groups) : option string :=
  match g with
  | [] => None
  | (n, v) :: g' => if Ascii.eqb n name then Some v else group_lookup name g'
  end.

End Re.

(* ===================================================================== *)
(** ** [datetime.strptime] and [strftime]                                 *)
(* ===================================================================== *)

Module Strptime.
Import PyStr Re.

(** [_strptime.LocaleTime]: the names [strptime] reads from the
    process locale and the host time zone, lower-cased. [a_month] and
    [f_month] carry an empty name at index 0, as in the library.
    [timezone] lists the names of both zone sets. *)
Record LocaleTime : Type := {
  a_weekday : list string;
  a_month : list string;
  f_month : list string;
  timezone : list string
}.

Fixpoint dedup_str (l : list string) : list string :=
  match l with
  | [] => []
  | x :: l' => if existsb (String.eqb x) l' then dedup_str l' else x :: dedup_str l'
  end.

(** The "C" locale, which is the [LC_TIME] locale of a Python process
    that never calls [setlocale] (the program does not), on a host
    whose [time.tzname] is [(tz0, tz1)]. *)
Definition locale_C (tz0 tz1 : string) (daylight : bool) : LocaleTime := {|
  a_weekday := ["mon"; "tue"; "wed"; "thu"; "fri"; "sat"; "sun"];
  a_month := [""; "jan"; "feb"; "mar"; "apr"; "may"; "jun";
              "jul"; "aug"; "sep"; "oct"; "nov"; "dec"];
  f_month := [""; "january"; "february"; "march"; "april"; "may"; "june";
              "july"; "august"; "september"; "october"; "november"; "december"];
  timezone := (dedup_str ["utc"; "gmt"; lower tz0]
               ++ (if daylight then [lower tz1] else []))%list
|}.

(** [sorted(to_convert, key=len, reverse=True)]: stable, longest first. *)
Fixpoint insert_by_len (x : string) (l : list string) : list string :=
  match l with
  | [] => [x]
  | y :: l' =>
      if (String.length x <? String.length y)%nat
      then y :: insert_by_len x l'
      else x :: l
  end.

Fixpoint sorted_by_len (l : list string) : list string :=
  match l with
  | [] => []
  | x :: l' => insert_by_len x (sorted_by_len l')
  end.

(** [TimeRE.__seqToRE] *)
Definition seqToRE (to_convert : list string) (directive : ascii) : regex :=
  let to_convert := sorted_by_len to_convert in
  if forallb (fun v => negb (truthy v)) to_convert then Eps
  else Group directive (alts (map lit to_convert)).

Definition rng (lo hi : string) : regex :=
  match lo, hi with
  | String a _, String b _ => Range a b
  | _, _ => Eps
  end.

Definition ch (s : string) : regex :=
  match s with String a _ => Chr a | _ => Eps end.

(** [\d{1,n+1}], greedy *)
Fixpoint digits_upto (n : nat) : regex :=
  match n with
  | O => Digit
  | S n' => Seq Digit (Opt (digits_upto n'))
  end.

(** The entries of [TimeRE] for the directives of [lDateFormats]
    (and [%%]); [None] for any other letter. *)
Definition directive_re (loc : LocaleTime) (d : ascii) : option regex :=
  if Ascii.eqb d "d" then
    Some (Group d (alts [Seq (ch "3") (rng "0" "1"); Seq (rng "1" "2") Digit;
                         Seq (ch "0") (rng "1" "9"); rng "1" "9";
                         Seq (ch " ") (rng "1" "9")]))
  else if Ascii.eqb d "m" then
    Some (Group d (alts [Seq (ch "1") (rng "0" "2"); Seq (ch "0") (rng "1" "9");
                         rng "1" "9"]))
  else if Ascii.eqb d "Y" then
    Some (Group d (seqs [Digit; Digit; Digit; Digit]))
  else if Ascii.eqb d "H" then
    Some (Group d (alts [Seq (ch "2") (rng "0" "3"); Seq (rng "0" "1") Digit; Digit]))
  else if Ascii.eqb d "M" then
    Some (Group d (alts [Seq (rng "0" "5") Digit; Digit]))
  else if Ascii.eqb d "S" then
    Some (Group d (alts [Seq (ch "6") (rng "0" "1"); Seq (rng "0" "5") Digit; Digit]))
  else if Ascii.eqb d "z" then
    Some (Group d
      (Alt (seqs [OneOf ["+"; "-"]%char; Digit; Digit; Opt (ch ":"); rng "0" "5"; Digit;
                  Opt (seqs [Opt (ch ":"); rng "0" "5"; Digit;
                             Opt (Seq (ch ".") (digits_upto 5))])])
           (ChrCS "Z")))
  else if Ascii.eqb d "a" then Some (seqToRE (a_weekday loc) d)
  else if Ascii.eqb d "B" then Some (seqToRE (tl (f_month loc)) d)
  else if Ascii.eqb d "b" then Some (seqToRE (tl (a_month loc)) d)
  else if Ascii.eqb d "Z" then Some (seqToRE (timezone loc) d)
  else if Ascii.eqb d "%" then Some (Chr "%")
  else None.

(** [TimeRE.pattern]: a run of white space in the format becomes
    [\s+], [%x] becomes the expression of directive [x], every other
    character stands for itself.  [in_ws] tells that the previous
    character of the format was white space.  [None] is the
    [ValueError] for a stray [%] or a directive outside the table. *)
Fixpoint pattern_aux (loc : LocaleTime) (in_ws : bool) (fmt : string)
  : option (list regex) :=
  match fmt with
  | EmptyString => Some []
  | String c rest =>
      if is_space c then
        match pattern_aux loc true rest with
        | Some rs => Some (if in_ws then rs else SpacePlus :: rs)
        | None => None
        end
      else if Ascii.eqb c "%" then
        match rest with
        | EmptyString => None
        | String d rest' =>
            match directive_re loc d, pattern_aux loc false rest' with
            | Some r, Some rs => Some (r :: rs)
            | _, _ => None
            end
        end
      else
        match pattern_aux loc false rest with
        | Some rs => Some (Chr c :: rs)
        | None => None
        end
  end.

Definition pattern (loc : LocaleTime) (fmt : string) : option regex :=
  match pattern_aux loc false fmt with
  | Some rs => Some (seqs rs)
  | None => None
  end.

(** A [datetime] value; [utcoffset] is the offset of an aware value in
    microseconds. *)
Record datetime : Type := {
  year : Z; month : Z; day : Z;
  hour : Z; minute : Z; second : Z;
  utcoffset : option Z
}.

Definition is_leap (y : Z) : bool :=
  (y mod 4 =? 0) && (negb (y mod 100 =? 0) || (y mod 400 =? 0)).

Definition days_in_month (y m : Z) : Z :=
  if m =? 2 then (if is_leap y then 29 else 28)
  else if (m =? 4) || (m =? 6) || (m =? 9) || (m =? 11) then 30
  else 31.

(** The range checks of the [date] constructor. *)
Definition valid_date (y m d : Z) : bool :=
  (1 <=? y) && (y <=? 9999) && (1 <=? m) && (m <=? 12)
  && (1 <=? d) && (d <=? days_in_month y m).

Definition valid_time (H M S : Z) : bool :=
  (0 <=? H) && (H <=? 23) && (0 <=? M) && (M <=? 59) && (0 <=? S) && (S <=? 59).

(** [timezone(offset)] wants an offset strictly between -24h and 24h. *)
Definition valid_offset (off : option Z) : bool :=
  match off with
  | None => true
  | Some us => (Z.abs us <? 24 * 3600 * 1000000)
  end.

(** The values [_strptime] collects while it walks the groups. *)
Record fields : Type := {
  f_year : Z; f_mon : Z; f_day : Z;
  f_hour : Z; f_min : Z; f_sec : Z;
  f_gmtoff : option Z
}.

Definition fields0 : fields :=
  {| f_year := 1900; f_mon := 1; f_day := 1;
     f_hour := 0; f_min := 0; f_sec := 0; f_gmtoff := None |}.

(** [list.index] *)
Fixpoint index_of (x : string) (l : list string) : option Z :=
  match l with
  | [] => None
  | y :: l' =>
      if String.eqb y x then Some 0
      else match index_of x l' with
           | Some i => Some (i + 1)
           | None => None
           end
  end.

Definition char_at (i : nat) (s : string) : option ascii := String.get i s.

Definition is_char (o : option ascii) (c : ascii) : bool :=
  match o with Some a => Ascii.eqb a c | None => false end.

Fixpoint zeros (n : nat) : string :=
  match n with O => EmptyString | S n' => String "0" (zeros n') end.

(** The [%z] branch of [_strptime]: the offset in microseconds, or
    [None] where the library raises [ValueError]. *)
Definition parse_z (z0 : string) : option Z :=
  if String.eqb z0 "Z" then Some 0
  else
    let zo :=
      if is_char (char_at 3 z0) ":" then
        let z := take 3 z0 +:+ drop 4 z0 in
        if (5 <? String.length z)%nat then
          if negb (is_char (char_at 5 z) ":") then None
          else Some (take 5 z +:+ drop 6 z)
        else Some z
      else Some z0 in
    match zo with
    | None => None
    | Some z =>
        let seconds :=
          match slice 5 7 z with
          | EmptyString => Some 0
          | t => int t
          end in
        let remainder := drop 8 z in
        match int (slice 1 3 z), int (slice 3 5 z), seconds,
              int (remainder +:+ zeros (6 - String.length remainder)) with
        | Some h, Some m, Some s, Some frac =>
            let us := (h * 3600 + m * 60 + s) * 1000000 + frac in
            Some (if startswith z "-" then - us else us)
        | _, _, _, _ => None
        end
    end.

(** One iteration of the loop over [found_dict]. *)
Definition set_field (loc : LocaleTime) (f : fields) (kv : ascii * string)
  : option fields :=
  let '(key, v) := kv in
  let upd (g : Z -> fields) (o : option Z) : option fields :=
    match o with Some n => Some (g n) | None => None end in
  if Ascii.eqb key "Y" then
    upd (fun n => {| f_year := n; f_mon := f_mon f; f_day := f_day f; f_hour := f_hour f;
                     f_min := f_min f; f_sec := f_sec f; f_gmtoff := f_gmtoff f |}) (int v)
  else if Ascii.eqb key "m" then
    upd (fun n => {| f_year := f_year f; f_mon := n; f_day := f_day f; f_hour := f_hour f;
                     f_min := f_min f; f_sec := f_sec f; f_gmtoff := f_gmtoff f |}) (int v)
  else if Ascii.eqb key "B" then
    upd (fun n => {| f_year := f_year f; f_mon := n; f_day := f_day f; f_hour := f_hour f;
                     f_min := f_min f; f_sec := f_sec f; f_gmtoff := f_gmtoff f |})
        (index_of (lower v) (f_month loc))
  else if Ascii.eqb key "b" then
    upd (fun n => {| f_year := f_year f; f_mon := n; f_day := f_day f; f_hour := f_hour f;
                     f_min := f_min f; f_sec := f_sec f; f_gmtoff := f_gmtoff f |})
        (index_of (lower v) (a_month loc))
  else if Ascii.eqb key "d" then
    upd (fun n => {| f_year := f_year f; f_mon := f_mon f; f_day := n; f_hour := f_hour f;
                     f_min := f_min f; f_sec := f_sec f; f_gmtoff := f_gmtoff f |}) (int v)
  else if Ascii.eqb key "H" then
    upd (fun n => {| f_year := f_year f; f_mon := f_mon f; f_day := f_day f; f_hour := n;
                     f_min := f_min f; f_sec := f_sec f; f_gmtoff := f_gmtoff f |}) (int v)
  else if Ascii.eqb key "M" then
    upd (fun n => {| f_year := f_year f; f_mon := f_mon f; f_day := f_day f; f_hour := f_hour f;
                     f_min := n; f_sec := f_sec f; f_gmtoff := f_gmtoff f |}) (int v)
  else if Ascii.eqb key "S" then
    upd (fun n => {| f_year := f_year f; f_mon := f_mon f; f_day := f_day f; f_hour := f_hour f;
                     f_min := f_min f; f_sec := n; f_gmtoff := f_gmtoff f |}) (int v)
  else if Ascii.eqb key "a" then
    (* the weekday is looked up, then recomputed from the date *)
    upd (fun _ => f) (index_of (lower v) (a_weekday loc))
  else if Ascii.eqb key "z" then
    upd (fun n => {| f_year := f_year f; f_mon := f_mon f; f_day := f_day f; f_hour := f_hour f;
                     f_min := f_min f; f_sec := f_sec f; f_gmtoff := Some n |}) (parse_z v)
  else
    (* %Z only selects a DST flag, which [datetime] drops *)
    Some f.

Fixpoint set_fields (loc : LocaleTime) (f : fields) (g : groups) : option fields :=
  match g with
  | [] => Some f
  | kv :: g' =>
      match set_field loc f kv with
      | Some f' => set_fields loc f' g'
      | None => None
      end
  end.

(** [datetime.strptime(data_string, format)]; [None] is [ValueError]. *)
Definition strptime (loc : LocaleTime) (data_string format : string)
  : option datetime :=
  match pattern loc format with
  | None => None
  | Some re =>
      match re_match re data_string with
      | None => None                          (* does not match format *)
      | Some (found, rest) =>
          if truthy rest then None            (* unconverted data remains *)
          else
            match set_fields loc fields0 found with
            | None => None
            | Some f =>
                if valid_date (f_year f) (f_mon f) (f_day f)
                   && valid_time (f_hour f) (f_min f) (f_sec f)
                   && valid_offset (f_gmtoff f)
                then Some {| year := f_year f; month := f_mon f; day := f_day f;
                             hour := f_hour f; minute := f_min f; second := f_sec f;
                             utcoffset := f_gmtoff f |}
                else None
            end
      end
  end.

(** What [strptime] and [strftime] take from the host: the locale
    names, and whether the C library pads [%Y] to four digits (as the
    Python documentation shows it) or prints the bare number (as glibc
    does), which differ for the years before 1000. *)
Record Host : Type := {
  locale_time : LocaleTime;
  pads_year : bool
}.

(** [%Y] for a year between 0 and 9999. *)
Definition year_text (pads : bool) (y : Z) : string :=
  if pads || (1000 <=? y) then pad4 y
  else if y <? 10 then String (digit_char y) EmptyString
  else if y <? 100 then pad2 y
  else String (digit_char (y / 100)) (pad2 y).

(** [dt.strftime("%Y-%m-%d")] *)
Definition strftime_Ymd (pads : bool) (dt : datetime) : string :=
  year_text pads (year dt) +:+ "-" +:+ pad2 (month dt) +:+ "-" +:+ pad2 (day dt).

End Strptime.

(* ===================================================================== *)
(** ** The date normaliser                                                *)
(* ===================================================================== *)

Definition lDateFormats : list string :=
  [ "%m/%d/%Y";
    "%m-%d-%Y";
    "%Y-%m-%d";
    "%d/%m/%Y";
    "%d-%m-%Y";
    "%B %d, %Y";
    "%b %d, %Y";
    "%a, %d %b %Y %H:%M:%S %Z";
    "%a, %d %b %Y %H:%M:%S %z";
    "%Y-%m-%dT%H:%M:%S%z";
    "%Y-%m-%dT%H:%M:%SZ" ].

(** The [for sFmt in lDateFormats] loop: the first format that parses
    wins, otherwise the (stripped) text is returned. *)
Fixpoint try_formats (host : Strptime.Host) (sDate : string)
         (fmts : list string) : string :=
  match fmts with
  | [] => sDate
  | sFmt :: fmts' =>
      match Strptime.strptime (Strptime.locale_time host) sDate sFmt with
      | Some dtDate => Strptime.strftime_Ymd (Strptime.pads_year host) dtDate
      | None => try_formats host sDate fmts'
      end
  end.

Definition parseAndFormatDate (host : Strptime.Host) (sDate : string) : string :=
  let sDate := PyStr.strip sDate in
  if negb (PyStr.truthy sDate) then ""
  else try_formats host sDate lDateFormats.

(* ===================================================================== *)
(** ** The spider                                                         *)
(* ===================================================================== *)

(** [dConfigData]: the configuration dictionary, one optional entry per
    key the program reads. *)
Record Config : Type := {
  cfg_startUrl : option string;
  cfg_urlList : option string;
  cfg_maxUrls : option Z;
  cfg_crawlDepth : option Z;
  cfg_parentDir : option string;
  cfg_robotFilter : option bool;
  cfg_userAgent : option string;
  cfg_log : option bool
}.

(** [d.get(key, default)] *)
Definition get {A} (entry : option A) (default : A) : A :=
  match entry with Some v => v | None => default end.

(** What the program asks of a fetched document: its URL, the results of
    the XPath queries of [parse] (anchors already made absolute by
    [response.urljoin], in document order), the body size and the
    [Last-Modified] header. *)
Record Response : Type := {
  resp_url : string;
  xpath_title : option string;
  xpath_anchors : list string;
  xpath_controls : nat;
  body_len : nat;
  hdr_last_modified : option string;
  meta_last_modified : option string;            (* name='last-modified' *)
  meta_article_modified_time : option string;    (* property='article:modified_time' *)
  meta_last_modified_us : option string;         (* name='last_modified' *)
  meta_modified : option string                  (* name='modified' *)
}.

(** The parts of a [urllib.parse.ParseResult] the program reads. *)
Record ParseResult : Type := {
  url_netloc : string;
  url_path : string
}.

(** The library functions the spider calls and that are not modelled
    above: [urllib.parse.urlparse] ([None] when it raises [ValueError],
    as on a malformed host); the constructor [scrapy.Request], as
    whether it accepts a URL (it raises [ValueError] on a URL without a
    scheme, such as a bare host name or a [mailto:] link); decoding plus
    [email.utils.parsedate_to_datetime] ([None] when either raises);
    together with the host [strptime] and [strftime] run on. *)
Record Lib : Type := {
  urlparse : string -> option ParseResult;
  request_ok : string -> bool;
  parsedate_to_datetime : string -> option Strptime.datetime;
  host : Strptime.Host
}.

(** [dItem] *)
Record Item : Type := {
  url : string;
  title : string;
  linkCount : nat;
  controlCount : nat;
  byteCount : nat;
  updated : string
}.

(** [scrapy.Request(url=..., callback=self.parse, dont_filter=...)] *)
Record Request : Type := {
  req_url : string;
  dont_filter : bool
}.

(** What the program does to the outside world besides yielding. *)
Inductive Event : Type :=
| Print (line : string)                              (* print(...) *)
| LogError (msg : string)                            (* logging.error(...) *)
| CsvWritten (file : string) (rows : list Item)      (* header + one row per item *)
| LogWritten (file : string) (lines : list string).

(** The attributes of a [spiderCustom] instance.  [lUrlList] exists only
    in URL-list mode, [sStartUrl] and [allowed_domains] only in crawl
    mode. *)
Record Spider : Type := {
  dConfigData : Config;
  iMaxUrls : Z;
  iCrawlDepth : Z;
  sParentDir : string;
  lItems : list Item;
  sStartTitle : string;
  lUrlSet : gset string;
  bUrlListMode : bool;
  lUrlList : option (list string);
  sStartUrl : option string;
  allowed_domains : option (list string);
  bPrintedCrawlingMessage : bool
}.

(** [memoryLogHandler]: the formatted records it has collected. *)
Record memoryLogHandler : Type := { lLogRecords : list string }.

(** The module-level global.  Line 21 is its only assignment in the
    program: no [memoryLogHandler] is ever created or installed. *)
Definition MEM_LOG_HANDLER : option memoryLogHandler := None.

(** [[sUrl.strip() for sUrl in s.splitlines() if sUrl.strip()]] *)
Definition stripped_lines (s : string) : list string :=
  filter (fun u => PyStr.truthy u = true) (map PyStr.strip (PyStr.splitlines s)).

(** [spiderCustom.__init__]; [None] when it raises (crawl mode without a
    [startUrl]: [urlparse(None)] yields bytes, on which
    [startswith("www.")] is a [TypeError]; crawl mode with a [startUrl]
    on which [urlparse] raises).  The writes to the class
    dictionary [custom_settings] concern the framework, whose settings
    in force are part of [Engine] below. *)
Definition init (lib : Lib) (cfg : Config) : option Spider :=
  let bMode := PyStr.truthy (PyStr.strip (get (cfg_urlList cfg) "")) in
  let base := {|
    dConfigData := cfg;
    iMaxUrls := get (cfg_maxUrls cfg) 30;
    iCrawlDepth := get (cfg_crawlDepth cfg) 3;
    sParentDir := get (cfg_parentDir cfg) "";
    lItems := [];
    sStartTitle := "";
    lUrlSet := ∅;
    bUrlListMode := bMode;
    lUrlList := None;
    sStartUrl := None;
    allowed_domains := None;
    bPrintedCrawlingMessage := false |} in
  if bMode then
    Some {| dConfigData := cfg;
            iMaxUrls := iMaxUrls base; iCrawlDepth := iCrawlDepth base;
            sParentDir := sParentDir base; lItems := []; sStartTitle := "";
            lUrlSet := ∅; bUrlListMode := true;
            lUrlList :=
              Some (elements (list_to_set (stripped_lines (get (cfg_urlList cfg) ""))
                                : gset string));
            sStartUrl := None; allowed_domains := None;
            bPrintedCrawlingMessage := false |}
  else
    match cfg_startUrl cfg with
    | None => None
    | Some sStart =>
        match urlparse lib sStart with
        | None => None
        | Some parseResult =>
            let sDomain := url_netloc parseResult in
            let sDomain := if PyStr.startswith sDomain "www." then Re.drop 4 sDomain
                           else sDomain in
            Some {| dConfigData := cfg;
                    iMaxUrls := iMaxUrls base; iCrawlDepth := iCrawlDepth base;
                    sParentDir := sParentDir base; lItems := []; sStartTitle := "";
                    lUrlSet := ∅; bUrlListMode := false;
                    lUrlList := None;
                    sStartUrl := Some sStart; allowed_domains := Some [sDomain];
                    bPrintedCrawlingMessage := false |}
        end
    end.

Definition with_lUrlSet (self : Spider) (s : gset string) : Spider :=
  {| dConfigData := dConfigData self; iMaxUrls := iMaxUrls self;
     iCrawlDepth := iCrawlDepth self; sParentDir := sParentDir self;
     lItems := lItems self; sStartTitle := sStartTitle self;
     lUrlSet := s; bUrlListMode := bUrlListMode self;
     lUrlList := lUrlList self; sStartUrl := sStartUrl self;
     allowed_domains := allowed_domains self;
     bPrintedCrawlingMessage := bPrintedCrawlingMessage self |}.

(** The [for sUrl in self.lUrlList] loop of [startRequests].  A seed
    is added to the set before its request is built: when
    [scrapy.Request] raises, the seed stays in the set and the exception
    ends the generator, so that the seeds after it are never reached. *)
Fixpoint start_list (lib : Lib) (seen : gset string) (urls : list string)
  : gset string * list Request :=
  match urls with
  | [] => (seen, [])
  | sUrl :: urls' =>
      if bool_decide (sUrl ∈ seen) then start_list lib seen urls'
      else if request_ok lib sUrl then
        let '(seen', reqs) := start_list lib ({[sUrl]} ∪ seen) urls' in
        (seen', {| req_url := sUrl; dont_filter := true |} :: reqs)
      else ({[sUrl]} ∪ seen, [])
  end.

(** [spiderCustom.startRequests]: the spider afterwards and the requests
    it yields, in order.  In crawl mode too the URL is added before
    [scrapy.Request] is called, which may raise. *)
Definition startRequests (lib : Lib) (self : Spider) : Spider * list Request :=
  if bUrlListMode self then
    let '(seen, reqs) := start_list lib (lUrlSet self) (get (lUrlList self) []) in
    (with_lUrlSet self seen, reqs)
  else
    match sStartUrl self with
    | Some sStart =>
        (with_lUrlSet self ({[sStart]} ∪ lUrlSet self),
         if request_ok lib sStart
         then [{| req_url := sStart; dont_filter := false |}]
         else [])
    | None => (self, [])
    end.

(** [x or ""] for the result of [.get()] *)
Definition or_empty (o : option string) : string := get o "".

(** One of the four meta look-ups of [parse], entered with the current
    [sUpdatedDate]. *)
Definition try_meta (lib : Lib) (sUpdatedDate : string) (meta : option string)
  : string :=
  if negb (PyStr.truthy sUpdatedDate) then
    let sMeta := or_empty meta in
    if PyStr.truthy sMeta then parseAndFormatDate (host lib) sMeta
    else sUpdatedDate
  else sUpdatedDate.

(** Lines 174-196 of [parse]: the value of [sUpdatedDate]. *)
Definition resolve_updated (lib : Lib) (response : Response) : string :=
  let sUpdatedDate :=
    match hdr_last_modified response with
    | Some raw =>
        match parsedate_to_datetime lib raw with
        | Some dtLast => Strptime.strftime_Ymd (Strptime.pads_year (host lib)) dtLast
        | None => ""
        end
    | None => ""
    end in
  if negb (PyStr.truthy sUpdatedDate) then
    let sUpdatedDate := try_meta lib "" (meta_last_modified response) in
    let sUpdatedDate := try_meta lib sUpdatedDate (meta_article_modified_time response) in
    let sUpdatedDate := try_meta lib sUpdatedDate (meta_last_modified_us response) in
    try_meta lib sUpdatedDate (meta_modified response)
  else sUpdatedDate.

(** The [for sNextUrl in lHrefSet] loop of [parse].  An exception ends
    the generator, and with it the loop: [urlparse] is called only when
    a parent directory is set, and a link is added to the set before
    [scrapy.Request] is called on it. *)
Fixpoint follow_links (lib : Lib) (sParent : string) (seen : gset string)
         (hrefs : list string) : gset string * list Request :=
  match hrefs with
  | [] => (seen, [])
  | sNextUrl :: hrefs' =>
      let outside :=
        if PyStr.truthy sParent then
          match urlparse lib sNextUrl with
          | Some parseResult =>
              Some (negb (PyStr.startswith (url_path parseResult) sParent))
          | None => None
          end
        else Some false in
      match outside with
      | None => (seen, [])
      | Some true => follow_links lib sParent seen hrefs'
      | Some false =>
          if bool_decide (sNextUrl ∈ seen) then follow_links lib sParent seen hrefs'
          else if request_ok lib sNextUrl then
            let '(seen', reqs) :=
              follow_links lib sParent ({[sNextUrl]} ∪ seen) hrefs' in
            (seen', {| req_url := sNextUrl; dont_filter := false |} :: reqs)
          else ({[sNextUrl]} ∪ seen, [])
      end
  end.

Definition decimal (n : nat) : string :=
  NilZero.string_of_uint (Nat.to_uint n).

Definition decimalZ (n : Z) : string :=
  if n <? 0 then "-" +:+ decimal (Z.to_nat (- n)) else decimal (Z.to_nat n).

(** [spiderCustom.parse]: the spider afterwards, the item it yields,
    the requests it yields after the item, and what it prints or logs. *)
Definition parse (lib : Lib) (self : Spider) (response : Response)
  : Spider * Item * list Request * list Event :=
  let sUrl := resp_url response in
  let sTitle := or_empty (xpath_title response) in
  let bAnnounce := negb (bUrlListMode self) && negb (bPrintedCrawlingMessage self) in
  let sStart := if negb (PyStr.truthy (sStartTitle self)) then sTitle
                else sStartTitle self in
  let lHrefSet : gset string := list_to_set (xpath_anchors response) in
  let dItem := {| url := sUrl; title := sTitle;
                  linkCount := size lHrefSet;
                  controlCount := xpath_controls response;
                  byteCount := body_len response;
                  updated := resolve_updated lib response |} in
  let printed := ((if bAnnounce then [Print ("Crawling " +:+ sUrl)] else [])
                  ++ [Print sTitle])%list in
  let '(seen, reqs, logged) :=
    if negb (bUrlListMode self) then
      if Z.of_nat (size (lUrlSet self)) <? iMaxUrls self then
        let '(seen, reqs) :=
          follow_links lib (sParentDir self) (lUrlSet self) (elements lHrefSet) in
        (seen, reqs, [])
      else
        (lUrlSet self, [],
         [LogError ("Reached maximum URL count: " +:+ decimalZ (iMaxUrls self))])
    else (lUrlSet self, [], []) in
  ({| dConfigData := dConfigData self; iMaxUrls := iMaxUrls self;
      iCrawlDepth := iCrawlDepth self; sParentDir := sParentDir self;
      lItems := (lItems self ++ [dItem])%list;
      sStartTitle := sStart;
      lUrlSet := seen; bUrlListMode := bUrlListMode self;
      lUrlList := lUrlList self; sStartUrl := sStartUrl self;
      allowed_domains := allowed_domains self;
      bPrintedCrawlingMessage := bPrintedCrawlingMessage self || bAnnounce |},
   dItem, reqs, (printed ++ logged)%list).

(** *** [closed] *)

(** The file system as [closed] sees it: the paths that exist, and for
    each path the text of the exception that opening it for writing
    raises, if any. *)
Record FileSystem : Type := {
  fs_files : gset string;
  fs_write_error : string -> option string
}.

(** The character class of the [re.sub] call of [closed]: backslash,
    slash, colon, star, question mark, double quote (code 34), the two
    angle brackets and the bar. *)
Definition unsafe_chars : list ascii :=
  ["\"; "/"; ":"; "*"; "?"; ascii_of_nat 34; "<"; ">"; "|"]%char.

Fixpoint sanitize (s : string) : string :=
  match s with
  | EmptyString => EmptyString
  | String c s' =>
      if existsb (Ascii.eqb c) unsafe_chars then sanitize s'
      else String c (sanitize s')
  end.

(** [f"{iSuffix:02d}"] *)
Definition fmt_02d (n : nat) : string :=
  if (n <? 10)%nat then "0" +:+ decimal n else decimal n.

(** [f"{sCsvRoot}-{iSuffix:02d}.csv"] *)
Definition suffixed_name (sCsvRoot : string) (iSuffix : nat) : string :=
  sCsvRoot +:+ "-" +:+ fmt_02d iSuffix +:+ ".csv".

(** The [while os.path.exists(sCsvFile)] loop.  The candidates are
    pairwise distinct, so [S (size files)] rounds always suffice; [None]
    stands for a loop that is still running when the rounds are used up. *)
Fixpoint free_name (files : gset string) (sCsvRoot : string) (sCsvFile : string)
         (iSuffix : nat) (rounds : nat) : option string :=
  if bool_decide (sCsvFile ∈ files) then
    match rounds with
    | O => None
    | S rounds' =>
        free_name files sCsvRoot (suffixed_name sCsvRoot iSuffix)
                  (S iSuffix) rounds'
    end
  else Some sCsvFile.

Definition csv_root (self : Spider) : string :=
  let sRootName := if PyStr.truthy (PyStr.strip (sStartTitle self))
                   then PyStr.strip (sStartTitle self) else "output" in
  sanitize sRootName.

Definition csv_file (self : Spider) (fs : FileSystem) : option string :=
  let sCsvRoot := csv_root self in
  free_name (fs_files fs) sCsvRoot (sCsvRoot +:+ ".csv") 1 (S (size (fs_files fs))).

(** [spiderCustom.closed], reading the global [handler]: what it writes,
    logs and prints, in order; [None] only if the name loop did not end. *)
Definition closed_with (handler : option memoryLogHandler)
           (self : Spider) (fs : FileSystem) : option (list Event) :=
  let sCsvRoot := csv_root self in
  match csv_file self fs with
  | None => None
  | Some sCsvFile =>
      match fs_write_error fs sCsvFile with
      | Some exc => Some [LogError ("Failed to write CSV file: " +:+ exc)]
      | None =>
          let csv := [CsvWritten sCsvFile (lItems self)] in
          let log :=
            match get (cfg_log (dConfigData self)) false, handler with
            | true, Some h =>
                let sLogFile := sCsvRoot +:+ ".log" in
                match fs_write_error fs sLogFile with
                | None => [LogWritten sLogFile (lLogRecords h)]
                | Some exc => [LogError ("Failed to write log file: " +:+ exc)]
                end
            | _, _ => []
            end in
          Some (csv ++ log
                ++ [Print ("Saved " +:+ decimal (length (lItems self))
                           +:+ " links to " +:+ sCsvFile)])%list
      end
  end.

Definition closed (self : Spider) (fs : FileSystem) : option (list Event) :=
  closed_with MEM_LOG_HANDLER self fs.

(* ===================================================================== *)
(** ** The crawl engine                                                   *)
(* ===================================================================== *)

(** The part of the crawling framework the spider is driven by.
    [download] is the document fetcher ([None]: no response reaches
    [parse] -- network failure, non-2xx status, robots.txt refusal);
    [DEPTH_LIMIT] is the depth setting in force (0: none); [offsite]
    tells whether a URL lies outside the given allowed domains;
    [fingerprint] is the canonical form of a URL under which the
    duplicate filter remembers a request (trailing slash added to an
    empty path, fragment dropped, ...); [lifo] is the queue discipline
    of the scheduler. *)
Record Engine : Type := {
  download : string -> option Response;
  DEPTH_LIMIT : Z;
  offsite : option (list string) -> string -> bool;
  fingerprint : string -> string;
  lifo : bool
}.

Record EngineState : Type := {
  es_spider : Spider;
  es_queue : list (Request * Z);       (* pending requests with their depth *)
  es_seen : gset string;               (* the duplicate filter: fingerprints *)
  es_items : list Item;                (* items handed to the engine *)
  es_fetched : list string;            (* URLs given to the downloader *)
  es_events : list Event
}.

(** Whether a request yielded by a callback reaches the queue: the
    off-site and depth filters, then the duplicate filter of the
    scheduler; [dont_filter] bypasses the first and the last. *)
Definition passes_filters (eng : Engine) (sp : Spider) (seen : gset string)
           (rd : Request * Z) : bool :=
  let '(r, depth) := rd in
  (dont_filter r || negb (offsite eng (allowed_domains sp) (req_url r)))
  && ((DEPTH_LIMIT eng <=? 0) || (depth <=? DEPTH_LIMIT eng))
  && (dont_filter r || negb (bool_decide (fingerprint eng (req_url r) ∈ seen))).

Fixpoint schedule (eng : Engine) (sp : Spider) (seen : gset string)
         (queue : list (Request * Z)) (reqs : list (Request * Z))
  : gset string * list (Request * Z) :=
  match reqs with
  | [] => (seen, queue)
  | rd :: reqs' =>
      if passes_filters eng sp seen rd then
        schedule eng sp
                 (if dont_filter (fst rd) then seen
                  else {[fingerprint eng (req_url (fst rd))]} ∪ seen)
                 (queue ++ [rd])%list reqs'
      else schedule eng sp seen queue reqs'
  end.

(** The next request to download. *)
Definition pop (eng : Engine) (queue : list (Request * Z))
  : option ((Request * Z) * list (Request * Z)) :=
  if lifo eng then
    match rev queue with
    | [] => None
    | rd :: q' => Some (rd, rev q')
    end
  else
    match queue with
    | [] => None
    | rd :: q' => Some (rd, q')
    end.

(** One turn of the engine: download the next request and, when a
    response arrives, run [parse] on it to completion and schedule what
    it yields. *)
Definition engine_step (lib : Lib) (eng : Engine) (st : EngineState)
  : option EngineState :=
  match pop eng (es_queue st) with
  | None => None
  | Some ((r, depth), queue) =>
      match download eng (req_url r) with
      | None =>
          Some {| es_spider := es_spider st; es_queue := queue;
                  es_seen := es_seen st; es_items := es_items st;
                  es_fetched := (es_fetched st ++ [req_url r])%list;
                  es_events := es_events st |}
      | Some response =>
          let '(sp, dItem, reqs, evs) := parse lib (es_spider st) response in
          let '(seen, queue') :=
            schedule eng sp (es_seen st) queue (map (fun r' => (r', depth + 1)) reqs) in
          Some {| es_spider := sp; es_queue := queue'; es_seen := seen;
                  es_items := (es_items st ++ [dItem])%list;
                  es_fetched := (es_fetched st ++ [req_url r])%list;
                  es_events := (es_events st ++ evs)%list |}
      end
  end.

(** Run until the queue is empty; [None] when [fuel] turns were not
    enough. *)
Fixpoint engine_loop (lib : Lib) (eng : Engine) (fuel : nat) (st : EngineState)
  : option EngineState :=
  match es_queue st with
  | [] => Some st
  | _ :: _ =>
      match fuel with
      | O => None
      | S fuel' =>
          match engine_step lib eng st with
          | Some st' => engine_loop lib eng fuel' st'
          | None => None
          end
      end
  end.

(** Open the spider: [__init__], then [startRequests], whose requests
    enter the scheduler at depth 0. *)
Definition open_spider (lib : Lib) (eng : Engine) (cfg : Config)
  : option EngineState :=
  match init lib cfg with
  | None => None
  | Some sp0 =>
      let '(sp, reqs) := startRequests lib sp0 in
      let '(seen, queue) := schedule eng sp ∅ [] (map (fun r => (r, 0)) reqs) in
      Some {| es_spider := sp; es_queue := queue; es_seen := seen;
              es_items := []; es_fetched := []; es_events := [] |}
  end.

(** A whole crawl up to the moment [closed] is called. *)
Definition crawl (lib : Lib) (eng : Engine) (cfg : Config) (fuel : nat)
  : option EngineState :=
  match open_spider lib eng cfg with
  | None => None
  | Some st => engine_loop lib eng fuel st
  end.

(** The whole run: the crawl, then [closed]. *)
Definition run (lib : Lib) (eng : Engine) (fs : FileSystem) (cfg : Config)
           (fuel : nat) : option (Spider * list Event) :=
  match crawl lib eng cfg fuel with
  | None => None
  | Some st =>
      match closed (es_spider st) fs with
      | None => None
      | Some evs => Some (es_spider st, (es_events st ++ evs)%list)
      end
  end.

(* ===================================================================== *)
(** ** Auxiliary definitions for the statements below                     *)
(* ===================================================================== *)

Definition digits10 : list ascii :=
  ["0"; "1"; "2"; "3"; "4"; "5"; "6"; "7"; "8"; "9"]%char.

(** [P lo /\ P (lo+1) /\ ... ] for [n] consecutive integers. *)
Fixpoint all_from (P : Z -> Prop) (lo : Z) (n : nat) : Prop :=
  match n with
  | O => True
  | S n' => P lo /\ all_from P (lo + 1) n'
  end.

(** [s'] is what is left of [s] after some characters. *)
Inductive suffix_of : string -> string -> Prop :=
| suffix_refl s : suffix_of s s
| suffix_skip c s s' : suffix_of s' s -> suffix_of s' (String c s).

(** [s] starts with four digits. *)
Definition four_digits (s : string) : bool :=
  match s with
  | String a (String b (String c (String d _))) =>
      PyStr.is_digit a && PyStr.is_digit b && PyStr.is_digit c && PyStr.is_digit d
  | _ => false
  end.

(** [s] has no four digits in a row. *)
Fixpoint no_four_digit_run (s : string) : bool :=
  negb (four_digits s)
  && match s with
     | EmptyString => true
     | String _ s' => no_four_digit_run s'
     end.

(** The expression of [%Y]. *)
Definition year_re : Re.regex :=
  Re.Group "Y" (Re.Seq Re.Digit (Re.Seq Re.Digit (Re.Seq Re.Digit Re.Digit))).

(** Reading a decimal numeral back, leading zeros allowed. *)
Definition read_nat (s : string) : option nat :=
  option_map Nat.of_uint (NilZero.uint_of_string s).

(** The order [sorted_by_len] sorts by. *)
Definition longer_first (a b : string) : Prop :=
  (String.length b <= String.length a)%nat.

(* ===================================================================== *)
(** ** The specification's wording, for comparison                        *)
(* ===================================================================== *)

(** The first element that is not empty, or the empty text. *)
Fixpoint first_nonempty (l : list string) : string :=
  match l with
  | [] => ""
  | s :: l' => if PyStr.truthy s then s else first_nonempty l'
  end.

(** The first format of the list that parses [s]. *)
Fixpoint first_parse (loc : Strptime.LocaleTime) (s : string) (fmts : list string)
  : option Strptime.datetime :=
  match fmts with
  | [] => None
  | f :: fmts' =>
      match Strptime.strptime loc s f with
      | Some dt => Some dt
      | None => first_parse loc s fmts'
      end
  end.

(** The value of the [Last-Modified] header as a candidate: the date it
    parses to, nothing when it is missing or does not parse. *)
Definition header_candidate (lib : Lib) (response : Response) : string :=
  match hdr_last_modified response with
  | Some raw =>
      match parsedate_to_datetime lib raw with
      | Some dt => Strptime.strftime_Ymd (Strptime.pads_year (host lib)) dt
      | None => ""
      end
  | None => ""
  end.

(** A meta candidate as the specification words it: the canonical date
    when a known format matches, the raw text verbatim otherwise. *)
Definition meta_candidate_spec (lib : Lib) (meta : option string) : string :=
  match meta with
  | None => ""
  | Some raw =>
      match first_parse (Strptime.locale_time (host lib)) (PyStr.strip raw)
                        lDateFormats with
      | Some dt => Strptime.strftime_Ymd (Strptime.pads_year (host lib)) dt
      | None => raw
      end
  end.

Definition updated_spec (lib : Lib) (response : Response) : string :=
  first_nonempty
    [ header_candidate lib response;
      meta_candidate_spec lib (meta_last_modified response);
      meta_candidate_spec lib (meta_article_modified_time response);
      meta_candidate_spec lib (meta_last_modified_us response);
      meta_candidate_spec lib (meta_modified response) ].

(** A meta candidate as the program computes it: the canonical date when
    a known format matches the trimmed text, the trimmed text otherwise
    (so a blank text counts as absent). *)
Definition meta_candidate (lib : Lib) (meta : option string) : string :=
  match meta with
  | None => ""
  | Some raw =>
      let trimmed := PyStr.strip raw in
      if PyStr.truthy trimmed then
        match first_parse (Strptime.locale_time (host lib)) trimmed lDateFormats with
        | Some dt => Strptime.strftime_Ymd (Strptime.pads_year (host lib)) dt
        | None => trimmed
        end
      else ""
  end.

Definition updated_trimmed (lib : Lib) (response : Response) : string :=
  first_nonempty
    [ header_candidate lib response;
      meta_candidate lib (meta_last_modified response);
      meta_candidate lib (meta_article_modified_time response);
      meta_candidate lib (meta_last_modified_us response);
      meta_candidate lib (meta_modified response) ].

(** The claim about a failed report write, as the specification words
    it: the failure is reported, and the rest of the shutdown still
    happens -- the run log is written when logging is on, and the
    summary line is printed. *)
Definition csv_failure_is_not_fatal (self : Spider) (fs : FileSystem) : Prop :=
  forall sCsvFile exc evs,
    csv_file self fs = Some sCsvFile ->
    fs_write_error fs sCsvFile = Some exc ->
    closed self fs = Some evs ->
    In (LogError ("Failed to write CSV file: " +:+ exc)) evs
    /\ (get (cfg_log (dConfigData self)) false = true ->
        exists lines, In (LogWritten (csv_root self +:+ ".log") lines) evs)
    /\ In (Print ("Saved " +:+ decimal (length (lItems self))
                  +:+ " links to " +:+ sCsvFile)) evs.

(** The names of the files a trace writes, in order. *)
Fixpoint written_files (evs : list Event) : list string :=
  match evs with
  | [] => []
  | CsvWritten f _ :: evs' => f :: written_files evs'
  | LogWritten f _ :: evs' => f :: written_files evs'
  | _ :: evs' => written_files evs'
  end.

(** The lines a trace prints, in order. *)
Fixpoint printed_lines (evs : list Event) : list string :=
  match evs with
  | [] => []
  | Print l :: evs' => l :: printed_lines evs'
  | _ :: evs' => printed_lines evs'
  end.

(** The configuration with another [startUrl] entry. *)
Definition with_startUrl (cfg : Config) (o : option string) : Config :=
  {| cfg_startUrl := o; cfg_urlList := cfg_urlList cfg;
     cfg_maxUrls := cfg_maxUrls cfg; cfg_crawlDepth := cfg_crawlDepth cfg;
     cfg_parentDir := cfg_parentDir cfg; cfg_robotFilter := cfg_robotFilter cfg;
     cfg_userAgent := cfg_userAgent cfg; cfg_log := cfg_log cfg |}.

(** The spider with another configuration dictionary. *)
Definition with_config (self : Spider) (cfg : Config) : Spider :=
  {| dConfigData := cfg; iMaxUrls := iMaxUrls self;
     iCrawlDepth := iCrawlDepth self; sParentDir := sParentDir self;
     lItems := lItems self; sStartTitle := sStartTitle self;
     lUrlSet := lUrlSet self; bUrlListMode := bUrlListMode self;
     lUrlList := lUrlList self; sStartUrl := sStartUrl self;
     allowed_domains := allowed_domains self;
     bPrintedCrawlingMessage := bPrintedCrawlingMessage self |}.

(** The engine state with another configuration dictionary in its
    spider. *)
Definition es_with_config (st : EngineState) (cfg : Config) : EngineState :=
  {| es_spider := with_config (es_spider st) cfg; es_queue := es_queue st;
     es_seen := es_seen st; es_items := es_items st;
     es_fetched := es_fetched st; es_events := es_events st |}.

(** The request [startRequests] makes for a seed. *)
Definition seed_request (sUrl : string) : Request * Z :=
  ({| req_url := sUrl; dont_filter := true |}, 0).

(** The seed list of URL-list mode. *)
Definition seed_urls (cfg : Config) : list string :=
  elements (list_to_set (stripped_lines (get (cfg_urlList cfg) "")) : gset string).

(** The seeds whose download fails. *)
Definition failed_seeds (eng : Engine) (urls : list string) : list string :=
  filter (fun u => download eng u = None) urls.

(* ===================================================================== *)
(** ** A small web to run the program on                                  *)
(* ===================================================================== *)

Module Demo.

Fixpoint until_slash (s : string) : string :=
  match s with
  | EmptyString => EmptyString
  | String c s' => if Ascii.eqb c "/" then EmptyString else String c (until_slash s')
  end.

Fixpoint from_slash (s : string) : string :=
  match s with
  | EmptyString => EmptyString
  | String c s' => if Ascii.eqb c "/" then s else from_slash s'
  end.

(** [sub in s] *)
Fixpoint contains (s sub : string) : bool :=
  PyStr.startswith s sub
  || match s with
     | EmptyString => false
     | String _ s' => contains s' sub
     end.

(** [urlparse] on URLs of the shape [http://host/path]; a request
    wants a URL with [://] in it (or an [about:] or [data:] URL). *)
Definition lib : Lib := {|
  urlparse := fun u =>
    Some {| url_netloc :=
              if PyStr.startswith u "http://" then until_slash (Re.drop 7 u)
              else "";
            url_path :=
              if PyStr.startswith u "http://" then from_slash (Re.drop 7 u)
              else u |};
  request_ok := fun u =>
    contains u "://" || PyStr.startswith u "about:" || PyStr.startswith u "data:";
  parsedate_to_datetime := fun _ => None;
  host := {| Strptime.locale_time := Strptime.locale_C "UTC" "UTC" false;
             Strptime.pads_year := false |}
|}.

(** The canonical form of such a URL: without its fragment, and with
    the path [/] when it has none. *)
Fixpoint drop_fragment (s : string) : string :=
  match s with
  | EmptyString => EmptyString
  | String c s' =>
      if Ascii.eqb c "#" then EmptyString else String c (drop_fragment s')
  end.

Definition canonical (u : string) : string :=
  let u := drop_fragment u in
  if PyStr.startswith u "http://"
     && negb (PyStr.truthy (from_slash (Re.drop 7 u)))
  then u +:+ "/" else u.

Definition page (sUrl : string) (sTitle : option string) (links : list string)
  : Response := {|
  resp_url := sUrl; xpath_title := sTitle; xpath_anchors := links;
  xpath_controls := 0; body_len := 100;
  hdr_last_modified := None;
  meta_last_modified := None; meta_article_modified_time := None;
  meta_last_modified_us := None; meta_modified := None
|}.

(** A start page with three links, each to a page without links. *)
Definition web (u : string) : option Response :=
  if String.eqb u "http://example.com"
  then Some (page u (Some "Example")
                  ["http://example.com/a"; "http://example.com/b";
                   "http://example.com/c"])
  else if String.eqb u "http://example.com/a" then Some (page u (Some "A") [])
  else if String.eqb u "http://example.com/b" then Some (page u (Some "B") [])
  else if String.eqb u "http://example.com/c" then Some (page u (Some "C") [])
  else None.

Definition engine (bLifo : bool) : Engine := {|
  download := web; DEPTH_LIMIT := 3;
  offsite := fun _ _ => false; fingerprint := canonical; lifo := bLifo
|}.

(** [startUrl = http://example.com], [maxUrls = 2], the other entries
    as the command line fills them in. *)
Definition cfg_cap2 : Config := {|
  cfg_startUrl := Some "http://example.com"; cfg_urlList := None;
  cfg_maxUrls := Some 2; cfg_crawlDepth := Some 3;
  cfg_parentDir := Some ""; cfg_robotFilter := Some false;
  cfg_userAgent := None; cfg_log := Some false
|}.

(** The same crawl with [--log]. *)
Definition cfg_log_on : Config := {|
  cfg_startUrl := Some "http://example.com"; cfg_urlList := None;
  cfg_maxUrls := Some 30; cfg_crawlDepth := Some 3;
  cfg_parentDir := Some ""; cfg_robotFilter := Some false;
  cfg_userAgent := None; cfg_log := Some true
|}.

Definition fs_empty : FileSystem :=
  {| fs_files := ∅; fs_write_error := fun _ => None |}.

(** A directory nothing can be written to. *)
Definition fs_readonly : FileSystem :=
  {| fs_files := ∅; fs_write_error := fun _ => Some "Permission denied" |}.

(** A start page without a [<title>], linking to a page that has one. *)
Definition web_untitled (u : string) : option Response :=
  if String.eqb u "http://example.com"
  then Some (page u None ["http://example.com/products"])
  else if String.eqb u "http://example.com/products"
  then Some (page u (Some "Products") [])
  else None.

Definition engine_untitled : Engine := {|
  download := web_untitled; DEPTH_LIMIT := 3;
  offsite := fun _ _ => false; fingerprint := canonical; lifo := true
|}.

(** A page whose only date signal is a meta tag padded with blanks. *)
Definition page_padded_meta : Response := {|
  resp_url := "http://example.com"; xpath_title := Some "Example";
  xpath_anchors := []; xpath_controls := 0; body_len := 100;
  hdr_last_modified := None;
  meta_last_modified := Some " not a date ";
  meta_article_modified_time := None;
  meta_last_modified_us := None; meta_modified := None
|}.

(** A page whose first meta tag is blank and whose last one holds a
    date. *)
Definition page_blank_meta : Response := {|
  resp_url := "http://example.com"; xpath_title := Some "Example";
  xpath_anchors := []; xpath_controls := 0; body_len := 100;
  hdr_last_modified := None;
  meta_last_modified := Some "   ";
  meta_article_modified_time := None;
  meta_last_modified_us := None; meta_modified := Some "2025-03-18"
|}.

Definition LF : string := String (ascii_of_nat 10) EmptyString.

(** [urlList] with a repeated entry and a blank line, next to a
    [startUrl]. *)
Definition cfg_list : Config := {|
  cfg_startUrl := Some "http://example.com";
  cfg_urlList := Some ("http://example.com/a" +:+ LF +:+ " http://example.com/b "
                       +:+ LF +:+ "http://example.com/a" +:+ LF +:+ "  "
                       +:+ LF +:+ "http://example.com/missing");
  cfg_maxUrls := Some 30; cfg_crawlDepth := Some 3;
  cfg_parentDir := Some ""; cfg_robotFilter := Some false;
  cfg_userAgent := None; cfg_log := Some false
|}.

(** The dictionary [main] builds for the targets [www.a.com] and
    [www.b.com]. *)
Definition cfg_hosts : Config := {|
  cfg_startUrl := None;
  cfg_urlList := Some ("www.a.com" +:+ LF +:+ "www.b.com");
  cfg_maxUrls := Some 30; cfg_crawlDepth := Some 3;
  cfg_parentDir := Some ""; cfg_robotFilter := Some false;
  cfg_userAgent := None; cfg_log := Some false
|}.



(** A spider as [closed] finds it after a crawl whose start page was
    titled ["Home"]. *)
Definition spider_home : Spider := {|
  dConfigData := cfg_log_on; iMaxUrls := 30; iCrawlDepth := 3; sParentDir := "";
  lItems := []; sStartTitle := "Home"; lUrlSet := ∅; bUrlListMode := false;
  lUrlList := None; sStartUrl := Some "http://example.com";
  allowed_domains := Some ["example.com"]; bPrintedCrawlingMessage := true
|}.

End Demo.

(* ===================================================================== *)
(** ** The rest of the program                                            *)
(* ===================================================================== *)

(** *** [parse] over a crawl *)

(** [parse] on a series of responses, one after the other in the order
    the engine delivers them, each call run to its end before the next
    (as [engine_step] runs it): the spider afterwards, the requests it
    yielded and what it printed or logged, in order. *)
Fixpoint parse_many (lib : Lib) (self : Spider) (responses : list Response)
  : Spider * list Request * list Event :=
  match responses with
  | [] => (self, [], [])
  | response :: responses' =>
      let '(sp, _, reqs, evs) := parse lib self response in
      let '(sp', reqs', evs') := parse_many lib sp responses' in
      (sp', (reqs ++ reqs')%list, (evs ++ evs')%list)
  end.

(** The test [follow_links] makes on a link before it requests it: when
    a parent directory is set, [urlparse] gives the link a path that
    starts with it; and the link is not in the visited set. *)
Definition link_wanted (lib : Lib) (sParent : string) (seen : gset string)
           (sNextUrl : string) : Prop :=
  (PyStr.truthy sParent = true ->
   exists parseResult,
     urlparse lib sNextUrl = Some parseResult
     /\ PyStr.startswith (url_path parseResult) sParent = true)
  /\ sNextUrl ∉ seen.

(** A link on which the loop of [parse] raises nothing: [scrapy.Request]
    accepts it and, when a parent directory is set, [urlparse] reads
    it. *)
Definition link_ok (lib : Lib) (sParent : string) (sNextUrl : string) : Prop :=
  request_ok lib sNextUrl = true
  /\ (PyStr.truthy sParent = true -> urlparse lib sNextUrl <> None).


(** The date [parse] reads from the [Last-Modified] header, if any. *)
Definition header_date (lib : Lib) (response : Response)
  : option Strptime.datetime :=
  match hdr_last_modified response with
  | Some raw => parsedate_to_datetime lib raw
  | None => None
  end.

(** *** [randomUserAgentMiddleware] *)

Definition lDefaultAgents : list string :=
  [ "Mozilla/5.0 (Windows NT 10.0; Win64; x64) AppleWebKit/537.36 (KHTML, like Gecko) Chrome/103.0.0.0 Safari/537.36";
    "Mozilla/5.0 (Macintosh; Intel Mac OS X 10_15_7) AppleWebKit/605.1.15 (KHTML, like Gecko) Version/15.1 Safari/605.1.15";
    "Mozilla/5.0 (X11; Linux x86_64) AppleWebKit/537.36 (KHTML, like Gecko) Chrome/103.0.0.0 Safari/537.36";
    "Mozilla/5.0 (Windows NT 10.0; Win64; x64; rv:102.0) Gecko/20100101 Firefox/102.0";
    "Mozilla/5.0 (iPhone; CPU iPhone OS 15_2 like Mac OS X) AppleWebKit/605.1.15 (KHTML, like Gecko) Version/15.2 Mobile/15E148 Safari/604.1" ].

(** [randomUserAgentMiddleware.from_crawler], as the list it hands to the
    constructor; [sCustomAgent] is [settings.get("CUSTOM_USER_AGENT")]. *)
Definition from_crawler (sCustomAgent : option string) : list string :=
  match sCustomAgent with
  | Some s =>
      if PyStr.truthy s && negb (existsb (String.eqb s) lDefaultAgents)
      then (lDefaultAgents ++ [s])%list
      else lDefaultAgents
  | None => lDefaultAgents
  end.

(** [random.choice(seq)]: the element at an index drawn below
    [len(seq)]; [None] is the [IndexError] on an empty sequence. *)
Definition choice {A} (seq : list A) (draw : nat) : option A :=
  match seq with
  | [] => None
  | _ => nth_error seq (draw mod length seq)
  end.

(** [randomUserAgentMiddleware.process_request]: the value it stores in
    the [User-Agent] header. *)
Definition process_request (lUserAgents : list string) (draw : nat)
  : option string :=
  choice lUserAgents draw.

(** *** [closed] *)

(** The [n]-th name the loop of [closed] tries. *)
Definition report_name (sCsvRoot : string) (n : nat) : string :=
  match n with
  | O => sCsvRoot +:+ ".csv"
  | S _ => suffixed_name sCsvRoot n
  end.

(** A character the [re.sub] of [closed] keeps. *)
Definition safe (c : ascii) : bool := negb (existsb (Ascii.eqb c) unsafe_chars).

(** *** [main] *)

(** The parsed command line.  [nargs="+"] makes [oArgs.target] a
    non-empty list: it is [arg_target :: arg_targets]. *)
Record Args : Type := {
  arg_target : string;
  arg_targets : list string;
  arg_maxLinks : option Z;
  arg_crawlDepth : option Z;
  arg_parentDir : option string;
  arg_robotFilter : bool;
  arg_userAgent : option string;
  arg_log : bool
}.

(** What [main] asks of the operating system: [os.path.isfile], and
    opening plus [toml.load], which yields the dictionary or the text of
    the exception it raises. *)
Record OS : Type := {
  os_isfile : string -> bool;
  toml_load : string -> Config + string
}.

(** [sep.join(l)] *)
Fixpoint join (sep : string) (l : list string) : string :=
  match l with
  | [] => EmptyString
  | [s] => s
  | s :: l' => s +:+ sep +:+ join sep l'
  end.

Definition LF : string := String (ascii_of_nat 10) EmptyString.

(** The dictionary [main] builds when the first target is not a file. *)
Definition config_of_targets (a : Args) : Config :=
  match arg_targets a with
  | _ :: _ =>
      {| cfg_startUrl := None;
         cfg_urlList := Some (join LF (arg_target a :: arg_targets a));
         cfg_maxUrls := Some 30; cfg_crawlDepth := Some 3;
         cfg_parentDir := Some ""; cfg_robotFilter := Some false;
         cfg_userAgent := None; cfg_log := Some false |}
  | [] =>
      let sTarget := arg_target a in
      let sTarget := if PyStr.startswith (PyStr.lower sTarget) "www."
                     then "http://" +:+ sTarget else sTarget in
      {| cfg_startUrl := Some sTarget;
         cfg_urlList := None;
         cfg_maxUrls := Some 30; cfg_crawlDepth := Some 3;
         cfg_parentDir := Some ""; cfg_robotFilter := Some false;
         cfg_userAgent := None; cfg_log := Some false |}
  end.

(** Lines 293-304: the options given on the command line replace the
    entries of the dictionary. *)
Definition apply_options (a : Args) (cfg : Config) : Config :=
  {| cfg_startUrl := cfg_startUrl cfg;
     cfg_urlList := cfg_urlList cfg;
     cfg_maxUrls := match arg_maxLinks a with Some n => Some n | None => cfg_maxUrls cfg end;
     cfg_crawlDepth := match arg_crawlDepth a with Some n => Some n | None => cfg_crawlDepth cfg end;
     cfg_parentDir := match arg_parentDir a with Some s => Some s | None => cfg_parentDir cfg end;
     cfg_robotFilter := if arg_robotFilter a then Some true else cfg_robotFilter cfg;
     cfg_userAgent := match arg_userAgent a with Some s => Some s | None => cfg_userAgent cfg end;
     cfg_log := if arg_log a then Some true else cfg_log cfg |}.

(** How [main] goes on after the command line: it leaves through
    [sys.exit], or starts the crawl with a dictionary, having disabled
    logging or not. *)
Inductive Started : Type :=
| Exit (status : Z) (evs : list Event)
| Crawl (dConfig : Config) (bLoggingDisabled : bool).

(** [main], up to the call of [CrawlerProcess.crawl]. *)
Definition main (os : OS) (a : Args) : Started :=
  let loaded :=
    if os_isfile os (arg_target a) then toml_load os (arg_target a)
    else inl (config_of_targets a) in
  match loaded with
  | inr exc => Exit 1 [LogError ("Failed to load TOML config file: " +:+ exc)]
  | inl cfg =>
      let cfg := apply_options a cfg in
      Crawl cfg (negb (get (cfg_log cfg) false))
  end.

(** A text has no line boundary of [splitlines]. *)
Definition one_line (s : string) : bool :=
  forallb (fun c => negb (PyStr.is_linebreak c)) (list_ascii_of_string s).

(** [revapp t cur]: the characters of [t] pushed onto [cur] one by one. *)
Fixpoint revapp (t cur : string) : string :=
  match t with
  | EmptyString => cur
  | String c t' => revapp t' (String c cur)
  end.

(** *** Date texts *)

(** The separators of the numeric formats of [lDateFormats]. *)
Definition is_sep (c : ascii) : Prop := c = "/"%char \/ c = "-"%char.

(** The English names of the "C" locale, as [strftime] prints them:
    months are numbered from 1, the days of the week from 0 (Monday). *)
Definition month_name (m : Z) : string :=
  nth (Z.to_nat (m - 1))
      ["January"; "February"; "March"; "April"; "May"; "June"; "July";
       "August"; "September"; "October"; "November"; "December"] "".

Definition month_abbr (m : Z) : string :=
  nth (Z.to_nat (m - 1))
      ["Jan"; "Feb"; "Mar"; "Apr"; "May"; "Jun"; "Jul";
       "Aug"; "Sep"; "Oct"; "Nov"; "Dec"] "".

Definition weekday_abbr (w : Z) : string :=
  nth (Z.to_nat w) ["Mon"; "Tue"; "Wed"; "Thu"; "Fri"; "Sat"; "Sun"] "".

(** *** Sample inputs *)

Module Sample.

(** Two pages that link to each other and to a third. *)
Definition page_a : Response :=
  Demo.page "http://example.com/docs/a" (Some "A")
            ["http://example.com/docs/b"; "http://example.com/docs/b";
             "http://example.com/other/c"; "http://example.com/docs/a"].

Definition page_b : Response :=
  Demo.page "http://example.com/docs/b" (Some "B")
            ["http://example.com/docs/a"; "http://example.com/docs/d"].

(** A crawl restricted to [/docs]. *)
Definition cfg_docs : Config := {|
  cfg_startUrl := Some "http://www.example.com/docs/a"; cfg_urlList := None;
  cfg_maxUrls := Some 30; cfg_crawlDepth := Some 3;
  cfg_parentDir := Some "/docs"; cfg_robotFilter := Some false;
  cfg_userAgent := None; cfg_log := Some false
|}.

(** The spider of that crawl once its start request is out. *)
Definition spider_docs : Spider := {|
  dConfigData := cfg_docs; iMaxUrls := 30; iCrawlDepth := 3;
  sParentDir := "/docs"; lItems := []; sStartTitle := "";
  lUrlSet := {[ "http://www.example.com/docs/a" ]}; bUrlListMode := false;
  lUrlList := None; sStartUrl := Some "http://www.example.com/docs/a";
  allowed_domains := Some ["example.com"]; bPrintedCrawlingMessage := false
|}.

(** The spider [__init__] makes of [cfg_docs]. *)
Definition spider_init : Spider := {|
  dConfigData := cfg_docs; iMaxUrls := 30; iCrawlDepth := 3;
  sParentDir := "/docs"; lItems := []; sStartTitle := "";
  lUrlSet := ∅; bUrlListMode := false;
  lUrlList := None; sStartUrl := Some "http://www.example.com/docs/a";
  allowed_domains := Some ["example.com"]; bPrintedCrawlingMessage := false
|}.

(** A spider whose first page was titled with question marks. *)
Definition spider_queries : Spider := {|
  dConfigData := cfg_docs; iMaxUrls := 30; iCrawlDepth := 3;
  sParentDir := ""; lItems := []; sStartTitle := " ??? ";
  lUrlSet := ∅; bUrlListMode := false;
  lUrlList := None; sStartUrl := Some "http://example.com";
  allowed_domains := Some ["example.com"]; bPrintedCrawlingMessage := true
|}.


(** A page whose only link is a [mailto:] link. *)
Definition page_mail : Response :=
  Demo.page "http://example.com/contact" (Some "Contact")
            ["mailto:webmaster@example.com"].

(** The dictionary [main] builds for the single target
    [example.com]. *)
Definition cfg_bare_host : Config := {|
  cfg_startUrl := Some "example.com"; cfg_urlList := None;
  cfg_maxUrls := Some 30; cfg_crawlDepth := Some 3;
  cfg_parentDir := Some ""; cfg_robotFilter := Some false;
  cfg_userAgent := None; cfg_log := Some false
|}.

Definition os_no_files : OS :=
  {| os_isfile := fun _ => false; toml_load := fun _ => inr "No such file" |}.

Definition args_two_urls : Args := {|
  arg_target := "http://example.com/a";
  arg_targets := [" http://example.com/b "; "http://example.com/a"];
  arg_maxLinks := Some 5; arg_crawlDepth := None; arg_parentDir := None;
  arg_robotFilter := false; arg_userAgent := None; arg_log := false
|}.

(** Two host names on the command line. *)
Definition args_two_hosts : Args := {|
  arg_target := "www.a.com";
  arg_targets := ["www.b.com"];
  arg_maxLinks := None; arg_crawlDepth := None; arg_parentDir := None;
  arg_robotFilter := false; arg_userAgent := None; arg_log := false
|}.

Definition args_www : Args := {|
  arg_target := "WWW.example.com";
  arg_targets := [];
  arg_maxLinks := None; arg_crawlDepth := None; arg_parentDir := None;
  arg_robotFilter := false; arg_userAgent := None; arg_log := false
|}.

(** A directory that holds [docs.toml], which loads as [cfg_docs]. *)
Definition os_docs_toml : OS :=
  {| os_isfile := fun p => String.eqb p "docs.toml";
     toml_load := fun p => if String.eqb p "docs.toml" then inl cfg_docs
                           else inr "No such file" |}.

Definition args_toml : Args := {|
  arg_target := "docs.toml";
  arg_targets := [];
  arg_maxLinks := Some 5; arg_crawlDepth := None; arg_parentDir := None;
  arg_robotFilter := true; arg_userAgent := None; arg_log := false
|}.

End Sample.

(* ===================================================================== *)
(** * Properties                                                          *)
(* ===================================================================== *)

(** ** Facts about the string primitives *)

Module PyStrFacts.
Import PyStr.

Lemma is_digit_cases c : is_digit c = true -> In c digits10.
Proof.
  destruct c as [[] [] [] [] [] [] [] []]; vm_compute; intros H;
    try discriminate H; tauto.
Qed.

Lemma digit_not_space c : is_digit c = true -> is_space c = false.
Proof.
  intros H. apply is_digit_cases in H. simpl in H.
  repeat (destruct H as [<- | H]; [reflexivity |]). contradiction.
Qed.

Lemma digit_char_is_digit n : is_digit (digit_char n) = true.
Proof.
  unfold digit_char.
  assert (Hr : 0 <= n mod 10 < 10) by (apply Z.mod_pos_bound; lia).
  destruct (n mod 10) as [| p | p]; [reflexivity | | lia].
  assert (Hp : (p = 1 \/ p = 2 \/ p = 3 \/ p = 4 \/ p = 5 \/ p = 6
                \/ p = 7 \/ p = 8 \/ p = 9)%positive) by lia.
  repeat (destruct Hp as [-> | Hp]; [reflexivity |]). subst p. reflexivity.
Qed.

Lemma lstrip_head c s : is_space c = false -> lstrip (String c s) = String c s.
Proof. intros H. simpl. now rewrite H. Qed.

Lemma lstrip_shape s :
  lstrip s = EmptyString \/
  exists c s', lstrip s = String c s' /\ is_space c = false.
Proof.
  induction s as [| c s IH]; simpl; [now left |].
  destruct (is_space c) eqn:E; [exact IH |].
  right. now exists c, s.
Qed.

Lemma rstrip_head c s :
  is_space c = false -> exists r, rstrip (String c s) = String c r.
Proof.
  intros H. simpl. destruct (rstrip s); rewrite ?H; eauto.
Qed.

Lemma rstrip_idem s : rstrip (rstrip s) = rstrip s.
Proof.
  induction s as [| c s IH]; [reflexivity |].
  simpl. destruct (rstrip s) as [| x r] eqn:E.
  - destruct (is_space c) eqn:Ec; simpl; [reflexivity | now rewrite Ec].
  - change (rstrip (String c (String x r)))
      with (match rstrip (String x r) with
            | EmptyString => if is_space c then EmptyString else String c EmptyString
            | r0 => String c r0
            end).
    now rewrite IH.
Qed.

Lemma strip_idem s : strip (strip s) = strip s.
Proof.
  unfold strip.
  destruct (lstrip_shape s) as [-> | (c & s' & -> & Hc)]; [reflexivity |].
  destruct (rstrip_head c s' Hc) as [r Hr].
  rewrite Hr, (lstrip_head _ _ Hc), <- Hr. apply rstrip_idem.
Qed.

(** A text without white space is its own [strip]. *)
Lemma rstrip_no_space s :
  forallb (fun c => negb (is_space c)) (list_ascii_of_string s) = true ->
  rstrip s = s.
Proof.
  induction s as [| c s IH]; [reflexivity |].
  simpl. intros H. apply andb_true_iff in H as [Hc Hs].
  rewrite (IH Hs). apply negb_true_iff in Hc. rewrite Hc. now destruct s.
Qed.

Lemma strip_no_space s :
  forallb (fun c => negb (is_space c)) (list_ascii_of_string s) = true ->
  strip s = s.
Proof.
  intros H. unfold strip. destruct s as [| c s]; [reflexivity |].
  assert (Hc : is_space c = false).
  { simpl in H. apply andb_true_iff in H as [Hc _]. now apply negb_true_iff. }
  rewrite (lstrip_head _ _ Hc). now apply rstrip_no_space.
Qed.

Lemma all_from_spec (P : Z -> Prop) n : forall lo,
  all_from P lo n -> forall x, lo <= x < lo + Z.of_nat n -> P x.
Proof.
  induction n as [| n IH]; intros lo H x Hx; [lia |].
  destruct H as [H0 H1].
  destruct (Z.eq_dec x lo) as [-> | Hne]; [exact H0 |].
  apply (IH (lo + 1) H1). lia.
Qed.

Lemma code_digit_char n : code (digit_char n) - 48 = n mod 10.
Proof.
  unfold digit_char.
  assert (Hr : 0 <= n mod 10 < 10) by (apply Z.mod_pos_bound; lia).
  destruct (n mod 10) as [| p | p]; [reflexivity | | lia].
  assert (Hp : (p = 1 \/ p = 2 \/ p = 3 \/ p = 4 \/ p = 5 \/ p = 6
                \/ p = 7 \/ p = 8 \/ p = 9)%positive) by lia.
  repeat (destruct Hp as [-> | Hp]; [reflexivity |]). subst p. reflexivity.
Qed.

Lemma digits_value_digit acc n s :
  digits_value acc (String (digit_char n) s)
  = digits_value (10 * acc + n mod 10) s.
Proof.
  cbn [digits_value]. now rewrite digit_char_is_digit, code_digit_char.
Qed.

(** [int] reads a zero-padded number back. *)
Lemma int_pad4 y : 0 <= y <= 9999 -> int (pad4 y) = Some y.
Proof.
  intros Hy. unfold int. rewrite strip_no_space.
  2:{ unfold pad4. cbv [list_ascii_of_string forallb].
      now rewrite !(digit_not_space _ (digit_char_is_digit _)). }
  unfold pad4. rewrite !digits_value_digit. cbn [digits_value]. f_equal.
  Z.to_euclidean_division_equations. lia.
Qed.

Lemma int_pad2 n : 0 <= n <= 99 -> int (pad2 n) = Some n.
Proof.
  intros Hn. unfold int. rewrite strip_no_space.
  2:{ unfold pad2. cbv [list_ascii_of_string forallb].
      now rewrite !(digit_not_space _ (digit_char_is_digit _)). }
  unfold pad2. rewrite !digits_value_digit. cbn [digits_value]. f_equal.
  Z.to_euclidean_division_equations. lia.
Qed.

End PyStrFacts.

(** ** [strptime] on the output of [strftime("%Y-%m-%d")] *)

Module StrptimeFacts.
Import PyStr Re Strptime PyStrFacts.

(** A successful [strptime] returns a date that exists. *)
Lemma strptime_valid loc s fmt dt :
  strptime loc s fmt = Some dt ->
  valid_date (year dt) (month dt) (day dt) = true.
Proof.
  unfold strptime. intros H.
  destruct (pattern loc fmt); [| discriminate].
  destruct (re_match r s) as [[found rest] |]; [| discriminate].
  destruct (truthy rest); [discriminate |].
  destruct (set_fields loc fields0 found) as [f |]; [| discriminate].
  destruct (valid_date (f_year f) (f_mon f) (f_day f)) eqn:Hv;
    [| discriminate].
  cbn [andb] in H.
  destruct (valid_time (f_hour f) (f_min f) (f_sec f) && valid_offset (f_gmtoff f));
    [| discriminate].
  now inversion H; subst.
Qed.

Ltac digit_cases H :=
  apply is_digit_cases in H; simpl in H;
  repeat (destruct H as [<- | H]); try contradiction.

(** Neither [%m/%d/%Y] nor [%m-%d-%Y] parses a text that starts with
    three digits: the month takes at most two of them and a separator
    must follow. *)
Lemma fmt_mdY_slash_fails loc a b c rest :
  is_digit a = true -> is_digit b = true -> is_digit c = true ->
  strptime loc (String a (String b (String c rest))) "%m/%d/%Y" = None.
Proof.
  intros Ha Hb Hc. digit_cases Ha; digit_cases Hb; digit_cases Hc;
    vm_compute; reflexivity.
Qed.

Lemma fmt_mdY_dash_fails loc a b c rest :
  is_digit a = true -> is_digit b = true -> is_digit c = true ->
  strptime loc (String a (String b (String c rest))) "%m-%d-%Y" = None.
Proof.
  intros Ha Hb Hc. digit_cases Ha; digit_cases Hb; digit_cases Hc;
    vm_compute; reflexivity.
Qed.

Lemma rmatch_Seq {A} subj r1 r2 pos s g
      (k : groups -> nat -> string -> option A) :
  rmatch subj (Seq r1 r2) pos s g k
  = rmatch subj r1 pos s g (fun g' pos' s' => rmatch subj r2 pos' s' g' k).
Proof. reflexivity. Qed.

(** The [%Y] group consumes four digits, whatever follows. *)
Lemma year_group {A} subj pos a b c d0 rest g
      (k : groups -> nat -> string -> option A) :
  is_digit a = true -> is_digit b = true ->
  is_digit c = true -> is_digit d0 = true ->
  rmatch subj (Group "Y" (Seq Digit (Seq Digit (Seq Digit Digit)))) pos
         (String a (String b (String c (String d0 rest)))) g k
  = k (g ++ [("Y"%char, slice pos (S (S (S (S pos)))) subj)])%list
      (S (S (S (S pos)))) rest.
Proof.
  intros Ha Hb Hc Hd. cbn [rmatch one]. now rewrite Ha, Hb, Hc, Hd.
Qed.

Lemma set_fields_Ymd loc sy sm sd :
  set_fields loc fields0 [("Y"%char, sy); ("m"%char, sm); ("d"%char, sd)]
  = match int sy, int sm, int sd with
    | Some y, Some m, Some d =>
        Some {| f_year := y; f_mon := m; f_day := d;
                f_hour := 0; f_min := 0; f_sec := 0; f_gmtoff := None |}
    | _, _, _ => None
    end.
Proof.
  cbn -[int]. destruct (int sy); [| reflexivity]. cbn -[int].
  destruct (int sm); [| reflexivity]. cbn -[int].
  destruct (int sd); reflexivity.
Qed.

Lemma valid_date_bounds y m d :
  valid_date y m d = true -> 1 <= y <= 9999 /\ 1 <= m <= 12 /\ 1 <= d <= 31.
Proof.
  unfold valid_date, days_in_month. intros H.
  repeat (apply andb_true_iff in H as [H ?]).
  repeat match goal with
         | H : context [if ?b then _ else _] |- _ => destruct b
         end; lia.
Qed.

(** The groups [%Y-%m-%d] finds in a canonical date. *)
Lemma iso_match loc re a b c d0 m d :
  pattern loc "%Y-%m-%d" = Some re ->
  is_digit a = true -> is_digit b = true ->
  is_digit c = true -> is_digit d0 = true ->
  1 <= m <= 12 -> 1 <= d <= 31 ->
  re_match re (String a (String b (String c (String d0
                 ("-" +:+ pad2 m +:+ "-" +:+ pad2 d)))))
  = Some ([("Y"%char, String a (String b (String c (String d0 EmptyString))));
           ("m"%char, pad2 m); ("d"%char, pad2 d)], EmptyString).
Proof.
  intros Hre Ha Hb Hc Hd Hm Hday.
  vm_compute in Hre. injection Hre as <-.
  unfold re_match. rewrite rmatch_Seq.
  rewrite (year_group _ _ _ _ _ _ _ _ _ Ha Hb Hc Hd).
  revert d Hday. pattern m.
  apply (all_from_spec _ 12 1); [| lia].
  cbn [all_from].
  repeat split; intros d Hday; pattern d;
    (apply (all_from_spec _ 31 1); [| lia]);
    cbn [all_from]; repeat split; vm_compute; reflexivity.
Qed.

Lemma strptime_iso_canonical loc y m d :
  valid_date y m d = true ->
  strptime loc (pad4 y +:+ "-" +:+ pad2 m +:+ "-" +:+ pad2 d) "%Y-%m-%d"
  = Some {| year := y; month := m; day := d;
            hour := 0; minute := 0; second := 0; utcoffset := None |}.
Proof.
  intros Hv. destruct (valid_date_bounds _ _ _ Hv) as (Hy & Hm & Hd).
  unfold strptime.
  destruct (pattern loc "%Y-%m-%d") as [re |] eqn:Hre;
    [| vm_compute in Hre; discriminate].
  change (pad4 y +:+ "-" +:+ pad2 m +:+ "-" +:+ pad2 d)
    with (String (digit_char (y / 1000)) (String (digit_char (y / 100))
            (String (digit_char (y / 10)) (String (digit_char y)
               ("-" +:+ pad2 m +:+ "-" +:+ pad2 d))))).
  rewrite (iso_match loc re _ _ _ _ m d Hre) by
    (first [apply digit_char_is_digit | assumption]).
  cbn [truthy]. rewrite set_fields_Ymd.
  change (String (digit_char (y / 1000)) (String (digit_char (y / 100))
            (String (digit_char (y / 10)) (String (digit_char y) EmptyString))))
    with (pad4 y).
  rewrite (int_pad4 y), (int_pad2 m), (int_pad2 d) by lia.
  cbn [f_year f_mon f_day f_hour f_min f_sec f_gmtoff].
  now rewrite Hv.
Qed.

(** A canonical date is a fixed point of the normaliser. *)
Lemma normalise_canonical host y m d :
  valid_date y m d = true ->
  year_text (pads_year host) y = pad4 y ->
  parseAndFormatDate host (pad4 y +:+ "-" +:+ pad2 m +:+ "-" +:+ pad2 d)
  = pad4 y +:+ "-" +:+ pad2 m +:+ "-" +:+ pad2 d.
Proof.
  intros Hv Hy. unfold parseAndFormatDate.
  rewrite strip_no_space.
  2:{ unfold pad4, pad2.
      cbv [String.append list_ascii_of_string forallb].
      rewrite !(digit_not_space _ (digit_char_is_digit _)). reflexivity. }
  change (negb (truthy (pad4 y +:+ "-" +:+ pad2 m +:+ "-" +:+ pad2 d)))
    with false.
  cbv iota. unfold lDateFormats. cbn [try_formats].
  rewrite (strptime_iso_canonical (locale_time host) y m d Hv).
  change (pad4 y +:+ "-" +:+ pad2 m +:+ "-" +:+ pad2 d)
    with (String (digit_char (y / 1000)) (String (digit_char (y / 100))
            (String (digit_char (y / 10)) (String (digit_char y)
               ("-" +:+ pad2 m +:+ "-" +:+ pad2 d))))).
  rewrite fmt_mdY_slash_fails, fmt_mdY_dash_fails
    by apply digit_char_is_digit.
  unfold strftime_Ymd. cbn [year month day]. now rewrite Hy.
Qed.

(** The two ways [try_formats] can end. *)
Lemma try_formats_cases host s fmts :
  (exists dt fmt, strptime (locale_time host) s fmt = Some dt
                  /\ try_formats host s fmts = strftime_Ymd (pads_year host) dt)
  \/ try_formats host s fmts = s.
Proof.
  induction fmts as [| f fmts IH]; [now right |].
  cbn [try_formats]. destruct (strptime (locale_time host) s f) as [dt |] eqn:E.
  - left. now exists dt, f.
  - exact IH.
Qed.

End StrptimeFacts.

(** ** The [%Z] directive on a host with arbitrary time-zone names *)

Module ZoneFacts.
Import PyStr Re Strptime.

Lemma insert_by_len_In x l a :
  In a (insert_by_len x l) <-> a = x \/ In a l.
Proof.
  induction l as [| y l IH]; simpl; [intuition |].
  destruct (String.length x <? String.length y)%nat; simpl; rewrite ?IH;
    intuition.
Qed.

Lemma sorted_by_len_In l a : In a (sorted_by_len l) <-> In a l.
Proof.
  induction l as [| x l IH]; simpl; [reflexivity |].
  rewrite insert_by_len_In, IH. intuition.
Qed.

Lemma insert_by_len_sorted x l :
  StronglySorted longer_first l -> StronglySorted longer_first (insert_by_len x l).
Proof.
  induction 1 as [| y l Hs IH Hall]; simpl.
  - constructor; constructor.
  - destruct (String.length x <? String.length y)%nat eqn:E.
    + apply Nat.ltb_lt in E. constructor; [exact IH |].
      apply List.Forall_forall. intros a Ha.
      apply insert_by_len_In in Ha as [-> | Ha].
      * unfold longer_first. lia.
      * rewrite List.Forall_forall in Hall. now apply Hall.
    + apply Nat.ltb_ge in E. constructor; [now constructor |].
      constructor; [exact E |].
      rewrite List.Forall_forall in Hall |- *. intros a Ha.
      specialize (Hall a Ha). unfold longer_first in *. lia.
Qed.

Lemma sorted_by_len_sorted l : StronglySorted longer_first (sorted_by_len l).
Proof.
  induction l as [| x l IH]; simpl; [constructor |].
  now apply insert_by_len_sorted.
Qed.

Lemma dedup_str_In a l : In a l -> In a (dedup_str l).
Proof.
  induction l as [| y l IH]; simpl; [tauto |].
  intros [-> | Ha].
  - destruct (existsb (String.eqb a) l) eqn:E; [| now left].
    apply IH. apply existsb_exists in E as (z & Hz & Heq).
    apply String.eqb_eq in Heq. now subst.
  - destruct (existsb (String.eqb y) l); [| right]; now apply IH.
Qed.

(** A literal either fails or consumes exactly its own length. *)
Lemma lit_rmatch {A} n : forall subj pos s g (k : groups -> nat -> string -> option A),
  rmatch subj (lit n) pos s g k = None
  \/ ((String.length n <= String.length s)%nat
      /\ rmatch subj (lit n) pos s g k
         = k g (String.length n + pos)%nat (drop (String.length n) s)).
Proof.
  induction n as [| c n IH]; intros subj pos s g k.
  - right. split; [simpl; lia | reflexivity].
  - destruct n as [| c' n'].
    + change (lit (String c EmptyString)) with (Chr c).
      cbn [rmatch]. unfold one. destruct s as [| x s]; [left; reflexivity |].
      destruct (ieq c x); [right | left; reflexivity].
      split; [simpl; lia | reflexivity].
    + change (lit (String c (String c' n')))
        with (Seq (Chr c) (lit (String c' n'))).
      cbn [rmatch]. unfold one. destruct s as [| x s]; [left; reflexivity |].
      destruct (ieq c x); [| left; reflexivity].
      destruct (IH subj (S pos) s g k) as [-> | [Hlen ->]]; [left; reflexivity |].
      right. split; [simpl in *; lia |].
      cbn [String.length drop]. now rewrite Nat.add_succ_r.
Qed.

Lemma alts_lit_gmt {A} l : forall subj pos g (k : groups -> nat -> string -> option A) x,
  StronglySorted longer_first l ->
  In "gmt" l ->
  k g (3 + pos)%nat EmptyString = Some x ->
  rmatch subj (alts (map lit l)) pos "GMT" g k = Some x.
Proof.
  induction l as [| n l IH]; intros subj pos g k x Hs Hin Hk; [destruct Hin |].
  assert (Hhead : n = "gmt" \/ (3 <= String.length n)%nat).
  { destruct Hin as [-> | Hin]; [now left | right].
    apply StronglySorted_inv in Hs as [_ Hall].
    rewrite List.Forall_forall in Hall. exact (Hall _ Hin). }
  assert (Hn : rmatch subj (lit n) pos "GMT" g k = Some x
               \/ (rmatch subj (lit n) pos "GMT" g k = None /\ In "gmt" l)).
  { destruct Hhead as [-> | Hlen]; [left; exact Hk |].
    destruct (lit_rmatch n subj pos "GMT" g k) as [E | [Hle E]].
    - destruct Hin as [-> | Hin]; [| now right].
      left. exact Hk.
    - left. rewrite E. simpl in Hle.
      assert (Hl : String.length n = 3%nat) by lia.
      rewrite Hl. exact Hk. }
  destruct l as [| n' l'].
  - cbn [map alts]. destruct Hn as [E | [_ []]]. exact E.
  - change (alts (map lit (n :: n' :: l')))
      with (Alt (lit n) (alts (map lit (n' :: l')))).
    cbn [rmatch]. destruct Hn as [-> | [-> Hin']]; [reflexivity |].
    apply IH; [| assumption | assumption].
    now apply StronglySorted_inv in Hs.
Qed.

(** On any host, [%Z] accepts a final ["GMT"] and consumes all of it. *)
Lemma zone_gmt {A} tz0 tz1 dl subj pos g
      (k : groups -> nat -> string -> option A) x :
  k (g ++ [("Z"%char, slice pos (3 + pos) subj)])%list (3 + pos)%nat EmptyString
  = Some x ->
  rmatch subj (seqToRE (timezone (locale_C tz0 tz1 dl)) "Z") pos "GMT" g k
  = Some x.
Proof.
  intros Hk. unfold seqToRE.
  assert (Hin : In "gmt" (sorted_by_len (timezone (locale_C tz0 tz1 dl)))).
  { apply sorted_by_len_In. cbn [timezone locale_C].
    apply in_or_app. left. apply dedup_str_In. simpl. tauto. }
  destruct (forallb _ _) eqn:E.
  - rewrite forallb_forall in E. specialize (E _ Hin). discriminate E.
  - cbn [rmatch].
    apply (alts_lit_gmt _ subj pos g
             (fun g' pos' s' => k (g' ++ [("Z"%char, slice pos pos' subj)])%list pos' s'));
      [apply sorted_by_len_sorted | exact Hin | exact Hk].
Qed.

End ZoneFacts.


(** ** The date normaliser *)

Module NormaliserFacts.
Import PyStr Re Strptime PyStrFacts StrptimeFacts ZoneFacts.

(** [r] without the last element of its chain of [Seq]. *)
Ltac drop_last r :=
  lazymatch r with
  | Seq ?a ?b =>
      lazymatch b with
      | Seq _ _ => let b' := drop_last b in constr:(Seq a b')
      | _ => constr:(a)
      end
  end.

(** The HTTP date of the specification parses with the [%Z] format on
    every host: everything before the zone is matched by computation,
    the zone by [zone_gmt]. *)
Lemma strptime_http_gmt tz0 tz1 dl :
  strptime (locale_C tz0 tz1 dl) "Tue, 18 Mar 2025 00:00:00 GMT"
           "%a, %d %b %Y %H:%M:%S %Z"
  = Some {| year := 2025; month := 3; day := 18;
            hour := 0; minute := 0; second := 0; utcoffset := None |}.
Proof.
  unfold strptime.
  let p := eval cbv -[seqToRE timezone locale_C] in
             (pattern (locale_C tz0 tz1 dl) "%a, %d %b %Y %H:%M:%S %Z") in
  change (pattern (locale_C tz0 tz1 dl) "%a, %d %b %Y %H:%M:%S %Z") with p.
  cbv iota beta. unfold re_match.
  match goal with
  | |- context [rmatch ?s ?r 0%nat ?t [] ?k] =>
      let pre := drop_last r in
      change (rmatch s r 0%nat t [] k)
        with (rmatch s pre 0%nat t []
                (fun g' pos' s' =>
                   rmatch s (seqToRE (timezone (locale_C tz0 tz1 dl)) "Z")
                          pos' s' g' k))
  end.
  match goal with
  | |- context [rmatch ?s ?r 0%nat ?t [] ?k] => set (kZ := k)
  end.
  assert (HkZ : kZ [("a"%char, "Tue"); ("d"%char, "18"); ("b"%char, "Mar");
                    ("Y"%char, "2025"); ("H"%char, "00"); ("M"%char, "00");
                    ("S"%char, "00")] 26%nat "GMT"
                = Some ([("a"%char, "Tue"); ("d"%char, "18"); ("b"%char, "Mar");
                         ("Y"%char, "2025"); ("H"%char, "00"); ("M"%char, "00");
                         ("S"%char, "00"); ("Z"%char, "GMT")], EmptyString)).
  { subst kZ. cbv beta. apply zone_gmt. reflexivity. }
  clearbody kZ.
  match goal with
  | |- context [rmatch ?s ?r 0%nat ?t [] kZ] =>
      assert (E : rmatch s r 0%nat t [] kZ
                  = Some ([("a"%char, "Tue"); ("d"%char, "18"); ("b"%char, "Mar");
                           ("Y"%char, "2025"); ("H"%char, "00"); ("M"%char, "00");
                           ("S"%char, "00"); ("Z"%char, "GMT")], EmptyString))
  end.
  { vm_compute. rewrite HkZ. reflexivity. }
  rewrite E. vm_compute. reflexivity.
Qed.

(** The formats tried before [%a, %d %b %Y %H:%M:%S %Z] do not read
    their locale's zone names, so they fail by computation. *)
Lemma http_gmt_normalised tz0 tz1 dl pads :
  parseAndFormatDate {| locale_time := locale_C tz0 tz1 dl; pads_year := pads |}
                     "Tue, 18 Mar 2025 00:00:00 GMT"
  = "2025-03-18".
Proof.
  unfold parseAndFormatDate.
  change (strip "Tue, 18 Mar 2025 00:00:00 GMT")
    with "Tue, 18 Mar 2025 00:00:00 GMT".
  cbv beta iota zeta delta [truthy negb].
  unfold lDateFormats.
  (* the seven formats before it fail *)
  do 7 match goal with
       | |- try_formats ?h ?s (?f :: ?fs) = _ =>
           replace (try_formats h s (f :: fs)) with (try_formats h s fs)
             by (cbn [try_formats locale_time];
                 replace (strptime (locale_C tz0 tz1 dl) s f) with (@None datetime)
                   by (vm_compute; reflexivity);
                 reflexivity)
       end.
  cbn [try_formats locale_time pads_year]. rewrite strptime_http_gmt.
  now destruct pads.
Qed.

(** *** Texts without four digits in a row *)

Lemma suffix_trans s1 s2 s3 : suffix_of s1 s2 -> suffix_of s2 s3 -> suffix_of s1 s3.
Proof. intros H12 H23. induction H23; [exact H12 | constructor; auto]. Qed.

Lemma spaces_plus_suffix_fail {A} s : forall pos (k : nat -> string -> option A),
  (forall pos' s', suffix_of s' s -> k pos' s' = None) ->
  spaces_plus pos s k = None.
Proof.
  induction s as [| c s IH]; intros pos k Hk; [reflexivity |].
  cbn [spaces_plus]. destruct (is_space c); [| reflexivity].
  rewrite IH by (intros; apply Hk; now constructor).
  apply Hk. constructor. constructor.
Qed.

(** A match calls its continuation on suffixes of the subject only:
    when the continuation fails on all of them, so does the match. *)
Lemma rmatch_suffix_fail {A} subj r :
  forall pos s g (k : groups -> nat -> string -> option A),
    (forall g' pos' s', suffix_of s' s -> k g' pos' s' = None) ->
    rmatch subj r pos s g k = None.
Proof.
  assert (Hone : forall p s pos g (k : groups -> nat -> string -> option A),
             (forall g' pos' s', suffix_of s' s -> k g' pos' s' = None) ->
             one p s (k g (S pos)) = None).
  { intros p s pos g k Hk. unfold one. destruct s as [| c s]; [reflexivity |].
    destruct (p c); [| reflexivity]. apply Hk. constructor. constructor. }
  induction r; intros pos s g k Hk; cbn [rmatch]; try (now apply Hone).
  - apply Hk. constructor.
  - apply spaces_plus_suffix_fail. intros. now apply Hk.
  - apply IHr1. intros g1 pos1 s1 H1. apply IHr2.
    intros g2 pos2 s2 H2. apply Hk. exact (suffix_trans _ _ _ H2 H1).
  - rewrite IHr1 by exact Hk. now apply IHr2.
  - rewrite IHr by exact Hk. apply Hk. constructor.
  - apply IHr. intros. now apply Hk.
Qed.

(** A chain of expressions fails when one of them fails at every
    suffix of the subject. *)
Lemma seqs_member_fail {A} subj y rs :
  In y rs ->
  forall pos s g (k : groups -> nat -> string -> option A),
    (forall pos' s' g' (k' : groups -> nat -> string -> option A),
        suffix_of s' s -> rmatch subj y pos' s' g' k' = None) ->
    rmatch subj (seqs rs) pos s g k = None.
Proof.
  induction rs as [| r rs IH]; intros Hin pos s g k Hy; [destruct Hin |].
  destruct rs as [| r' rs'].
  - destruct Hin as [-> | []]. cbn [seqs]. apply Hy. constructor.
  - change (seqs (r :: r' :: rs')) with (Seq r (seqs (r' :: rs'))).
    cbn [rmatch]. destruct Hin as [-> | Hin].
    + apply Hy. constructor.
    + apply rmatch_suffix_fail. intros g1 pos1 s1 H1.
      apply IH; [exact Hin |].
      intros pos2 s2 g2 k2 H2. apply Hy. exact (suffix_trans _ _ _ H2 H1).
Qed.

Lemma year_re_fail {A} subj pos s g (k : groups -> nat -> string -> option A) :
  four_digits s = false -> rmatch subj year_re pos s g k = None.
Proof.
  unfold year_re, four_digits. cbn [rmatch]. unfold one.
  destruct s as [| a [| b [| c [| d s]]]]; try reflexivity;
    repeat match goal with
           | |- context [is_digit ?x] => destruct (is_digit x)
           end;
    intros H; try reflexivity; discriminate H.
Qed.

Lemma no_run_suffix s s' :
  suffix_of s' s -> no_four_digit_run s = true -> four_digits s' = false.
Proof.
  induction 1 as [s | c s s' _ IH]; intros H.
  - destruct s; cbn [no_four_digit_run] in H;
      apply andb_true_iff in H as [H _]; now apply negb_true_iff in H.
  - apply IH. cbn [no_four_digit_run] in H.
    now apply andb_true_iff in H as [_ H].
Qed.

(** Every format of the program asks for a year. *)
Lemma formats_have_year loc fmt :
  In fmt lDateFormats ->
  exists rs, pattern_aux loc false fmt = Some rs /\ In year_re rs.
Proof.
  unfold lDateFormats. intros Hin.
  repeat (destruct Hin as [<- | Hin];
          [eexists; split;
           [cbv -[seqToRE a_weekday a_month f_month timezone]; reflexivity
           | unfold year_re; simpl; tauto] |]).
  destruct Hin.
Qed.

(** So no format parses a text without four digits in a row, in any
    locale. *)
Lemma strptime_needs_year loc s fmt :
  In fmt lDateFormats -> no_four_digit_run s = true ->
  strptime loc s fmt = None.
Proof.
  intros Hin Hs. unfold strptime, pattern.
  destruct (formats_have_year loc fmt Hin) as (rs & -> & Hy).
  unfold re_match. rewrite (seqs_member_fail s year_re rs Hy); [reflexivity |].
  intros pos' s' g' k' Hsuf. apply year_re_fail.
  exact (no_run_suffix _ _ Hsuf Hs).
Qed.

Lemma try_formats_needs_year host s :
  no_four_digit_run s = true -> try_formats host s lDateFormats = s.
Proof.
  intros Hs.
  assert (H : forall fmts, (forall f, In f fmts -> In f lDateFormats) ->
                           try_formats host s fmts = s).
  { induction fmts as [| f fmts IH]; intros Hsub; [reflexivity |].
    cbn [try_formats].
    rewrite (strptime_needs_year _ s f (Hsub f (or_introl eq_refl)) Hs).
    apply IH. intros f' Hf'. apply Hsub. now right. }
  apply H. auto.
Qed.

(** The text of a date before the year 1000 on a host that does not
    pad the year. *)
Lemma normalise_short_year host y m d :
  pads_year host = false -> 0 <= y < 1000 ->
  parseAndFormatDate host
    (year_text false y +:+ "-" +:+ pad2 m +:+ "-" +:+ pad2 d)
  = year_text false y +:+ "-" +:+ pad2 m +:+ "-" +:+ pad2 d.
Proof.
  intros Hp Hy. unfold parseAndFormatDate, year_text. cbn [orb].
  destruct (Z.leb_spec 1000 y); [lia |].
  assert (Hd : forall n, is_digit (digit_char n) = true)
    by apply digit_char_is_digit.
  assert (Hs : forall n, is_space (digit_char n) = false)
    by (intros; apply digit_not_space, digit_char_is_digit).
  destruct (y <? 10); [| destruct (y <? 100)];
    (rewrite strip_no_space;
     [| unfold pad2; cbv [String.append list_ascii_of_string forallb];
        rewrite !Hs; reflexivity]);
    (match goal with
     | |- (if negb (truthy ?t) then _ else _) = _ =>
         change (negb (truthy t)) with false; cbv iota
     end);
    apply try_formats_needs_year;
    unfold pad2; cbv [String.append no_four_digit_run four_digits];
    rewrite !Hd; vm_compute; reflexivity.
Qed.

(** The text of any date is a fixed point of the normaliser. *)
Lemma normalise_date_text host dt :
  valid_date (year dt) (month dt) (day dt) = true ->
  parseAndFormatDate host (strftime_Ymd (pads_year host) dt)
  = strftime_Ymd (pads_year host) dt.
Proof.
  intros Hv. unfold strftime_Ymd.
  destruct (StrptimeFacts.valid_date_bounds _ _ _ Hv) as (Hy & _).
  destruct (pads_year host || (1000 <=? year dt)) eqn:E.
  - assert (Ht : year_text (pads_year host) (year dt) = pad4 (year dt))
      by (unfold year_text; now rewrite E).
    rewrite Ht. now apply StrptimeFacts.normalise_canonical.
  - apply orb_false_iff in E as [Hp Hlt]. rewrite Hp.
    apply normalise_short_year; [exact Hp |].
    apply Z.leb_gt in Hlt. lia.
Qed.

End NormaliserFacts.

(** C6 -- The date normaliser maps ["March 18, 2025"] and
    ["Tue, 18 Mar 2025 00:00:00 GMT"] to ["2025-03-18"], returns
    ["not a date"] unchanged and returns the empty text for the empty
    text.  This holds in the "C" locale of the process, whatever the
    time-zone names and the C library of the host are. *)
Theorem C6_normaliser_examples (tz0 tz1 : string) (daylight pads : bool) :
  let host := {| Strptime.locale_time := Strptime.locale_C tz0 tz1 daylight;
                 Strptime.pads_year := pads |} in
  parseAndFormatDate host "March 18, 2025" = "2025-03-18"
  /\ parseAndFormatDate host "Tue, 18 Mar 2025 00:00:00 GMT" = "2025-03-18"
  /\ parseAndFormatDate host "not a date" = "not a date"
  /\ parseAndFormatDate host "" = "".
Proof.
  cbv zeta. split; [destruct pads; vm_compute; reflexivity |].
  split; [apply NormaliserFacts.http_gmt_normalised |].
  split; vm_compute; reflexivity.
Qed.

(** C7 -- [%m/%d/%Y] is tried before [%d/%m/%Y], so ["03/04/2025"] is
    read as March 4 and normalised to ["2025-03-04"], in every locale and
    on every host. *)
Theorem C7_month_first (host : Strptime.Host) :
  nth_error lDateFormats 0 = Some "%m/%d/%Y"
  /\ nth_error lDateFormats 3 = Some "%d/%m/%Y"
  /\ Strptime.strptime (Strptime.locale_time host) "03/04/2025" "%m/%d/%Y"
     = Some {| Strptime.year := 2025; Strptime.month := 3; Strptime.day := 4;
               Strptime.hour := 0; Strptime.minute := 0; Strptime.second := 0;
               Strptime.utcoffset := None |}
  /\ parseAndFormatDate host "03/04/2025" = "2025-03-04".
Proof.
  destruct host as [loc []]; repeat split; vm_compute; reflexivity.
Qed.

(** C9 -- The date normaliser is idempotent: normalising its own result
    changes nothing, for every input, locale and host. *)
Theorem C9_normaliser_idempotent (host : Strptime.Host) (s : string) :
  parseAndFormatDate host (parseAndFormatDate host s) = parseAndFormatDate host s.
Proof.
  unfold parseAndFormatDate at 2.
  destruct (PyStr.truthy (PyStr.strip s)) eqn:Ht; cbn [negb].
  2:{ unfold parseAndFormatDate at 2. rewrite Ht. reflexivity. }
  destruct (StrptimeFacts.try_formats_cases host (PyStr.strip s) lDateFormats)
    as [(dt & fmt & Hp & E) | E]; rewrite E.
  - (* a format parsed: the result is a date text, hence a fixed point *)
    unfold parseAndFormatDate at 2. rewrite Ht, E. cbn [negb].
    apply NormaliserFacts.normalise_date_text.
    exact (StrptimeFacts.strptime_valid _ _ _ _ Hp).
  - (* no format parsed: the stripped text comes back, and again *)
    unfold parseAndFormatDate. rewrite Ht. cbn [negb]. rewrite E.
    rewrite PyStrFacts.strip_idem, Ht. cbn [negb]. exact E.
Qed.

(** ** [parse]: the [updated] field *)

Module UpdatedFacts.
Import PyStr Strptime.

Lemma try_formats_first_parse host s fmts :
  try_formats host s fmts
  = match first_parse (locale_time host) s fmts with
    | Some dt => strftime_Ymd (pads_year host) dt
    | None => s
    end.
Proof.
  induction fmts as [| f fmts IH]; [reflexivity |].
  cbn [try_formats first_parse].
  now destruct (strptime (locale_time host) s f).
Qed.

(** What the normaliser returns for a meta text. *)
Lemma normaliser_is_meta_candidate lib raw :
  parseAndFormatDate (host lib) raw = meta_candidate lib (Some raw).
Proof.
  unfold parseAndFormatDate, meta_candidate.
  destruct (truthy (strip raw)); cbn [negb]; [| reflexivity].
  apply try_formats_first_parse.
Qed.

Lemma try_meta_candidate lib cur meta :
  try_meta lib cur meta = first_nonempty [cur; meta_candidate lib meta].
Proof.
  unfold try_meta. cbn [first_nonempty].
  destruct (truthy cur) eqn:Hc; cbn [negb]; [reflexivity |].
  destruct meta as [raw |]; cbn [or_empty get].
  - rewrite <- normaliser_is_meta_candidate.
    destruct (truthy raw) eqn:Hr.
    + now destruct (parseAndFormatDate (host lib) raw).
    + destruct raw; [| discriminate]. cbn. now destruct cur.
  - cbn. now destruct cur.
Qed.

Lemma first_nonempty_cons s l :
  first_nonempty (first_nonempty [s] :: l) = first_nonempty (s :: l).
Proof. cbn [first_nonempty]. now destruct (truthy s) eqn:E; rewrite ?E. Qed.

End UpdatedFacts.

(** C5 -- The [updated] field is the first candidate that is not empty,
    in the order: the [Last-Modified] header (its date when it parses,
    nothing otherwise), then the meta tags [last-modified],
    [article:modified_time], [last_modified], [modified].  A meta
    candidate is the canonical date of the first format that parses its
    trimmed text, and the trimmed text itself when no format does; a
    text that is blank after trimming counts as absent. *)
Theorem C5_updated_resolution (lib : Lib) (response : Response) :
  resolve_updated lib response = updated_trimmed lib response.
Proof.
  unfold resolve_updated, updated_trimmed.
  fold (header_candidate lib response).
  rewrite !UpdatedFacts.try_meta_candidate.
  generalize (header_candidate lib response)
             (meta_candidate lib (meta_last_modified response))
             (meta_candidate lib (meta_article_modified_time response))
             (meta_candidate lib (meta_last_modified_us response))
             (meta_candidate lib (meta_modified response)).
  intros h c1 c2 c3 c4.
  destruct h, c1, c2, c3, c4; reflexivity.
Qed.

(** The claim as the specification words it -- the raw meta text used
    verbatim, never discarded -- fails on a meta text with blanks around
    it, of which the program keeps the trimmed text, and on a blank meta
    text, which the program passes over for the next tag. *)
Lemma C5_raw_text_not_verbatim :
  (resolve_updated Demo.lib Demo.page_padded_meta = "not a date"
   /\ updated_spec Demo.lib Demo.page_padded_meta = " not a date ")
  /\ (resolve_updated Demo.lib Demo.page_blank_meta = "2025-03-18"
      /\ updated_spec Demo.lib Demo.page_blank_meta = "   ")
  /\ resolve_updated Demo.lib Demo.page_padded_meta
     <> updated_spec Demo.lib Demo.page_padded_meta
  /\ resolve_updated Demo.lib Demo.page_blank_meta
     <> updated_spec Demo.lib Demo.page_blank_meta.
Proof.
  assert (H1 : resolve_updated Demo.lib Demo.page_padded_meta = "not a date")
    by (vm_compute; reflexivity).
  assert (H2 : updated_spec Demo.lib Demo.page_padded_meta = " not a date ")
    by (vm_compute; reflexivity).
  assert (H3 : resolve_updated Demo.lib Demo.page_blank_meta = "2025-03-18")
    by (vm_compute; reflexivity).
  assert (H4 : updated_spec Demo.lib Demo.page_blank_meta = "   ")
    by (vm_compute; reflexivity).
  split; [now split |]. split; [now split |].
  rewrite H1, H2, H3, H4. split; discriminate.
Qed.

(** ** [parse]: following links *)

Module ParseFacts.

(** In URL-list mode [parse] yields no request and leaves the set of
    URLs alone. *)
Lemma parse_list_mode lib self response :
  bUrlListMode self = true ->
  exists sp dItem evs,
    parse lib self response = (sp, dItem, [], evs)
    /\ bUrlListMode sp = true
    /\ lUrlSet sp = lUrlSet self
    /\ lItems sp = (lItems self ++ [dItem])%list.
Proof.
  intros Hm. unfold parse. rewrite Hm. cbn [negb andb].
  eexists _, _, _. repeat split.
Qed.

(** At the cap, [parse] yields no request either. *)
Lemma parse_at_cap lib self response :
  bUrlListMode self = false ->
  iMaxUrls self <= Z.of_nat (size (lUrlSet self)) ->
  exists sp dItem evs,
    parse lib self response = (sp, dItem, [], evs)
    /\ lUrlSet sp = lUrlSet self.
Proof.
  intros Hm Hcap. unfold parse. rewrite Hm. cbn [negb].
  destruct (Z.ltb_spec (Z.of_nat (size (lUrlSet self))) (iMaxUrls self));
    [lia |].
  eexists _, _, _. repeat split.
Qed.

(** [parse] never reads the configuration dictionary. *)
Lemma parse_with_config lib self cfg response :
  parse lib (with_config self cfg) response
  = let '(sp, dItem, reqs, evs) := parse lib self response in
    (with_config sp cfg, dItem, reqs, evs).
Proof.
  unfold parse. cbn [with_config bUrlListMode bPrintedCrawlingMessage
                     sStartTitle lUrlSet iMaxUrls sParentDir lItems
                     iCrawlDepth lUrlList sStartUrl allowed_domains].
  destruct (negb (bUrlListMode self)); [| reflexivity].
  destruct (Z.of_nat (size (lUrlSet self)) <? iMaxUrls self); [| reflexivity].
  now destruct (follow_links lib (sParentDir self) (lUrlSet self) _).
Qed.

(** The output name comes from the first title that is not empty. *)
Lemma parse_start_title lib self response :
  sStartTitle (parse lib self response).1.1.1
  = if PyStr.truthy (sStartTitle self) then sStartTitle self
    else or_empty (xpath_title response).
Proof.
  unfold parse.
  destruct (negb (bUrlListMode self)).
  - destruct (Z.of_nat (size (lUrlSet self)) <? iMaxUrls self).
    + destruct (follow_links lib (sParentDir self) (lUrlSet self) _).
      cbn. now destruct (PyStr.truthy (sStartTitle self)).
    + cbn. now destruct (PyStr.truthy (sStartTitle self)).
  - cbn. now destruct (PyStr.truthy (sStartTitle self)).
Qed.

End ParseFacts.

(** C1 -- With [maxUrls = 2], a start page with three links and every
    page reachable, the crawl ends with four page records and four URLs
    in the visited set: the cap is tested once per page, before the loop
    over its links, so all three links of the start page are enqueued
    while the set grows past the cap.  This is so under either queue
    discipline of the scheduler. *)
Theorem C1_cap_overshoot :
  option_map (fun st => (es_queue st, iMaxUrls (es_spider st),
                         length (lItems (es_spider st)),
                         size (lUrlSet (es_spider st)), es_fetched st))
             (crawl Demo.lib (Demo.engine false) Demo.cfg_cap2 4)
  = Some ([], 2, 4%nat, 4%nat,
          ["http://example.com"; "http://example.com/c";
           "http://example.com/a"; "http://example.com/b"])
  /\
  option_map (fun st => (es_queue st, iMaxUrls (es_spider st),
                         length (lItems (es_spider st)),
                         size (lUrlSet (es_spider st)), es_fetched st))
             (crawl Demo.lib (Demo.engine true) Demo.cfg_cap2 4)
  = Some ([], 2, 4%nat, 4%nat,
          ["http://example.com"; "http://example.com/b";
           "http://example.com/a"; "http://example.com/c"]).
Proof. split; vm_compute; reflexivity. Qed.

(** ** [closed] *)

Module ClosedFacts.

(** Whatever the handler, a failed report write ends [closed]. *)
Lemma closed_with_csv_failure handler self fs sCsvFile exc :
  csv_file self fs = Some sCsvFile ->
  fs_write_error fs sCsvFile = Some exc ->
  closed_with handler self fs
  = Some [LogError ("Failed to write CSV file: " +:+ exc)].
Proof.
  intros Hf He. unfold closed_with. now rewrite Hf, He.
Qed.

(** The program's [closed] never writes a log file. *)
Lemma closed_writes_no_log self fs evs :
  closed self fs = Some evs ->
  forall f lines, ~ In (LogWritten f lines) evs.
Proof.
  unfold closed, closed_with, MEM_LOG_HANDLER. intros H f lines Hin.
  destruct (csv_file self fs) as [name |]; [| discriminate].
  destruct (fs_write_error fs name).
  - inversion H; subst. destruct Hin as [Hin | []]. discriminate.
  - assert (evs = [CsvWritten name (lItems self);
                   Print ("Saved " +:+ decimal (length (lItems self))
                          +:+ " links to " +:+ name)]) as ->.
    { destruct (get (cfg_log (dConfigData self)) false); now inversion H. }
    destruct Hin as [Hin | [Hin | []]]; discriminate.
Qed.

(** A blank start title falls back to ["output"]. *)
Lemma csv_root_blank self :
  PyStr.truthy (PyStr.strip (sStartTitle self)) = false ->
  csv_root self = "output".
Proof. unfold csv_root. now intros ->. Qed.

(** No unsafe character survives [sanitize]. *)
Lemma sanitize_safe s c :
  In c unsafe_chars -> ~ In c (list_ascii_of_string (sanitize s)).
Proof.
  intros Hc. induction s as [| a s IH]; [now intros [] |].
  cbn [sanitize]. destruct (existsb (Ascii.eqb a) unsafe_chars) eqn:E;
    [exact IH |].
  cbn [list_ascii_of_string]. intros [-> | Hin]; [| now apply IH].
  assert (existsb (Ascii.eqb c) unsafe_chars = true); [| congruence].
  apply existsb_exists. exists c. split; [exact Hc | apply Ascii.eqb_refl].
Qed.

(** A safe character is kept. *)
Lemma sanitize_keeps s :
  forallb (fun c => negb (existsb (Ascii.eqb c) unsafe_chars))
          (list_ascii_of_string s) = true ->
  sanitize s = s.
Proof.
  induction s as [| a s IH]; [reflexivity |].
  cbn [list_ascii_of_string forallb sanitize]. intros H.
  apply andb_true_iff in H as [Ha Hs]. apply negb_true_iff in Ha.
  now rewrite Ha, IH.
Qed.

(** When [Home.csv] is taken and [Home-01.csv] is free, a crawl whose
    start title is ["Home"] writes [Home-01.csv]. *)
Lemma home_collision self fs :
  sStartTitle self = "Home" ->
  "Home.csv" ∈ fs_files fs ->
  "Home-01.csv" ∉ fs_files fs ->
  csv_file self fs = Some "Home-01.csv".
Proof.
  intros Ht Hin Hout. unfold csv_file, csv_root. rewrite Ht.
  change (sanitize _) with "Home".
  change ("Home" +:+ ".csv") with "Home.csv".
  cbn [free_name]. rewrite (bool_decide_eq_true_2 _ Hin).
  change (suffixed_name "Home" 1) with "Home-01.csv".
  destruct (size (fs_files fs)); cbn [free_name];
    now rewrite (bool_decide_eq_false_2 _ Hout).
Qed.

(** *** The name loop ends *)

Lemma read_decimal n : read_nat (decimal n) = Some n.
Proof.
  unfold read_nat, decimal.
  pose proof (DecimalNat.Unsigned.of_to n) as Hn.
  destruct (Nat.to_uint n) as [| d | d | d | d | d | d | d | d | d | d] eqn:E;
    try (rewrite NilZero.usu by discriminate; cbn [option_map]; now rewrite Hn).
  cbn in Hn. now subst.
Qed.

Lemma read_fmt_02d n : read_nat (fmt_02d n) = Some n.
Proof.
  unfold fmt_02d. destruct (n <? 10)%nat; [| apply read_decimal].
  pose proof (read_decimal n) as H. unfold read_nat in *.
  destruct (decimal n) as [| c s] eqn:E; [discriminate H |].
  change (NilZero.uint_of_string ("0" +:+ String c s))
    with (match NilEmpty.uint_of_string (String c s) with
          | Some d => Some (Decimal.D0 d)
          | None => None
          end).
  change (NilZero.uint_of_string (String c s))
    with (NilEmpty.uint_of_string (String c s)) in H.
  destruct (NilEmpty.uint_of_string (String c s)); [| discriminate H].
  exact H.
Qed.

Lemma append_inj_l a x y : a +:+ x = a +:+ y -> x = y.
Proof.
  induction a as [| c a IH]; [trivial |].
  cbn [String.append]. intros H. inversion H. now apply IH.
Qed.

Lemma append_length x y :
  String.length (x +:+ y) = (String.length x + String.length y)%nat.
Proof.
  induction x as [| c x IH]; [reflexivity |].
  simpl. now rewrite IH.
Qed.

Lemma append_inj_r c : forall x y, x +:+ c = y +:+ c -> x = y.
Proof.
  induction x as [| a x IH]; intros [| b y] H; [reflexivity | | |].
  - apply (f_equal String.length) in H.
    rewrite !append_length in H. simpl in H. lia.
  - apply (f_equal String.length) in H.
    rewrite !append_length in H. simpl in H. lia.
  - simpl in H. inversion H. f_equal. now apply IH.
Qed.

Lemma suffixed_name_inj root i j :
  suffixed_name root i = suffixed_name root j -> i = j.
Proof.
  unfold suffixed_name. intros H.
  apply append_inj_l, (append_inj_l "-"), append_inj_r in H.
  pose proof (read_fmt_02d i) as Hi. rewrite H, read_fmt_02d in Hi.
  now inversion Hi.
Qed.

Lemma suffixed_name_not_plain root i : suffixed_name root i <> root +:+ ".csv".
Proof.
  unfold suffixed_name. intros H. apply append_inj_l in H. discriminate H.
Qed.

Lemma free_name_total files root : forall rounds cur i (tried : gset string),
  tried ⊆ files ->
  cur ∉ tried ->
  (forall j, (i <= j)%nat ->
             (suffixed_name root j ∉ tried) /\ suffixed_name root j <> cur) ->
  (size files < size tried + rounds)%nat ->
  exists name, free_name files root cur i rounds = Some name /\ (name ∉ files).
Proof.
  induction rounds as [| rounds IH]; intros cur i tried Hsub Hcur Hnext Hsize;
    cbn [free_name]; case_bool_decide as Hin; eauto.
  - pose proof (subseteq_size _ _ Hsub). lia.
  - apply (IH _ _ ({[cur]} ∪ tried)).
    + set_solver.
    + destruct (Hnext i (Nat.le_refl i)). set_solver.
    + intros j Hj. destruct (Hnext j) as [H1 H2]; [lia |].
      split; [set_solver |].
      intros E. apply suffixed_name_inj in E. lia.
    + rewrite size_union by set_solver. rewrite size_singleton. lia.
Qed.

(** [closed] always finds a name, and it is a free one. *)
Lemma csv_file_total self fs :
  exists name, csv_file self fs = Some name /\ (name ∉ fs_files fs).
Proof.
  unfold csv_file.
  apply (free_name_total _ _ _ _ _ ∅); [set_solver | set_solver | |].
  - intros j _. split; [set_solver | apply suffixed_name_not_plain].
  - rewrite size_empty. lia.
Qed.

Lemma closed_total handler self fs :
  exists evs, closed_with handler self fs = Some evs.
Proof.
  unfold closed_with. destruct (csv_file_total self fs) as (name & -> & _).
  destruct (fs_write_error fs name); eauto.
Qed.

End ClosedFacts.

(** C2 -- When the CSV report cannot be written, [closed] reports the
    failure through [logging.error] and returns at once: no log file is
    written and no summary line is printed, whether or not a log handler
    is installed. *)
Theorem C2_csv_failure_ends_closed
        (handler : option memoryLogHandler) (self : Spider) (fs : FileSystem)
        (sCsvFile exc : string) :
  csv_file self fs = Some sCsvFile ->
  fs_write_error fs sCsvFile = Some exc ->
  exists evs,
    closed_with handler self fs = Some evs
    /\ evs = [LogError ("Failed to write CSV file: " +:+ exc)]
    /\ written_files evs = []
    /\ printed_lines evs = [].
Proof.
  intros Hf He. eexists. split.
  - exact (ClosedFacts.closed_with_csv_failure handler self fs sCsvFile exc Hf He).
  - repeat split.
Qed.

Lemma C2_csv_failure_ends_closed_witness :
  csv_file Demo.spider_home Demo.fs_readonly = Some "Home.csv"
  /\ fs_write_error Demo.fs_readonly "Home.csv" = Some "Permission denied"
  /\ exists evs,
       closed_with (Some {| lLogRecords := ["Spider opened"] |})
                   Demo.spider_home Demo.fs_readonly = Some evs
       /\ evs = [LogError ("Failed to write CSV file: " +:+ "Permission denied")]
       /\ written_files evs = []
       /\ printed_lines evs = [].
Proof.
  assert (H1 : csv_file Demo.spider_home Demo.fs_readonly = Some "Home.csv")
    by (vm_compute; reflexivity).
  assert (H2 : fs_write_error Demo.fs_readonly "Home.csv" = Some "Permission denied")
    by reflexivity.
  split; [exact H1 |]. split; [exact H2 |].
  exact (C2_csv_failure_ends_closed (Some {| lLogRecords := ["Spider opened"] |})
           Demo.spider_home Demo.fs_readonly "Home.csv" "Permission denied" H1 H2).
Defined.

(** The claim as the specification words it fails in a directory that
    cannot be written to: with logging on, [closed] neither writes the
    log file nor prints the summary line. *)
Lemma C2_csv_failure_is_fatal :
  ~ csv_failure_is_not_fatal Demo.spider_home Demo.fs_readonly.
Proof.
  intros H.
  destruct (H "Home.csv" "Permission denied"
              [LogError ("Failed to write CSV file: " +:+ "Permission denied")])
    as (_ & _ & Hin); try (vm_compute; reflexivity).
  destruct Hin as [Hin | []]. discriminate Hin.
Qed.

(** C3 -- A crawl run with logging on writes the report and nothing
    else: [MEM_LOG_HANDLER] is still [None] when [closed] reads it, so
    the log file with the base name of the report is never written. *)
Theorem C3_log_file_not_written :
  MEM_LOG_HANDLER = None
  /\ option_map (fun '(sp, evs) => (get (cfg_log (dConfigData sp)) false,
                                    written_files evs))
                (run Demo.lib (Demo.engine true) Demo.fs_empty Demo.cfg_log_on 4)
     = Some (true, ["Example.csv"]).
Proof. split; [reflexivity | vm_compute; reflexivity]. Qed.

(** C4 -- When the first processed page has no title and a later page
    is titled ["Products"], the report is named [Products.csv]: the
    start title is taken from the first page whose title is not empty,
    and the fall-back name [output] is not used. *)
Theorem C4_name_from_later_page :
  option_map (fun '(sp, evs) => (map title (lItems sp), sStartTitle sp,
                                 written_files evs))
             (run Demo.lib Demo.engine_untitled Demo.fs_empty Demo.cfg_cap2 2)
  = Some ([""; "Products"], "Products", ["Products.csv"]).
Proof. vm_compute. reflexivity. Qed.

(** ** The engine in URL-list mode *)

Module EngineFacts.
Import ParseFacts.

Lemma pop_perm eng q rd q' : pop eng q = Some (rd, q') -> q ≡ₚ rd :: q'.
Proof.
  unfold pop. destruct (lifo eng).
  - destruct (rev q) as [| x r] eqn:E; [discriminate |].
    intros H. inversion H; subst.
    rewrite (Permutation_rev q), E. constructor. apply Permutation_rev.
  - destruct q; [discriminate |]. intros H. now inversion H; subst.
Qed.

Lemma pop_nonempty eng rd q : exists rd' q', pop eng (rd :: q) = Some (rd', q').
Proof.
  unfold pop. destruct (lifo eng); [| eauto].
  destruct (rev (rd :: q)) eqn:E; [| eauto].
  apply (f_equal (@length _)) in E. rewrite List.length_rev in E. discriminate.
Qed.

(** A turn of the engine in URL-list mode: the request leaves the
    queue, nothing enters it, and a record is added exactly when the
    download succeeds. *)
Lemma step_list_mode lib eng st rd q' :
  bUrlListMode (es_spider st) = true ->
  pop eng (es_queue st) = Some (rd, q') ->
  exists st1,
    engine_step lib eng st = Some st1
    /\ es_queue st1 = q'
    /\ bUrlListMode (es_spider st1) = true
    /\ es_fetched st1 = (es_fetched st ++ [req_url rd.1])%list
    /\ (length (lItems (es_spider st1))
        + match download eng (req_url rd.1) with Some _ => 0 | None => 1 end
        = S (length (lItems (es_spider st))))%nat.
Proof.
  intros Hm Hpop. unfold engine_step. rewrite Hpop. destruct rd as [r depth].
  cbn [fst]. destruct (download eng (req_url r)) as [response |].
  - destruct (parse_list_mode lib (es_spider st) response Hm)
      as (sp & it & evs & -> & Hm' & _ & Hitems).
    cbn [map schedule]. eexists. split; [reflexivity |]. cbn.
    repeat split; [exact Hm' |].
    rewrite Hitems, length_app. cbn. lia.
  - eexists. split; [reflexivity |]. cbn. repeat split; [exact Hm | lia].
Qed.

(** What a finished run in URL-list mode has done. *)
Lemma loop_list_mode lib eng fuel : forall st st',
  bUrlListMode (es_spider st) = true ->
  engine_loop lib eng fuel st = Some st' ->
  es_queue st' = []
  /\ es_fetched st' ≡ₚ es_fetched st ++ map (fun rd => req_url rd.1) (es_queue st)
  /\ (length (lItems (es_spider st'))
      + length (filter (fun rd => download eng (req_url rd.1) = None) (es_queue st))
      = length (lItems (es_spider st)) + length (es_queue st))%nat.
Proof.
  induction fuel as [| fuel IH]; intros st st' Hm Hrun;
    cbn [engine_loop] in Hrun; destruct (es_queue st) as [| rd0 q0] eqn:Q;
    try discriminate;
    try (inversion Hrun; subst st'; cbn; rewrite app_nil_r;
         split; [exact Q | split; [reflexivity | lia]]).
  destruct (pop_nonempty eng rd0 q0) as (rd & q' & Hpop).
  rewrite <- Q in Hpop.
  destruct (step_list_mode lib eng st rd q' Hm Hpop)
    as (st1 & Hs & Hq & Hm1 & Hf & Hn).
  rewrite Hs in Hrun.
  destruct (IH st1 st' Hm1 Hrun) as (Hq' & Hf' & Hn').
  rewrite Q in Hpop. apply pop_perm in Hpop.
  split; [exact Hq' |]. split.
  - rewrite Hf', Hf, Hq, Hpop. cbn [map]. rewrite <- app_assoc. reflexivity.
  - rewrite Hpop. rewrite Hq in Hn'. rewrite filter_cons. cbn [length].
    destruct (download eng (req_url rd.1)); case_decide; try congruence;
      cbn [length]; lia.
Qed.


(** [startRequests] on seeds that are pairwise distinct and new: it
    requests them in order up to the first one that [scrapy.Request]
    refuses, which is all of them when none is refused. *)
Lemma start_list_requested lib urls : forall seen,
  NoDup urls ->
  (forall u, u ∈ urls -> u ∉ seen) ->
  exists requested rest,
    urls = (requested ++ rest)%list
    /\ (start_list lib seen urls).2
       = map (fun u => {| req_url := u; dont_filter := true |}) requested
    /\ ((forall u, u ∈ urls -> request_ok lib u = true) -> rest = []).
Proof.
  induction urls as [| u urls IH]; intros seen Hnd Hnew.
  - exists [], []. repeat split.
  - apply NoDup_cons in Hnd as [Hu Hnd]. cbn [start_list].
    rewrite bool_decide_eq_false_2 by (apply Hnew; left).
    destruct (request_ok lib u) eqn:Hok.
    + destruct (IH ({[u]} ∪ seen) Hnd) as (requested & rest & -> & Hr & Hall).
      { intros v Hv. specialize (Hnew v (list_elem_of_further _ _ _ Hv)).
        set_solver. }
      destruct (start_list lib ({[u]} ∪ seen) (requested ++ rest))
        as [seen' reqs].
      cbn [snd] in *. exists (u :: requested), rest.
      split; [reflexivity |]. split; [cbn [map]; now rewrite Hr |].
      intros Hok'. apply Hall. intros v Hv. apply Hok'. now right.
    + exists [], (u :: urls). split; [reflexivity |]. split; [reflexivity |].
      intros Hok'. rewrite Hok' in Hok by left. discriminate Hok.
Qed.

(** Seed requests pass every filter. *)
Lemma schedule_seeds eng sp urls : forall seen queue,
  schedule eng sp seen queue
           (map (fun r => (r, 0))
                (map (fun u => {| req_url := u; dont_filter := true |}) urls))
  = (seen, (queue ++ map seed_request urls)%list).
Proof.
  induction urls as [| u urls IH]; intros seen queue; cbn [map schedule].
  - now rewrite app_nil_r.
  - unfold passes_filters. cbn [dont_filter orb andb fst].
    replace ((DEPTH_LIMIT eng <=? 0) || (0 <=? DEPTH_LIMIT eng)) with true
      by (symmetry; apply orb_true_iff;
          destruct (Z.leb_spec (DEPTH_LIMIT eng) 0); [left | right];
          [reflexivity | apply Z.leb_le; lia]).
    rewrite IH, <- app_assoc. reflexivity.
Qed.

Lemma seed_urls_NoDup cfg : NoDup (seed_urls cfg).
Proof. unfold seed_urls. apply NoDup_elements. Qed.



(** The state in which the engine starts in URL-list mode: the queue
    holds the seeds before the first one [scrapy.Request] refuses. *)
Lemma open_list_mode lib eng cfg :
  PyStr.truthy (PyStr.strip (get (cfg_urlList cfg) "")) = true ->
  exists st requested rest,
    open_spider lib eng cfg = Some st
    /\ seed_urls cfg = (requested ++ rest)%list
    /\ ((forall u, u ∈ seed_urls cfg -> request_ok lib u = true) -> rest = [])
    /\ bUrlListMode (es_spider st) = true
    /\ es_queue st = map seed_request requested
    /\ es_fetched st = []
    /\ lItems (es_spider st) = []
    /\ sStartUrl (es_spider st) = None
    /\ allowed_domains (es_spider st) = None.
Proof.
  intros Hm. unfold open_spider, init. rewrite Hm.
  unfold startRequests. cbn [bUrlListMode lUrlList lUrlSet get].
  fold (seed_urls cfg).
  destruct (start_list_requested lib (seed_urls cfg) ∅ (seed_urls_NoDup cfg))
    as (requested & rest & Hsplit & Hs & Hall); [set_solver |].
  destruct (start_list lib ∅ (seed_urls cfg)) as [seen reqs].
  cbn [snd] in Hs. rewrite Hs.
  rewrite schedule_seeds. eexists _, requested, rest.
  split; [reflexivity |]. split; [exact Hsplit |]. split; [exact Hall |].
  cbn. repeat split.
Qed.

(** The stored dictionary plays no part in a crawl. *)
Lemma startRequests_with_config lib sp cfg :
  startRequests lib (with_config sp cfg)
  = let '(sp', reqs) := startRequests lib sp in (with_config sp' cfg, reqs).
Proof.
  unfold startRequests. cbn [with_config bUrlListMode lUrlSet lUrlList sStartUrl].
  destruct (bUrlListMode sp).
  - now destruct (start_list lib (lUrlSet sp) (get (lUrlList sp) [])).
  - now destruct (sStartUrl sp).
Qed.

Lemma schedule_with_config eng sp cfg reqs : forall seen queue,
  schedule eng (with_config sp cfg) seen queue reqs
  = schedule eng sp seen queue reqs.
Proof.
  induction reqs as [| rd reqs IH]; intros seen queue; [reflexivity |].
  cbn [schedule].
  replace (passes_filters eng (with_config sp cfg) seen rd)
    with (passes_filters eng sp seen rd) by now destruct rd.
  now rewrite !IH.
Qed.

Lemma step_with_config lib eng st cfg :
  engine_step lib eng (es_with_config st cfg)
  = option_map (fun st' => es_with_config st' cfg) (engine_step lib eng st).
Proof.
  unfold engine_step. cbn [es_with_config es_queue es_spider es_seen
                           es_items es_fetched es_events].
  destruct (pop eng (es_queue st)) as [[[r depth] queue] |]; [| reflexivity].
  destruct (download eng (req_url r)) as [response |]; [| reflexivity].
  rewrite parse_with_config.
  destruct (parse lib (es_spider st) response) as [[[sp dItem] reqs] evs].
  rewrite schedule_with_config.
  now destruct (schedule eng sp (es_seen st) queue _).
Qed.

Lemma loop_with_config lib eng cfg fuel : forall st,
  engine_loop lib eng fuel (es_with_config st cfg)
  = option_map (fun st' => es_with_config st' cfg) (engine_loop lib eng fuel st).
Proof.
  induction fuel as [| fuel IH]; intros st; cbn [engine_loop];
    change (es_queue (es_with_config st cfg)) with (es_queue st);
    destruct (es_queue st); try reflexivity.
  rewrite step_with_config.
  destruct (engine_step lib eng st) as [st1 |]; [apply IH | reflexivity].
Qed.

Lemma init_list_mode_startUrl lib cfg o :
  PyStr.truthy (PyStr.strip (get (cfg_urlList cfg) "")) = true ->
  init lib (with_startUrl cfg o)
  = option_map (fun sp => with_config sp (with_startUrl cfg o)) (init lib cfg).
Proof.
  intros Hm. unfold init. cbn [with_startUrl cfg_urlList cfg_maxUrls
                               cfg_crawlDepth cfg_parentDir].
  now rewrite Hm.
Qed.

Lemma crawl_list_mode_startUrl lib eng cfg o fuel :
  PyStr.truthy (PyStr.strip (get (cfg_urlList cfg) "")) = true ->
  crawl lib eng (with_startUrl cfg o) fuel
  = option_map (fun st => es_with_config st (with_startUrl cfg o))
               (crawl lib eng cfg fuel).
Proof.
  intros Hm. unfold crawl, open_spider.
  rewrite (init_list_mode_startUrl lib cfg o Hm).
  destruct (init lib cfg) as [sp0 |]; [| reflexivity]. cbn [option_map].
  rewrite startRequests_with_config.
  destruct (startRequests lib sp0) as [sp reqs].
  rewrite schedule_with_config.
  destruct (schedule eng sp ∅ [] _) as [seen queue].
  apply (loop_with_config lib eng (with_startUrl cfg o) fuel
           {| es_spider := sp; es_queue := queue; es_seen := seen;
              es_items := []; es_fetched := []; es_events := [] |}).
Qed.

(** The mode is read off [urlList] alone. *)
Lemma init_mode lib cfg sp :
  init lib cfg = Some sp ->
  bUrlListMode sp = PyStr.truthy (PyStr.strip (get (cfg_urlList cfg) "")).
Proof.
  unfold init. destruct (PyStr.truthy _).
  - intros H. now inversion H.
  - destruct (cfg_startUrl cfg) as [sStart |]; [| discriminate].
    destruct (urlparse lib sStart); intros H; now inversion H.
Qed.

(** A crawl in URL-list mode, from start to end: what is fetched are
    the seeds before the first one [scrapy.Request] refuses. *)
Lemma crawl_list_mode lib eng cfg fuel st :
  PyStr.truthy (PyStr.strip (get (cfg_urlList cfg) "")) = true ->
  crawl lib eng cfg fuel = Some st ->
  exists requested rest,
    seed_urls cfg = (requested ++ rest)%list
    /\ ((forall u, u ∈ seed_urls cfg -> request_ok lib u = true) -> rest = [])
    /\ es_queue st = []
    /\ es_fetched st ≡ₚ requested
    /\ (length (lItems (es_spider st)) + length (failed_seeds eng requested)
        = length requested)%nat.
Proof.
  intros Hm Hrun. unfold crawl in Hrun.
  destruct (open_list_mode lib eng cfg Hm)
    as (st0 & requested & rest & Ho & Hsplit & Hall & Hm0 & Hq0 & Hf0 & Hi0 & _).
  rewrite Ho in Hrun.
  destruct (loop_list_mode lib eng fuel st0 st Hm0 Hrun) as (Hq & Hf & Hn).
  exists requested, rest.
  split; [exact Hsplit |]. split; [exact Hall |]. split; [exact Hq |].
  rewrite Hq0, Hf0, Hi0 in *. cbn [app length] in *.
  rewrite map_map in Hf. cbn in Hf. rewrite map_id in Hf.
  split; [exact Hf |].
  assert (Hfail : length (filter (fun rd => download eng (req_url rd.1) = None)
                                 (map seed_request requested))
                  = length (failed_seeds eng requested)).
  { unfold failed_seeds. clear.
    induction requested as [| u l IH]; [reflexivity |].
    cbn [map]. rewrite !filter_cons. cbn [seed_request fst req_url].
    case_decide; cbn [length]; now rewrite IH. }
  rewrite length_map, Hfail in Hn. lia.
Qed.


End EngineFacts.




(** C10 -- The mode is read off [urlList] alone.  When [urlList] is not
    blank the spider is in URL-list mode whatever [startUrl] is: no
    start URL and no allowed domain are recorded, the crawl is the one
    of the configuration without a [startUrl] (up to the stored
    dictionary), and only seeds of [urlList] are given to the
    downloader. *)
Theorem C10_list_mode_ignores_startUrl
        (lib : Lib) (eng : Engine) (cfg : Config) (o : option string) (fuel : nat) :
  PyStr.truthy (PyStr.strip (get (cfg_urlList cfg) "")) = true ->
  (forall cfg' sp',
     init lib cfg' = Some sp' ->
     bUrlListMode sp' = PyStr.truthy (PyStr.strip (get (cfg_urlList cfg') "")))
  /\ (exists sp,
        init lib (with_startUrl cfg o) = Some sp
        /\ bUrlListMode sp = true
        /\ sStartUrl sp = None
        /\ allowed_domains sp = None)
  /\ crawl lib eng (with_startUrl cfg o) fuel
     = option_map (fun st => es_with_config st (with_startUrl cfg o))
                  (crawl lib eng (with_startUrl cfg None) fuel)
  /\ (forall st,
        crawl lib eng (with_startUrl cfg o) fuel = Some st ->
        forall u, u ∈ es_fetched st -> u ∈ seed_urls cfg).
Proof.
  intros Hm.
  split; [exact (EngineFacts.init_mode lib) |].
  split.
  { unfold init. cbn [with_startUrl cfg_urlList]. rewrite Hm.
    eexists. repeat split. }
  split.
  { exact (EngineFacts.crawl_list_mode_startUrl lib eng (with_startUrl cfg None)
             o fuel Hm). }
  intros st Hrun u Hu.
  destruct (EngineFacts.crawl_list_mode lib eng (with_startUrl cfg o) fuel st Hm Hrun)
    as (requested & rest & Hsplit & _ & _ & Hf & _).
  rewrite Hf in Hu.
  change (seed_urls cfg) with (seed_urls (with_startUrl cfg o)).
  rewrite Hsplit. apply elem_of_app. now left.
Qed.

Lemma C10_list_mode_ignores_startUrl_witness :
  PyStr.truthy (PyStr.strip (get (cfg_urlList Demo.cfg_list) "")) = true
  /\ (exists sp,
        init Demo.lib (with_startUrl Demo.cfg_list (Some "http://example.com"))
        = Some sp
        /\ bUrlListMode sp = true
        /\ sStartUrl sp = None
        /\ allowed_domains sp = None)
  /\ (forall st,
        crawl Demo.lib (Demo.engine true)
              (with_startUrl Demo.cfg_list (Some "http://example.com")) 3 = Some st ->
        forall u, u ∈ es_fetched st -> u ∈ seed_urls Demo.cfg_list).
Proof.
  assert (H1 : PyStr.truthy (PyStr.strip (get (cfg_urlList Demo.cfg_list) "")) = true)
    by (vm_compute; reflexivity).
  split; [exact H1 |].
  destruct (C10_list_mode_ignores_startUrl Demo.lib (Demo.engine true) Demo.cfg_list
              (Some "http://example.com") 3 H1) as (_ & Hinit & _ & Hfetch).
  split; [exact Hinit | exact Hfetch].
Defined.

(* ===================================================================== *)
(** * Further properties of the program                                   *)
(* ===================================================================== *)

(** ** [parse] in crawl mode *)

Module CrawlFacts.

(** Passing over a link leaves what is said of the rest of the loop
    true of the whole loop. *)
Ltac skip_link IH H :=
  destruct (IH _ _ _ H) as (Hnd & Hdf & Hreq & Hsub & Hall);
  split; [exact Hnd |]; split; [exact Hdf |]; split;
  [ intros u Hu; destruct (Hreq u Hu) as (Hu1 & Hu2 & Hu3);
    split; [apply elem_of_cons; now right | now split]
  | split; [exact Hsub |];
    intros u Hu; destruct (Hall u Hu) as [Hu1 | [Hu1 | [Hu1 Hu2]]];
    [ now left | right; now left
    | right; right; split; [apply elem_of_cons; now right | exact Hu2] ] ].

(** What the loop over the links of a page requests, whether it runs
    to its end or an exception ends it: only links that pass its test
    and that [scrapy.Request] accepts, each once; the visited set
    gains the requested URLs and at most links [scrapy.Request]
    refused. *)
Lemma follow_links_sound lib sParent hrefs : forall seen seen' reqs,
  follow_links lib sParent seen hrefs = (seen', reqs) ->
  NoDup (map req_url reqs)
  /\ (forall r, r ∈ reqs -> dont_filter r = false)
  /\ (forall u, u ∈ map req_url reqs ->
        u ∈ hrefs /\ link_wanted lib sParent seen u /\ request_ok lib u = true)
  /\ list_to_set (map req_url reqs) ∪ seen ⊆ seen'
  /\ (forall u, u ∈ seen' ->
        u ∈ seen \/ u ∈ map req_url reqs
        \/ (u ∈ hrefs /\ request_ok lib u = false)).
Proof.
  induction hrefs as [| h hrefs IH]; intros seen seen' reqs H;
    cbn [follow_links] in H.
  - inversion H; subst. cbn.
    split; [constructor |]. split; [intros r Hr; inversion Hr |].
    split; [intros u Hu; inversion Hu |].
    split; [set_solver | intros u Hu; now left].
  - assert (Hw : forall o,
              (if PyStr.truthy sParent
               then match urlparse lib h with
                    | Some parseResult =>
                        Some (negb (PyStr.startswith (url_path parseResult) sParent))
                    | None => None
                    end
               else Some false) = o ->
              o = Some false -> (h ∉ seen) -> link_wanted lib sParent seen h).
    { intros o Ho -> Hin. split; [| exact Hin]. intros Ht.
      rewrite Ht in Ho. destruct (urlparse lib h) as [p |]; [| discriminate Ho].
      exists p. split; [reflexivity |].
      inversion Ho as [Hn]. now apply negb_false_iff in Hn. }
    specialize (Hw _ eq_refl).
    destruct (if PyStr.truthy sParent
              then match urlparse lib h with
                   | Some parseResult =>
                       Some (negb (PyStr.startswith (url_path parseResult) sParent))
                   | None => None
                   end
              else Some false) as [[|] |].
    + skip_link IH H.
    + specialize (Hw eq_refl).
      case_bool_decide as Hin; [skip_link IH H |].
      specialize (Hw Hin).
      destruct (request_ok lib h) eqn:Eok.
      * destruct (follow_links lib sParent ({[h]} ∪ seen) hrefs)
          as [seen2 reqs2] eqn:E.
        inversion H; subst. clear H.
        destruct (IH _ _ _ E) as (Hnd & Hdf & Hreq & Hsub & Hall).
        cbn [map req_url].
        split.
        { constructor; [| exact Hnd].
          intros Hh. apply Hreq in Hh as (_ & [_ Hh] & _). set_solver. }
        split.
        { intros r Hr.
          apply elem_of_cons in Hr as [-> | Hr]; [reflexivity | auto]. }
        split.
        { intros u Hu. apply elem_of_cons in Hu as [-> | Hu].
          - split; [apply elem_of_cons; now left | now split].
          - destruct (Hreq u Hu) as (Hu1 & [Hu2 Hu3] & Hu4).
            split; [apply elem_of_cons; now right |].
            split; [| exact Hu4]. split; [exact Hu2 | set_solver]. }
        split.
        { cbn [list_to_set]. set_solver. }
        intros u Hu. destruct (Hall u Hu) as [Hu1 | [Hu1 | [Hu1 Hu2]]].
        -- apply elem_of_union in Hu1 as [Hu1 | Hu1]; [| now left].
           apply elem_of_singleton in Hu1 as ->.
           right; left. apply elem_of_cons. now left.
        -- right; left. apply elem_of_cons. now right.
        -- right; right. split; [apply elem_of_cons; now right | exact Hu2].
      * inversion H; subst. clear H. cbn [map].
        split; [constructor |]. split; [intros r Hr; inversion Hr |].
        split; [intros u Hu; inversion Hu |].
        split; [set_solver |].
        intros u Hu. apply elem_of_union in Hu as [Hu | Hu]; [| now left].
        apply elem_of_singleton in Hu as ->.
        right; right. split; [apply elem_of_cons; now left | exact Eok].
    + inversion H; subst. cbn.
      split; [constructor |]. split; [intros r Hr; inversion Hr |].
      split; [intros u Hu; inversion Hu |].
      split; [set_solver | intros u Hu; now left].
Qed.

(** When no link of the page makes the loop raise, it requests every
    link that passes its test, and the visited set grows by the
    requested URLs and nothing else. *)
Lemma follow_links_exact lib sParent hrefs : forall seen seen' reqs,
  (forall u, u ∈ hrefs -> link_ok lib sParent u) ->
  follow_links lib sParent seen hrefs = (seen', reqs) ->
  seen' = list_to_set (map req_url reqs) ∪ seen
  /\ (forall u, u ∈ hrefs -> link_wanted lib sParent seen u ->
                u ∈ map req_url reqs).
Proof.
  induction hrefs as [| h hrefs IH]; intros seen seen' reqs Hok H;
    cbn [follow_links] in H.
  - inversion H; subst. cbn. split; [set_solver |].
    intros u Hu; inversion Hu.
  - assert (Hok' : forall u, u ∈ hrefs -> link_ok lib sParent u)
      by (intros u Hu; apply Hok, elem_of_cons; now right).
    destruct (Hok h) as [Hreq Hparse]; [apply elem_of_cons; now left |].
    rewrite Hreq in H.
    assert (Hskip : forall seen' reqs,
              ~ link_wanted lib sParent seen h ->
              follow_links lib sParent seen hrefs = (seen', reqs) ->
              seen' = list_to_set (map req_url reqs) ∪ seen
              /\ (forall u, u ∈ h :: hrefs -> link_wanted lib sParent seen u ->
                            u ∈ map req_url reqs)).
    { intros s' r' Hnw H'. destruct (IH _ _ _ Hok' H') as [Hs Hm].
      split; [exact Hs |]. intros u Hu Hwu.
      apply elem_of_cons in Hu as [-> | Hu]; [contradiction | auto]. }
    destruct (PyStr.truthy sParent) eqn:Et.
    + destruct (urlparse lib h) as [p |] eqn:Eu;
        [| now destruct (Hparse eq_refl)].
      destruct (PyStr.startswith (url_path p) sParent) eqn:Es; cbn [negb] in H.
      * case_bool_decide as Hin.
        { apply Hskip; [| exact H]. intros [_ Hn]. contradiction. }
        destruct (follow_links lib sParent ({[h]} ∪ seen) hrefs)
          as [seen2 reqs2] eqn:E.
        inversion H; subst. clear H.
        destruct (IH _ _ _ Hok' E) as [Hs Hm]. cbn [map req_url].
        split; [rewrite Hs; cbn [list_to_set]; set_solver |].
        intros u Hu [Hp Hn].
        destruct (decide (u = h)) as [-> | Hne];
          [apply elem_of_cons; now left | apply elem_of_cons; right].
        apply elem_of_cons in Hu as [-> | Hu]; [contradiction |].
        apply Hm; [exact Hu |]. split; [exact Hp | set_solver].
      * apply Hskip; [| exact H]. intros [Hp _].
        destruct (Hp Et) as (p' & Hp1 & Hp2).
        rewrite Hp1 in Eu. inversion Eu; subst p'.
        rewrite Hp2 in Es. discriminate Es.
    + case_bool_decide as Hin.
      { apply Hskip; [| exact H]. intros [_ Hn]. contradiction. }
      destruct (follow_links lib sParent ({[h]} ∪ seen) hrefs)
        as [seen2 reqs2] eqn:E.
      inversion H; subst. clear H.
      destruct (IH _ _ _ Hok' E) as [Hs Hm]. cbn [map req_url].
      split; [rewrite Hs; cbn [list_to_set]; set_solver |].
      intros u Hu [Hp Hn].
      destruct (decide (u = h)) as [-> | Hne];
        [apply elem_of_cons; now left | apply elem_of_cons; right].
      apply elem_of_cons in Hu as [-> | Hu]; [contradiction |].
      apply Hm; [exact Hu |]. split; [| set_solver].
      intros Ht. rewrite Ht in Et. discriminate Et.
Qed.

(** What one call of [parse] requests, in any mode. *)
Lemma parse_requests lib self response :
  let '(sp, _, reqs, _) := parse lib self response in
  NoDup (map req_url reqs)
  /\ (forall r, r ∈ reqs -> dont_filter r = false)
  /\ (forall u, u ∈ map req_url reqs ->
        u ∈ xpath_anchors response
        /\ link_wanted lib (sParentDir self) (lUrlSet self) u
        /\ request_ok lib u = true)
  /\ list_to_set (map req_url reqs) ∪ lUrlSet self ⊆ lUrlSet sp
  /\ (forall u, u ∈ lUrlSet sp ->
        u ∈ lUrlSet self \/ u ∈ map req_url reqs
        \/ (u ∈ xpath_anchors response /\ request_ok lib u = false)).
Proof.
  unfold parse.
  destruct (negb (bUrlListMode self));
    [destruct (Z.of_nat (size (lUrlSet self)) <? iMaxUrls self) |];
    try (cbn; split; [constructor |]; split; [intros r Hr; inversion Hr |];
         split; [intros u Hu; inversion Hu |];
         split; [set_solver | intros u Hu; now left]).
  destruct (follow_links lib (sParentDir self) (lUrlSet self) _)
    as [seen reqs] eqn:E.
  destruct (follow_links_sound _ _ _ _ _ _ E) as (Hnd & Hdf & Hreq & Hsub & Hall).
  cbn. split; [exact Hnd |]. split; [exact Hdf |]. split.
  { intros u Hu. destruct (Hreq u Hu) as (Hu1 & Hu2 & Hu3).
    rewrite elem_of_elements, elem_of_list_to_set in Hu1.
    split; [exact Hu1 | split; [exact Hu2 | exact Hu3]]. }
  split; [exact Hsub |].
  intros u Hu. destruct (Hall u Hu) as [Hu1 | [Hu1 | [Hu1 Hu2]]];
    [now left | right; now left | right; right].
  rewrite elem_of_elements, elem_of_list_to_set in Hu1. now split.
Qed.

(** When no link of the page makes [parse] raise: what it requests
    and what it adds to the visited set, exactly. *)
Lemma parse_exact lib self response :
  (forall u, u ∈ xpath_anchors response -> link_ok lib (sParentDir self) u) ->
  let '(sp, _, reqs, _) := parse lib self response in
  lUrlSet sp = list_to_set (map req_url reqs) ∪ lUrlSet self
  /\ (bUrlListMode self = false ->
      Z.of_nat (size (lUrlSet self)) < iMaxUrls self ->
      forall u, u ∈ xpath_anchors response ->
                link_wanted lib (sParentDir self) (lUrlSet self) u ->
                u ∈ map req_url reqs).
Proof.
  intros Hok. unfold parse.
  destruct (bUrlListMode self); cbn [negb];
    [cbn; split; [set_solver | intros Hm; discriminate Hm] |].
  destruct (Z.ltb_spec (Z.of_nat (size (lUrlSet self))) (iMaxUrls self));
    [| cbn; split; [set_solver | intros _ Hlt; lia]].
  destruct (follow_links lib (sParentDir self) (lUrlSet self) _)
    as [seen reqs] eqn:E.
  apply follow_links_exact in E as [Hs Hm].
  - cbn. split; [exact Hs |]. intros _ _ u Hu Hw. apply Hm; [| exact Hw].
    now rewrite elem_of_elements, elem_of_list_to_set.
  - intros u Hu. apply Hok.
    now rewrite elem_of_elements, elem_of_list_to_set in Hu.
Qed.

Lemma printed_lines_app evs1 evs2 :
  printed_lines (evs1 ++ evs2) = (printed_lines evs1 ++ printed_lines evs2)%list.
Proof.
  induction evs1 as [| e evs1 IH]; [reflexivity |].
  destruct e; cbn; now rewrite IH.
Qed.

(** What one call of [parse] prints and records. *)
Lemma parse_effects lib self response :
  let '(sp, dItem, _, evs) := parse lib self response in
  lItems sp = (lItems self ++ [dItem])%list
  /\ url dItem = resp_url response
  /\ title dItem = or_empty (xpath_title response)
  /\ bUrlListMode sp = bUrlListMode self
  /\ bPrintedCrawlingMessage sp
     = bPrintedCrawlingMessage self || negb (bUrlListMode self)
  /\ printed_lines evs
     = ((if negb (bUrlListMode self) && negb (bPrintedCrawlingMessage self)
         then ["Crawling " +:+ resp_url response] else [])
        ++ [or_empty (xpath_title response)])%list.
Proof.
  unfold parse.
  destruct (bUrlListMode self), (bPrintedCrawlingMessage self); cbn [negb andb orb];
    try destruct (Z.of_nat (size (lUrlSet self)) <? iMaxUrls self);
    try destruct (follow_links lib (sParentDir self) (lUrlSet self) _);
    cbn; repeat split.
Qed.


(** What [parse] leaves alone. *)
Lemma parse_keeps lib self response :
  let '(sp, _, _, _) := parse lib self response in
  iMaxUrls sp = iMaxUrls self /\ sParentDir sp = sParentDir self
  /\ bUrlListMode sp = bUrlListMode self.
Proof.
  unfold parse.
  destruct (negb (bUrlListMode self));
    [destruct (Z.of_nat (size (lUrlSet self)) <? iMaxUrls self);
     [destruct (follow_links lib (sParentDir self) (lUrlSet self) _) |] |];
    cbn; repeat split.
Qed.

(** No URL is requested twice over a series of pages, none that was
    in the visited set, and none [scrapy.Request] refuses; the visited
    set gains the requested URLs and at most refused links. *)
Lemma parse_many_requests lib responses : forall self,
  let '(sp, reqs, _) := parse_many lib self responses in
  NoDup (map req_url reqs)
  /\ (forall u, u ∈ map req_url reqs ->
        (u ∉ lUrlSet self) /\ request_ok lib u = true)
  /\ list_to_set (map req_url reqs) ∪ lUrlSet self ⊆ lUrlSet sp
  /\ (forall u, u ∈ lUrlSet sp ->
        u ∈ lUrlSet self \/ u ∈ map req_url reqs \/ request_ok lib u = false).
Proof.
  induction responses as [| r rs IH]; intros self; cbn [parse_many].
  - cbn. split; [constructor |]. split; [intros u Hu; inversion Hu |].
    split; [set_solver | intros u Hu; now left].
  - pose proof (parse_requests lib self r) as H1.
    destruct (parse lib self r) as [[[sp1 it] reqs1] evs1].
    destruct H1 as (Hnd1 & _ & Hreq1 & Hsub1 & Hall1).
    specialize (IH sp1).
    destruct (parse_many lib sp1 rs) as [[sp2 reqs2] evs2].
    destruct IH as (Hnd2 & Hreq2 & Hsub2 & Hall2).
    rewrite map_app. split.
    { apply NoDup_app. split; [exact Hnd1 |]. split; [| exact Hnd2].
      intros u Hu1 Hu2. apply Hreq2 in Hu2 as [Hu2 _]. apply Hu2, Hsub1.
      apply elem_of_union; left. now apply elem_of_list_to_set. }
    split.
    { intros u Hu. apply elem_of_app in Hu as [Hu | Hu].
      - destruct (Hreq1 u Hu) as (_ & [_ Hn] & Ho). now split.
      - destruct (Hreq2 u Hu) as [Hn Ho]. split; [| exact Ho].
        intros Hin. apply Hn, Hsub1. apply elem_of_union; now right. }
    split.
    { rewrite list_to_set_app_L. set_solver. }
    intros u Hu. destruct (Hall2 u Hu) as [Hu1 | [Hu1 | Hu1]].
    + destruct (Hall1 u Hu1) as [Hu2 | [Hu2 | [_ Hu2]]];
        [now left | right; left; apply elem_of_app; now left | right; now right].
    + right; left. apply elem_of_app. now right.
    + right; now right.
Qed.



(** One call of [parse] adds at most the links of the page to the
    visited set, and nothing at the cap. *)
Lemma parse_growth lib self response :
  let '(sp, dItem, _, _) := parse lib self response in
  (size (lUrlSet sp) <= size (lUrlSet self) + linkCount dItem)%nat
  /\ (iMaxUrls self <= Z.of_nat (size (lUrlSet self)) ->
      lUrlSet sp = lUrlSet self).
Proof.
  pose proof (parse_requests lib self response) as H.
  assert (Hl : linkCount (parse lib self response).1.1.2
               = size (list_to_set (xpath_anchors response) : gset string)).
  { unfold parse.
    destruct (negb (bUrlListMode self));
      [destruct (Z.of_nat (size (lUrlSet self)) <? iMaxUrls self);
       [destruct (follow_links lib (sParentDir self) (lUrlSet self) _) |] |];
      reflexivity. }
  assert (Hc : iMaxUrls self <= Z.of_nat (size (lUrlSet self)) ->
               lUrlSet (parse lib self response).1.1.1 = lUrlSet self).
  { intros Hcap. unfold parse.
    destruct (negb (bUrlListMode self)); [| reflexivity].
    destruct (Z.ltb_spec (Z.of_nat (size (lUrlSet self))) (iMaxUrls self));
      [lia | reflexivity]. }
  destruct (parse lib self response) as [[[sp it] reqs] evs].
  cbn [fst snd] in Hl, Hc. destruct H as (_ & _ & Hreq & _ & Hall).
  split; [| exact Hc]. rewrite Hl.
  assert (Hsub : lUrlSet sp
                 ⊆ lUrlSet self ∪ list_to_set (xpath_anchors response)).
  { intros u Hu. destruct (Hall u Hu) as [Hu1 | [Hu1 | [Hu1 _]]].
    - apply elem_of_union. now left.
    - apply elem_of_union. right. apply elem_of_list_to_set.
      now apply Hreq in Hu1 as [Hu1 _].
    - apply elem_of_union. right. now apply elem_of_list_to_set. }
  apply subseteq_size in Hsub. rewrite size_union_alt in Hsub.
  assert (Hd : (size ((list_to_set (xpath_anchors response) : gset string)
                      ∖ lUrlSet self)
                <= size (list_to_set (xpath_anchors response) : gset string))%nat)
    by (apply subseteq_size; set_solver).
  lia.
Qed.

(** What the loop over the seeds requests, whether it runs to its end
    or an exception ends it. *)
Lemma start_list_spec lib urls : forall seen seen' reqs,
  start_list lib seen urls = (seen', reqs) ->
  NoDup (map req_url reqs)
  /\ (forall r, r ∈ reqs -> dont_filter r = true)
  /\ (forall u, u ∈ map req_url reqs ->
        u ∈ urls /\ (u ∉ seen) /\ request_ok lib u = true)
  /\ list_to_set (map req_url reqs) ∪ seen ⊆ seen'
  /\ (forall u, u ∈ seen' ->
        u ∈ seen \/ u ∈ map req_url reqs
        \/ (u ∈ urls /\ request_ok lib u = false)).
Proof.
  induction urls as [| h urls IH]; intros seen seen' reqs H;
    cbn [start_list] in H.
  - inversion H; subst. cbn.
    split; [constructor |]. split; [intros r Hr; inversion Hr |].
    split; [intros u Hu; inversion Hu |].
    split; [set_solver | intros u Hu; now left].
  - case_bool_decide as Hin.
    { destruct (IH _ _ _ H) as (Hnd & Hdf & Hreq & Hsub & Hall).
      split; [exact Hnd |]. split; [exact Hdf |]. split.
      - intros u Hu. destruct (Hreq u Hu) as (Hu1 & Hu2 & Hu3).
        split; [apply elem_of_cons; now right | now split].
      - split; [exact Hsub |].
        intros u Hu. destruct (Hall u Hu) as [Hu1 | [Hu1 | [Hu1 Hu2]]];
          [now left | right; now left | right; right].
        split; [apply elem_of_cons; now right | exact Hu2]. }
    destruct (request_ok lib h) eqn:Eok.
    + destruct (start_list lib ({[h]} ∪ seen) urls) as [seen2 reqs2] eqn:E.
      inversion H; subst. clear H.
      destruct (IH _ _ _ E) as (Hnd & Hdf & Hreq & Hsub & Hall).
      cbn [map req_url].
      split.
      { constructor; [| exact Hnd].
        intros Hh. apply Hreq in Hh as (_ & Hh & _). set_solver. }
      split.
      { intros r Hr.
        apply elem_of_cons in Hr as [-> | Hr]; [reflexivity | auto]. }
      split.
      { intros u Hu. apply elem_of_cons in Hu as [-> | Hu].
        - split; [apply elem_of_cons; now left | now split].
        - destruct (Hreq u Hu) as (Hu1 & Hu2 & Hu3).
          split; [apply elem_of_cons; now right |].
          split; [set_solver | exact Hu3]. }
      split.
      { cbn [list_to_set]. set_solver. }
      intros u Hu. destruct (Hall u Hu) as [Hu1 | [Hu1 | [Hu1 Hu2]]].
      * apply elem_of_union in Hu1 as [Hu1 | Hu1]; [| now left].
        apply elem_of_singleton in Hu1 as ->.
        right; left. apply elem_of_cons. now left.
      * right; left. apply elem_of_cons. now right.
      * right; right. split; [apply elem_of_cons; now right | exact Hu2].
    + inversion H; subst. clear H. cbn [map].
      split; [constructor |]. split; [intros r Hr; inversion Hr |].
      split; [intros u Hu; inversion Hu |].
      split; [set_solver |].
      intros u Hu. apply elem_of_union in Hu as [Hu | Hu]; [| now left].
      apply elem_of_singleton in Hu as ->.
      right; right. split; [apply elem_of_cons; now left | exact Eok].
Qed.

(** What [startRequests] requests, in either mode. *)
Lemma startRequests_spec lib self :
  lUrlSet self = ∅ ->
  let '(sp, reqs) := startRequests lib self in
  NoDup (map req_url reqs)
  /\ (forall u, u ∈ map req_url reqs ->
        u ∈ lUrlSet sp /\ request_ok lib u = true)
  /\ (forall u, u ∈ lUrlSet sp ->
        u ∈ map req_url reqs \/ request_ok lib u = false).
Proof.
  intros He. unfold startRequests. rewrite He.
  destruct (bUrlListMode self).
  - destruct (start_list lib ∅ (get (lUrlList self) [])) as [seen reqs] eqn:E.
    destruct (start_list_spec _ _ _ _ _ E) as (Hnd & _ & Hreq & Hsub & Hall).
    cbn. split; [exact Hnd |]. split.
    + intros u Hu. split; [| now apply Hreq in Hu as (_ & _ & Hu)].
      apply Hsub, elem_of_union. left. now apply elem_of_list_to_set.
    + intros u Hu. destruct (Hall u Hu) as [Hu1 | [Hu1 | [_ Hu1]]];
        [set_solver | now left | now right].
  - destruct (sStartUrl self) as [sStart |]; cbn.
    + destruct (request_ok lib sStart) eqn:Eok; cbn.
      * split; [apply NoDup_singleton |]. split.
        -- intros u Hu. apply list_elem_of_singleton in Hu as ->.
           split; [set_solver | exact Eok].
        -- intros u Hu. left. set_solver.
      * split; [constructor |]. split; [intros u Hu; inversion Hu |].
        intros u Hu. right.
        assert (u = sStart) as -> by set_solver. exact Eok.
    + rewrite He. split; [constructor |].
      split; [intros u Hu; inversion Hu | set_solver].
Qed.

Lemma init_fresh lib cfg self : init lib cfg = Some self -> lUrlSet self = ∅.
Proof.
  unfold init. destruct (PyStr.truthy _).
  - intros H. now inversion H.
  - destruct (cfg_startUrl cfg) as [sStart |]; [| discriminate].
    destruct (urlparse lib sStart); intros H; now inversion H.
Qed.

(** A [mailto:] link is marked visited, but no request is made for
    it. *)
Example parse_refused_link :
  let '(sp, _, reqs, _) :=
    parse Demo.lib Sample.spider_queries Sample.page_mail in
  reqs = [] /\ lUrlSet sp = {[ "mailto:webmaster@example.com" ]}.
Proof. vm_compute. split; reflexivity. Qed.

(** A start URL without a scheme is marked visited, but no request is
    made for it: the crawl fetches nothing. *)
Example start_url_without_scheme :
  exists self,
    init Demo.lib Sample.cfg_bare_host = Some self
    /\ allowed_domains self = Some [""]
    /\ startRequests Demo.lib self = (with_lUrlSet self {[ "example.com" ]}, []).
Proof. eexists. split; [reflexivity |]. split; vm_compute; reflexivity. Qed.

(** The title the report is named after. *)
Lemma parse_many_start_title lib responses : forall self,
  sStartTitle (parse_many lib self responses).1.1
  = first_nonempty (sStartTitle self
                    :: map (fun r => or_empty (xpath_title r)) responses).
Proof.
  induction responses as [| r rs IH]; intros self; cbn [parse_many].
  - cbn. now destruct (sStartTitle self).
  - pose proof (ParseFacts.parse_start_title lib self r) as H1.
    destruct (parse lib self r) as [[[sp1 it] reqs1] evs1].
    cbn [fst] in H1. specialize (IH sp1).
    destruct (parse_many lib sp1 rs) as [[sp2 reqs2] evs2].
    cbn [fst] in *. rewrite IH, H1. cbn [map first_nonempty].
    destruct (PyStr.truthy (sStartTitle self)) eqn:E; [now rewrite E |].
    reflexivity.
Qed.



End CrawlFacts.

(** X1 -- Below the cap, [parse] in crawl mode requests only links of
    the page that are not yet in the visited set, whose path starts with
    the parent directory when one is configured, and that
    [scrapy.Request] accepts: each once, never with [dont_filter].  When
    no link of the page makes the loop raise ([scrapy.Request] accepts
    each and, with a parent directory, [urlparse] reads each), it
    requests exactly the links that pass the test, and the visited set
    grows by exactly the requested URLs. *)
Theorem X1_parse_requests_new_links (lib : Lib) (self : Spider) (response : Response) :
  bUrlListMode self = false ->
  Z.of_nat (size (lUrlSet self)) < iMaxUrls self ->
  let '(sp, _, reqs, _) := parse lib self response in
  NoDup (map req_url reqs)
  /\ (forall r, r ∈ reqs -> dont_filter r = false)
  /\ (forall u, u ∈ map req_url reqs ->
        u ∈ xpath_anchors response
        /\ link_wanted lib (sParentDir self) (lUrlSet self) u
        /\ request_ok lib u = true)
  /\ ((forall u, u ∈ xpath_anchors response -> link_ok lib (sParentDir self) u) ->
      (forall u, u ∈ map req_url reqs
                 <-> u ∈ xpath_anchors response
                     /\ link_wanted lib (sParentDir self) (lUrlSet self) u)
      /\ lUrlSet sp = list_to_set (map req_url reqs) ∪ lUrlSet self).
Proof.
  intros Hm Hcap.
  pose proof (CrawlFacts.parse_requests lib self response) as H1.
  pose proof (CrawlFacts.parse_exact lib self response) as H2.
  destruct (parse lib self response) as [[[sp it] reqs] evs].
  destruct H1 as (Hnd & Hdf & Hreq & _).
  split; [exact Hnd |]. split; [exact Hdf |]. split; [exact Hreq |].
  intros Hok. destruct (H2 Hok) as [Hs Hall]. split; [| exact Hs].
  intros u; split.
  - intros Hu. destruct (Hreq u Hu) as (Hu1 & Hu2 & _). now split.
  - intros [Hu Hw]. now apply Hall.
Qed.

Lemma X1_parse_requests_new_links_witness :
  let '(sp, _, reqs, _) := parse Demo.lib Sample.spider_docs Sample.page_a in
  NoDup (map req_url reqs)
  /\ (forall r, r ∈ reqs -> dont_filter r = false)
  /\ (forall u, u ∈ map req_url reqs
                <-> u ∈ xpath_anchors Sample.page_a
                    /\ link_wanted Demo.lib (sParentDir Sample.spider_docs)
                                   (lUrlSet Sample.spider_docs) u)
  /\ lUrlSet sp = list_to_set (map req_url reqs) ∪ lUrlSet Sample.spider_docs.
Proof.
  assert (H1 : bUrlListMode Sample.spider_docs = false) by reflexivity.
  assert (H2 : Z.of_nat (size (lUrlSet Sample.spider_docs))
               < iMaxUrls Sample.spider_docs) by (vm_compute; reflexivity).
  assert (Hok : forall u, u ∈ xpath_anchors Sample.page_a ->
                          link_ok Demo.lib (sParentDir Sample.spider_docs) u).
  { intros u Hu.
    change (xpath_anchors Sample.page_a)
      with ["http://example.com/docs/b"; "http://example.com/docs/b";
            "http://example.com/other/c"; "http://example.com/docs/a"] in Hu.
    repeat (apply elem_of_cons in Hu as [-> | Hu];
            [split; [vm_compute; reflexivity | intros _; vm_compute; discriminate] |]).
    inversion Hu. }
  pose proof (X1_parse_requests_new_links Demo.lib Sample.spider_docs
                Sample.page_a H1 H2) as H.
  destruct (parse Demo.lib Sample.spider_docs Sample.page_a)
    as [[[sp it] reqs] evs].
  destruct H as (Hnd & Hdf & _ & Hex). destruct (Hex Hok) as [Hiff Hs].
  split; [exact Hnd |]. split; [exact Hdf |]. split; [exact Hiff | exact Hs].
Defined.




(** X4 -- The visited set outgrows [maxUrls] by less than one page's
    worth of links: when no page has more than [M] distinct links, after
    any series of pages it holds at most [maxUrls - 1 + M] URLs (or what
    it held before, if that was more). *)
Theorem X4_visited_set_bound (lib : Lib) (self : Spider)
        (responses : list Response) (M : nat) :
  Forall (fun r => (size (list_to_set (xpath_anchors r) : gset string) <= M)%nat)
         responses ->
  let '(sp, _, _) := parse_many lib self responses in
  Z.of_nat (size (lUrlSet sp))
  <= Z.max (Z.of_nat (size (lUrlSet self))) (iMaxUrls self - 1 + Z.of_nat M).
Proof.
  revert self. induction responses as [| r rs IH]; intros self HM;
    cbn [parse_many].
  - lia.
  - apply Forall_cons in HM as [Hr HM].
    pose proof (CrawlFacts.parse_growth lib self r) as H1.
    pose proof (CrawlFacts.parse_keeps lib self r) as H2.
    assert (Hl : linkCount (parse lib self r).1.1.2
                 = size (list_to_set (xpath_anchors r) : gset string)).
    { unfold parse.
      destruct (negb (bUrlListMode self));
        [destruct (Z.of_nat (size (lUrlSet self)) <? iMaxUrls self);
         [destruct (follow_links lib (sParentDir self) (lUrlSet self) _) |] |];
        reflexivity. }
    destruct (parse lib self r) as [[[sp1 it] reqs1] evs1].
    cbn [fst snd] in Hl.
    destruct H1 as (Hg & Hcap). destruct H2 as (Hc1 & _ & _).
    specialize (IH sp1 HM). rewrite Hc1 in IH.
    destruct (parse_many lib sp1 rs) as [[sp2 reqs2] evs2].
    destruct (Z.le_gt_cases (iMaxUrls self) (Z.of_nat (size (lUrlSet self))))
      as [Hge | Hlt].
    + rewrite (Hcap Hge) in IH. exact IH.
    + lia.
Qed.

Lemma X4_visited_set_bound_witness :
  let '(sp, _, _) :=
    parse_many Demo.lib Sample.spider_docs [Sample.page_a; Sample.page_b] in
  Z.of_nat (size (lUrlSet sp))
  <= Z.max (Z.of_nat (size (lUrlSet Sample.spider_docs)))
           (iMaxUrls Sample.spider_docs - 1 + Z.of_nat 3).
Proof.
  apply (X4_visited_set_bound Demo.lib Sample.spider_docs
           [Sample.page_a; Sample.page_b] 3).
  repeat constructor; vm_compute; lia.
Defined.


(** X6 -- What a crawl prints: the title of every page processed, one
    line each and in order; in crawl mode, when the announcement has not
    been printed yet, the line ["Crawling <url>"] with the URL of the
    first page processed comes once, before everything else. *)
Theorem X6_console_output (lib : Lib) (self : Spider)
        (responses : list Response) :
  let '(_, _, evs) := parse_many lib self responses in
  printed_lines evs
  = ((if negb (bUrlListMode self) && negb (bPrintedCrawlingMessage self)
      then match responses with
           | r :: _ => ["Crawling " +:+ resp_url r]
           | [] => []
           end
      else [])
     ++ map (fun r => or_empty (xpath_title r)) responses)%list.
Proof.
  revert self. induction responses as [| r rs IH]; intros self;
    cbn [parse_many].
  - cbn. now destruct (negb (bUrlListMode self) && negb (bPrintedCrawlingMessage self)).
  - pose proof (CrawlFacts.parse_effects lib self r) as H1.
    destruct (parse lib self r) as [[[sp1 it] reqs1] evs1].
    destruct H1 as (_ & _ & _ & Hm & Hp & Hpr).
    specialize (IH sp1).
    destruct (parse_many lib sp1 rs) as [[sp2 reqs2] evs2].
    rewrite CrawlFacts.printed_lines_app, Hpr, IH, Hm, Hp.
    destruct (bUrlListMode self), (bPrintedCrawlingMessage self);
      cbn [negb andb orb app map]; reflexivity.
Qed.

(** X7 -- From [__init__] through [startRequests] and any series of
    pages handed to [parse], in either mode, no URL is requested twice;
    every URL requested is in the visited set and is one
    [scrapy.Request] accepts; every URL in the visited set was requested
    or is one [scrapy.Request] refuses.  So when [scrapy.Request]
    accepts all that is visited, the visited set is exactly the set of
    the URLs requested. *)
Theorem X7_visited_is_requested (lib : Lib) (cfg : Config) (self : Spider)
        (responses : list Response) :
  init lib cfg = Some self ->
  let '(sp0, reqs0) := startRequests lib self in
  let '(sp, reqs, _) := parse_many lib sp0 responses in
  NoDup (map req_url (reqs0 ++ reqs))
  /\ (forall u, u ∈ map req_url (reqs0 ++ reqs) ->
        u ∈ lUrlSet sp /\ request_ok lib u = true)
  /\ (forall u, u ∈ lUrlSet sp ->
        u ∈ map req_url (reqs0 ++ reqs) \/ request_ok lib u = false)
  /\ ((forall u, u ∈ lUrlSet sp -> request_ok lib u = true) ->
      lUrlSet sp = list_to_set (map req_url (reqs0 ++ reqs))).
Proof.
  intros Hi. apply CrawlFacts.init_fresh in Hi.
  pose proof (CrawlFacts.startRequests_spec lib self Hi) as H0.
  destruct (startRequests lib self) as [sp0 reqs0].
  destruct H0 as (Hnd0 & Hreq0 & Hall0).
  pose proof (CrawlFacts.parse_many_requests lib responses sp0) as H1.
  destruct (parse_many lib sp0 responses) as [[sp reqs] evs].
  destruct H1 as (Hnd & Hreq & Hsub & Hall).
  assert (Hin : forall u, u ∈ map req_url (reqs0 ++ reqs) ->
                          u ∈ lUrlSet sp /\ request_ok lib u = true).
  { intros u Hu. rewrite map_app in Hu. apply elem_of_app in Hu as [Hu | Hu].
    - destruct (Hreq0 u Hu) as [Hu1 Hu2]. split; [| exact Hu2].
      apply Hsub, elem_of_union. now right.
    - destruct (Hreq u Hu) as [_ Hu2]. split; [| exact Hu2].
      apply Hsub, elem_of_union. left. now apply elem_of_list_to_set. }
  assert (Hout : forall u, u ∈ lUrlSet sp ->
                           u ∈ map req_url (reqs0 ++ reqs)
                           \/ request_ok lib u = false).
  { intros u Hu. rewrite map_app.
    destruct (Hall u Hu) as [Hu1 | [Hu1 | Hu1]]; [| | now right].
    - destruct (Hall0 u Hu1) as [Hu2 | Hu2]; [| now right].
      left. apply elem_of_app. now left.
    - left. apply elem_of_app. now right. }
  split.
  { rewrite map_app. apply NoDup_app. split; [exact Hnd0 |]. split; [| exact Hnd].
    intros u Hu0 Hu. apply Hreq in Hu as [Hu _]. apply Hu.
    now apply Hreq0 in Hu0 as [Hu0 _]. }
  split; [exact Hin |]. split; [exact Hout |].
  intros Hok. apply set_eq. intros u. rewrite elem_of_list_to_set. split.
  - intros Hu. destruct (Hout u Hu) as [Hu1 | Hu1]; [exact Hu1 |].
    rewrite (Hok u Hu) in Hu1. discriminate Hu1.
  - intros Hu. now apply Hin in Hu as [Hu _].
Qed.

Lemma X7_visited_is_requested_witness :
  let '(sp0, reqs0) := startRequests Demo.lib Sample.spider_init in
  let '(sp, reqs, _) :=
    parse_many Demo.lib sp0 [Sample.page_a; Sample.page_b] in
  NoDup (map req_url (reqs0 ++ reqs))
  /\ (forall u, u ∈ map req_url (reqs0 ++ reqs) ->
        u ∈ lUrlSet sp /\ request_ok Demo.lib u = true)
  /\ (forall u, u ∈ lUrlSet sp ->
        u ∈ map req_url (reqs0 ++ reqs) \/ request_ok Demo.lib u = false)
  /\ ((forall u, u ∈ lUrlSet sp -> request_ok Demo.lib u = true) ->
      lUrlSet sp = list_to_set (map req_url (reqs0 ++ reqs))).
Proof.
  apply (X7_visited_is_requested Demo.lib Sample.cfg_docs Sample.spider_init
           [Sample.page_a; Sample.page_b]).
  reflexivity.
Defined.



(** ** [closed] *)

Module ReportFacts.

(** The loop of [closed] stops at the first candidate that does not
    exist. *)
Lemma free_name_first files root : forall rounds i f,
  free_name files root (report_name root i) (S i) rounds = Some f ->
  exists n, (i <= n)%nat /\ f = report_name root n /\ (f ∉ files)
            /\ forall m, (i <= m < n)%nat -> report_name root m ∈ files.
Proof.
  induction rounds as [| rounds IH]; intros i f H; cbn [free_name] in H;
    case_bool_decide as Hin; try discriminate H.
  - inversion H; subst. exists i. repeat split; [lia | exact Hin | lia].
  - change (suffixed_name root (S i)) with (report_name root (S i)) in H.
    destruct (IH _ _ H) as (n & Hn & -> & Hf & Hm).
    exists n. split; [lia |]. split; [reflexivity |]. split; [exact Hf |].
    intros m Hmn. destruct (decide (m = i)) as [-> | Hne]; [exact Hin |].
    apply Hm. lia.
  - inversion H; subst. exists i. repeat split; [lia | exact Hin | lia].
Qed.

Lemma chars_app a b :
  list_ascii_of_string (a +:+ b)
  = (list_ascii_of_string a ++ list_ascii_of_string b)%list.
Proof.
  induction a as [| c a IH]; [reflexivity |].
  change (list_ascii_of_string (String c a +:+ b))
    with (c :: list_ascii_of_string (a +:+ b)).
  now rewrite IH.
Qed.

Lemma uint_digits d :
  forallb PyStr.is_digit (list_ascii_of_string (NilEmpty.string_of_uint d)) = true.
Proof. induction d; cbn; auto. Qed.

Lemma decimal_digits n :
  forallb PyStr.is_digit (list_ascii_of_string (decimal n)) = true.
Proof.
  unfold decimal, NilZero.string_of_uint.
  destruct (Nat.to_uint n) eqn:E; try (rewrite <- E; apply uint_digits);
    try apply uint_digits. reflexivity.
Qed.

Lemma digit_safe c : PyStr.is_digit c = true -> safe c = true.
Proof.
  intros H. apply PyStrFacts.is_digit_cases in H. simpl in H.
  repeat (destruct H as [<- | H]; [reflexivity |]). destruct H.
Qed.

Lemma sanitize_all_safe s :
  forallb safe (list_ascii_of_string (sanitize s)) = true.
Proof.
  induction s as [| c s IH]; [reflexivity |].
  cbn [sanitize]. destruct (existsb (Ascii.eqb c) unsafe_chars) eqn:E;
    [exact IH |].
  cbn [list_ascii_of_string forallb]. unfold safe at 1. now rewrite E, IH.
Qed.

Lemma forallb_impl {A} (p q : A -> bool) l :
  (forall x, p x = true -> q x = true) ->
  forallb p l = true -> forallb q l = true.
Proof.
  intros Hpq. induction l as [| x l IH]; [reflexivity |].
  cbn [forallb]. intros H. apply andb_true_iff in H as [Hx Hl].
  now rewrite (Hpq _ Hx), IH.
Qed.

Lemma report_name_safe s n :
  forallb safe (list_ascii_of_string (report_name (sanitize s) n)) = true.
Proof.
  destruct n as [| n]; unfold report_name, suffixed_name, fmt_02d.
  - rewrite chars_app, forallb_app, sanitize_all_safe. reflexivity.
  - destruct (S n <? 10)%nat;
      rewrite ?chars_app, ?forallb_app, sanitize_all_safe,
        (forallb_impl _ _ _ digit_safe (decimal_digits (S n)));
      reflexivity.
Qed.

(** A text made of unsafe characters only is sanitised away. *)
Lemma sanitize_all_unsafe s :
  forallb (fun c => existsb (Ascii.eqb c) unsafe_chars)
          (list_ascii_of_string s) = true ->
  sanitize s = "".
Proof.
  induction s as [| c s IH]; [reflexivity |].
  cbn [list_ascii_of_string forallb sanitize]. intros H.
  apply andb_true_iff in H as [Hc Hs]. now rewrite Hc, IH.
Qed.

End ReportFacts.

(** X9 -- The report goes to the first name that does not exist yet in
    the series [<root>.csv], [<root>-01.csv], [<root>-02.csv], ...: the
    name loop of [closed] always ends, the name it ends on is free, and
    every earlier name of the series exists. *)
Theorem X9_report_name_first_free (self : Spider) (fs : FileSystem) :
  exists n,
    csv_file self fs = Some (report_name (csv_root self) n)
    /\ (report_name (csv_root self) n ∉ fs_files fs)
    /\ forall m, (m < n)%nat -> report_name (csv_root self) m ∈ fs_files fs.
Proof.
  destruct (ClosedFacts.csv_file_total self fs) as (f & Hf & _).
  pose proof Hf as Hf'. unfold csv_file in Hf'.
  change (csv_root self +:+ ".csv") with (report_name (csv_root self) 0) in Hf'.
  destruct (ReportFacts.free_name_first _ _ _ _ _ Hf') as (n & _ & -> & Hfree & Hm).
  exists n. split; [exact Hf |]. split; [exact Hfree |].
  intros m Hmn. apply Hm. lia.
Qed.

(** X10 -- The name of the report never holds one of the characters
    [closed] removes from the title (backslash, slash, colon, star,
    question mark, double quote, angle brackets, bar), whatever the
    title and the files that exist: the report lands in the working
    directory. *)
Theorem X10_report_name_safe (self : Spider) (fs : FileSystem) :
  exists f,
    csv_file self fs = Some f
    /\ Forall (fun c => ~ In c unsafe_chars) (list_ascii_of_string f).
Proof.
  destruct (ClosedFacts.csv_file_total self fs) as (f & Hf & _).
  exists f. split; [exact Hf |].
  unfold csv_file in Hf.
  change (csv_root self +:+ ".csv") with (report_name (csv_root self) 0) in Hf.
  destruct (ReportFacts.free_name_first _ _ _ _ _ Hf) as (n & _ & -> & _).
  apply List.Forall_forall. intros c Hc Hu.
  pose proof (ReportFacts.report_name_safe
                (if PyStr.truthy (PyStr.strip (sStartTitle self))
                 then PyStr.strip (sStartTitle self) else "output") n) as Hs.
  fold (csv_root self) in Hs.
  rewrite forallb_forall in Hs. specialize (Hs c Hc).
  unfold safe in Hs. apply negb_true_iff in Hs.
  assert (existsb (Ascii.eqb c) unsafe_chars = true); [| congruence].
  apply existsb_exists. exists c. split; [exact Hu | apply Ascii.eqb_refl].
Qed.

(** X11 -- Where new files can be created, [closed] writes exactly one
    file: the report, under a name that did not exist, holding every
    record kept by [parse] in order; then it prints the summary line
    with the number of records and that name.  Nothing else is written,
    logged or printed. *)
Theorem X11_closed_writes_report (self : Spider) (fs : FileSystem) :
  (forall f, f ∉ fs_files fs -> fs_write_error fs f = None) ->
  exists f,
    (f ∉ fs_files fs)
    /\ closed self fs
       = Some [CsvWritten f (lItems self);
               Print ("Saved " +:+ decimal (length (lItems self))
                      +:+ " links to " +:+ f)].
Proof.
  intros Hw. destruct (ClosedFacts.csv_file_total self fs) as (f & Hf & Hfree).
  exists f. split; [exact Hfree |].
  unfold closed, closed_with, MEM_LOG_HANDLER. rewrite Hf, (Hw f Hfree).
  now destruct (get (cfg_log (dConfigData self)) false).
Qed.

Lemma X11_closed_writes_report_witness :
  exists f,
    (f ∉ fs_files Demo.fs_empty)
    /\ closed Demo.spider_home Demo.fs_empty
       = Some [CsvWritten f (lItems Demo.spider_home);
               Print ("Saved " +:+ decimal (length (lItems Demo.spider_home))
                      +:+ " links to " +:+ f)].
Proof.
  apply (X11_closed_writes_report Demo.spider_home Demo.fs_empty).
  intros f _. reflexivity.
Defined.

(** X12 -- The title the report is named after is the first title that
    is not empty among the pages in the order [parse] processes them
    (unless one is already stored): pages without a title are passed
    over, and a title of blanks only is taken. *)
Theorem X12_start_title_first_nonempty (lib : Lib) (self : Spider)
        (responses : list Response) :
  let '(sp, _, _) := parse_many lib self responses in
  sStartTitle sp
  = first_nonempty (sStartTitle self
                    :: map (fun r => or_empty (xpath_title r)) responses).
Proof.
  pose proof (CrawlFacts.parse_many_start_title lib responses self) as H.
  now destruct (parse_many lib self responses) as [[sp reqs] evs].
Qed.

(** X13 -- The fall-back name ["output"] is chosen before the unsafe
    characters are removed: a title that is not blank but made of such
    characters only leaves an empty root, and the report is named
    [.csv] when no such file exists. *)
Theorem X13_unsafe_title_empty_root (self : Spider) (fs : FileSystem) :
  PyStr.truthy (PyStr.strip (sStartTitle self)) = true ->
  forallb (fun c => existsb (Ascii.eqb c) unsafe_chars)
          (list_ascii_of_string (PyStr.strip (sStartTitle self))) = true ->
  ".csv" ∉ fs_files fs ->
  csv_root self = "" /\ csv_file self fs = Some ".csv".
Proof.
  intros Ht Hu Hfree.
  assert (Hr : csv_root self = "").
  { unfold csv_root. rewrite Ht. now apply ReportFacts.sanitize_all_unsafe. }
  split; [exact Hr |].
  unfold csv_file. rewrite Hr. cbn [free_name].
  change ("" +:+ ".csv") with ".csv".
  now rewrite (bool_decide_eq_false_2 _ Hfree).
Qed.

Lemma X13_unsafe_title_empty_root_witness :
  csv_root Sample.spider_queries = ""
  /\ csv_file Sample.spider_queries Demo.fs_empty = Some ".csv".
Proof.
  apply (X13_unsafe_title_empty_root Sample.spider_queries Demo.fs_empty).
  - reflexivity.
  - reflexivity.
  - vm_compute. set_solver.
Defined.

(** ** [randomUserAgentMiddleware] *)

(** X14 -- The pool of user agents holds the five built-in ones, in
    their order, and after them the configured one when it is not empty
    and not already among them; no agent is in the pool twice, and
    [process_request] always finds a member of the pool to put in the
    header. *)
Theorem X14_user_agent_pool (sCustomAgent : option string) (draw : nat) :
  NoDup (from_crawler sCustomAgent)
  /\ (exists extra, from_crawler sCustomAgent = (lDefaultAgents ++ extra)%list)
  /\ (forall ua, ua ∈ from_crawler sCustomAgent
                 <-> ua ∈ lDefaultAgents \/ (sCustomAgent = Some ua /\ ua <> ""))
  /\ (exists ua, process_request (from_crawler sCustomAgent) draw = Some ua
                 /\ ua ∈ from_crawler sCustomAgent).
Proof.
  assert (Hd : NoDup lDefaultAgents).
  { apply (NoDup_fmap_1 String.length). vm_compute.
    repeat (constructor; [set_solver |]). constructor. }
  assert (Hpool : forall s, existsb (String.eqb s) lDefaultAgents = true
                            <-> s ∈ lDefaultAgents).
  { intros s. rewrite existsb_exists. split.
    - intros (x & Hx & E). apply String.eqb_eq in E. subst x.
      now apply list_elem_of_In.
    - intros Hs. exists s. split; [now apply list_elem_of_In | apply String.eqb_refl]. }
  split; [| split; [| split]].
  - unfold from_crawler. destruct sCustomAgent as [s |]; [| exact Hd].
    destruct (PyStr.truthy s); [| exact Hd]. cbn [andb].
    destruct (existsb (String.eqb s) lDefaultAgents) eqn:E; [exact Hd |].
    cbn [negb]. apply NoDup_app. split; [exact Hd |].
    split; [| apply NoDup_singleton].
    intros x Hx Hs. apply list_elem_of_singleton in Hs. subst x.
    apply Hpool in Hx. congruence.
  - unfold from_crawler. destruct sCustomAgent as [s |];
      [| exists []; now rewrite app_nil_r].
    destruct (PyStr.truthy s && negb (existsb (String.eqb s) lDefaultAgents));
      [now exists [s] | exists []; now rewrite app_nil_r].
  - intros ua. unfold from_crawler. destruct sCustomAgent as [s |].
    + destruct (PyStr.truthy s) eqn:Ht; cbn [andb].
      * destruct (existsb (String.eqb s) lDefaultAgents) eqn:E; cbn [negb].
        -- apply Hpool in E. split; [now left |].
           intros [H | [H _]]; [exact H | inversion H; now subst].
        -- rewrite elem_of_app, list_elem_of_singleton. split.
           ++ intros [H | ->]; [now left | right]. split; [reflexivity |].
              intros ->. discriminate Ht.
           ++ intros [H | [H _]]; [now left | inversion H; now right].
      * split; [now left |]. intros [H | [H Hne]]; [exact H |].
        inversion H; subst. destruct ua; [now destruct Hne | discriminate Ht].
    + split; [now left |]. now intros [H | [H _]].
  - unfold process_request, choice.
    assert (Hlen : (0 < length (from_crawler sCustomAgent))%nat).
    { unfold from_crawler. destruct sCustomAgent as [s |]; [| cbn; lia].
      destruct (PyStr.truthy s && negb (existsb (String.eqb s) lDefaultAgents));
        [rewrite length_app |]; cbn; lia. }
    destruct (from_crawler sCustomAgent) as [| a l] eqn:E;
      [cbn in Hlen; lia |].
    destruct (nth_error (a :: l) (draw mod length (a :: l))) as [ua |] eqn:En.
    + exists ua. split; [reflexivity |].
      apply list_elem_of_In. exact (nth_error_In _ _ En).
    + apply nth_error_None in En.
      pose proof (Nat.mod_upper_bound draw (length (a :: l))). cbn in *. lia.
Qed.

(** ** [main] *)

Module MainFacts.
Import PyStr.

Lemma rev_string_revapp t : forall cur,
  rev_string (revapp t cur) = rev_string cur +:+ t.
Proof.
  induction t as [| c t IH]; intros cur; cbn [revapp].
  - unfold rev_string. clear.
    induction (string_of_list_ascii (rev (list_ascii_of_string cur)))
      as [| a r IHr]; [reflexivity |].
    change (String a r = String a (r +:+ "")). now f_equal.
  - rewrite IH. unfold rev_string. cbn [list_ascii_of_string rev].
    generalize (rev (list_ascii_of_string cur)). clear. intros l.
    induction l as [| a l IHl]; [reflexivity |].
    cbn [app string_of_list_ascii].
    change (String a (string_of_list_ascii (l ++ [c])) +:+ t
            = String a (string_of_list_ascii l +:+ String c t)).
    change (String a (string_of_list_ascii (l ++ [c]) +:+ t)
            = String a (string_of_list_ascii l +:+ String c t)).
    now f_equal.
Qed.

(** A text without line boundary is read into the current line. *)
Lemma splitlines_aux_line t rest : forall cur,
  one_line t = true ->
  splitlines_aux cur (t +:+ rest) = splitlines_aux (revapp t cur) rest.
Proof.
  induction t as [| c t IH]; intros cur H; [reflexivity |].
  unfold one_line in H. cbn [list_ascii_of_string forallb] in H.
  apply andb_true_iff in H as [Hc Ht]. apply negb_true_iff in Hc.
  change (String c t +:+ rest) with (String c (t +:+ rest)).
  cbn [splitlines_aux revapp]. rewrite Hc. now apply IH.
Qed.

Lemma revapp_truthy t cur : truthy (revapp t cur) = truthy t || truthy cur.
Proof.
  revert cur. induction t as [| c t IH]; intros cur; [reflexivity |].
  cbn [revapp]. rewrite IH. cbn. apply orb_true_r.
Qed.

Lemma splitlines_line t :
  one_line t = true -> splitlines t = if truthy t then [t] else [].
Proof.
  intros H. unfold splitlines.
  replace t with (t +:+ "") at 1
    by (clear; induction t as [| c t IH]; [reflexivity |];
        change (String c (t +:+ "") = String c t); now f_equal).
  rewrite (splitlines_aux_line t "" "" H). cbn [splitlines_aux].
  pose proof (revapp_truthy t "") as Ht. rewrite orb_false_r in Ht.
  pose proof (rev_string_revapp t "") as Hr.
  destruct (revapp t ""); cbn [truthy] in Ht; rewrite <- Ht; [reflexivity |].
  rewrite Hr. reflexivity.
Qed.

Lemma splitlines_cons t rest :
  one_line t = true ->
  splitlines (t +:+ LF +:+ rest) = t :: splitlines rest.
Proof.
  intros H. unfold splitlines.
  rewrite (splitlines_aux_line t (LF +:+ rest) "" H).
  change (LF +:+ rest) with (String (ascii_of_nat 10) rest).
  cbn [splitlines_aux].
  change (is_linebreak (ascii_of_nat 10)) with true. cbv iota.
  rewrite (rev_string_revapp t "").
  change (rev_string "" +:+ t) with t.
  destruct rest as [| c' rest']; [reflexivity |].
  change (code (ascii_of_nat 10) =? 13) with false. reflexivity.
Qed.

(** Splitting the joined targets gives the targets back, as far as
    the lines that are not blank go. *)
Lemma stripped_lines_join l :
  Forall (fun t => one_line t = true) l ->
  stripped_lines (join LF l)
  = filter (fun u => truthy u = true) (map strip l).
Proof.
  unfold stripped_lines.
  induction l as [| t l IH]; intros H; [reflexivity |].
  apply Forall_cons in H as [Ht Hl]. specialize (IH Hl).
  destruct l as [| t' l'].
  - cbn [join map]. rewrite (splitlines_line t Ht).
    destruct t; [reflexivity |]. reflexivity.
  - change (join LF (t :: t' :: l')) with (t +:+ LF +:+ join LF (t' :: l')).
    rewrite (splitlines_cons t _ Ht).
    cbn [map]. rewrite !filter_cons. now rewrite IH.
Qed.

(** A text is blank when all its characters are white space. *)
Lemma rstrip_truthy s :
  truthy (rstrip s)
  = existsb (fun c => negb (is_space c)) (list_ascii_of_string s).
Proof.
  induction s as [| c s IH]; [reflexivity |].
  cbn [rstrip list_ascii_of_string existsb]. rewrite <- IH.
  destruct (rstrip s); cbn [truthy]; [| apply eq_sym, orb_true_r].
  rewrite orb_false_r. now destruct (is_space c).
Qed.

Lemma lstrip_nonspace s :
  existsb (fun c => negb (is_space c)) (list_ascii_of_string (lstrip s))
  = existsb (fun c => negb (is_space c)) (list_ascii_of_string s).
Proof.
  induction s as [| c s IH]; [reflexivity |].
  cbn [lstrip]. destruct (is_space c) eqn:E.
  - rewrite IH. cbn [list_ascii_of_string existsb]. now rewrite E.
  - reflexivity.
Qed.

Lemma strip_truthy s :
  truthy (strip s)
  = existsb (fun c => negb (is_space c)) (list_ascii_of_string s).
Proof. unfold strip. now rewrite rstrip_truthy, lstrip_nonspace. Qed.

Lemma join_nonblank l :
  truthy (strip (join LF l)) = existsb (fun t => truthy (strip t)) l.
Proof.
  induction l as [| t l IH]; [reflexivity |].
  destruct l as [| t' l'].
  - cbn [join existsb]. now rewrite orb_false_r.
  - change (join LF (t :: t' :: l')) with (t +:+ LF +:+ join LF (t' :: l')).
    cbn [existsb] in *. rewrite <- IH.
    rewrite !strip_truthy, !ReportFacts.chars_app, !existsb_app.
    reflexivity.
Qed.

(** Two host names on the command line reach the spider as they
    are: [main] puts no scheme before the targets of a URL list. *)
Example main_two_hosts :
  main Sample.os_no_files Sample.args_two_hosts = Crawl Demo.cfg_hosts true.
Proof. reflexivity. Qed.

End MainFacts.

(** X15 -- Several URLs on the command line start URL-list mode with
    exactly these URLs: when the first target is not a file, more than
    one target is given, none holds a line break and one at least is not
    blank, [main] starts the crawl with a dictionary from which
    [__init__] reads the trimmed targets that are not blank, in order,
    as the lines of [urlList]; the spider is in URL-list mode, its seed
    list holds each of them once, and there is no [startUrl]. *)
Theorem X15_main_url_targets (lib : Lib) (os : OS) (a : Args) :
  os_isfile os (arg_target a) = false ->
  arg_targets a <> [] ->
  Forall (fun t => one_line t = true) (arg_target a :: arg_targets a) ->
  existsb (fun t => PyStr.truthy (PyStr.strip t)) (arg_target a :: arg_targets a)
  = true ->
  exists cfg self lSeeds,
    main os a = Crawl cfg (negb (arg_log a))
    /\ cfg_startUrl cfg = None
    /\ stripped_lines (get (cfg_urlList cfg) "")
       = filter (fun u => PyStr.truthy u = true)
                (map PyStr.strip (arg_target a :: arg_targets a))
    /\ init lib cfg = Some self
    /\ bUrlListMode self = true
    /\ lUrlList self = Some lSeeds
    /\ NoDup lSeeds
    /\ (forall u, u ∈ lSeeds
                  <-> u ∈ filter (fun u => PyStr.truthy u = true)
                             (map PyStr.strip (arg_target a :: arg_targets a))).
Proof.
  intros Hfile Hmany Hlines Hsome.
  unfold main. rewrite Hfile. unfold config_of_targets.
  destruct (arg_targets a) as [| t2 ts] eqn:Ets; [now destruct Hmany |].
  cbn [apply_options cfg_log cfg_startUrl cfg_urlList get].
  pose proof (MainFacts.stripped_lines_join _ Hlines) as Hj.
  pose proof (MainFacts.join_nonblank (arg_target a :: t2 :: ts)) as Hb.
  rewrite Hsome in Hb.
  eexists _, _, _. split.
  { f_equal. now destruct (arg_log a). }
  split; [reflexivity |]. split; [exact Hj |].
  unfold init. cbn [apply_options cfg_urlList get]. rewrite Hb.
  split; [reflexivity |]. split; [reflexivity |]. split; [reflexivity |].
  split; [apply NoDup_elements |].
  intros u. rewrite elem_of_elements, elem_of_list_to_set, Hj. reflexivity.
Qed.

Lemma X15_main_url_targets_witness :
  exists cfg self lSeeds,
    main Sample.os_no_files Sample.args_two_urls
    = Crawl cfg (negb (arg_log Sample.args_two_urls))
    /\ cfg_startUrl cfg = None
    /\ stripped_lines (get (cfg_urlList cfg) "")
       = filter (fun u => PyStr.truthy u = true)
                (map PyStr.strip (arg_target Sample.args_two_urls
                                  :: arg_targets Sample.args_two_urls))
    /\ init Demo.lib cfg = Some self
    /\ bUrlListMode self = true
    /\ lUrlList self = Some lSeeds
    /\ NoDup lSeeds
    /\ (forall u, u ∈ lSeeds
                  <-> u ∈ filter (fun u => PyStr.truthy u = true)
                             (map PyStr.strip (arg_target Sample.args_two_urls
                                               :: arg_targets Sample.args_two_urls))).
Proof.
  apply (X15_main_url_targets Demo.lib Sample.os_no_files Sample.args_two_urls).
  - reflexivity.
  - discriminate.
  - repeat constructor.
  - reflexivity.
Defined.

(** X16 -- A single target that is not a file starts crawl mode at that
    URL, with [http://] put before it when it begins with [www.] in any
    letter case; the start URL [main] hands over therefore never begins
    with [www.].  [__init__] raises on the dictionary exactly when
    [urlparse] raises on that start URL; otherwise the spider made from
    the dictionary is in crawl mode with that start URL. *)
Theorem X16_main_single_target (lib : Lib) (os : OS) (a : Args) :
  os_isfile os (arg_target a) = false ->
  arg_targets a = [] ->
  exists cfg sUrl,
    main os a = Crawl cfg (negb (arg_log a))
    /\ cfg_startUrl cfg = Some sUrl
    /\ sUrl = (if PyStr.startswith (PyStr.lower (arg_target a)) "www."
               then "http://" +:+ arg_target a else arg_target a)
    /\ PyStr.startswith (PyStr.lower sUrl) "www." = false
    /\ (urlparse lib sUrl = None -> init lib cfg = None)
    /\ (urlparse lib sUrl <> None ->
        exists self,
          init lib cfg = Some self
          /\ bUrlListMode self = false
          /\ sStartUrl self = Some sUrl).
Proof.
  intros Hfile Hone. unfold main. rewrite Hfile.
  unfold config_of_targets. rewrite Hone.
  cbn [apply_options cfg_log cfg_startUrl cfg_urlList get].
  eexists _, _. split.
  { f_equal. now destruct (arg_log a). }
  split; [reflexivity |]. split; [reflexivity |]. split.
  { destruct (PyStr.startswith (PyStr.lower (arg_target a)) "www.") eqn:E;
      [reflexivity | exact E]. }
  unfold init. cbn [apply_options cfg_urlList cfg_startUrl get].
  change (PyStr.truthy (PyStr.strip "")) with false. cbv iota.
  split.
  - intros Hp. now rewrite Hp.
  - intros Hp.
    destruct (urlparse lib _) as [p |]; [| now destruct Hp].
    eexists. repeat split.
Qed.

Lemma X16_main_single_target_witness :
  exists cfg self sUrl,
    main Sample.os_no_files Sample.args_www
    = Crawl cfg (negb (arg_log Sample.args_www))
    /\ cfg_startUrl cfg = Some sUrl
    /\ sUrl = "http://WWW.example.com"
    /\ PyStr.startswith (PyStr.lower sUrl) "www." = false
    /\ init Demo.lib cfg = Some self
    /\ bUrlListMode self = false
    /\ sStartUrl self = Some sUrl.
Proof.
  destruct (X16_main_single_target Demo.lib Sample.os_no_files Sample.args_www
              eq_refl eq_refl)
    as (cfg & sUrl & Hmain & Hstart & Hurl & Hwww & _ & Hinit).
  destruct Hinit as (self & Hi & Hmode & Hs); [discriminate |].
  exists cfg, self, sUrl. split; [exact Hmain |]. split; [exact Hstart |].
  split; [rewrite Hurl; reflexivity |]. split; [exact Hwww |].
  split; [exact Hi |]. split; [exact Hmode | exact Hs].
Defined.

(** X17 -- For a crawl started from a TOML file, an option given on
    the command line wins over the file's entry, which wins over the
    built-in default: the spider's cap is [--maxLinks], else the file's
    [maxUrls], else 30, and likewise for the depth (3) and the parent
    directory (empty).  The two switches can only switch on: logging
    stays enabled, and [robotFilter] set, when the flag is given or the
    file says so.  The mode is read off the file's [urlList]. *)
Theorem X17_option_precedence (lib : Lib) (os : OS) (a : Args) (file : Config) :
  os_isfile os (arg_target a) = true ->
  toml_load os (arg_target a) = inl file ->
  exists cfg,
    main os a = Crawl cfg (negb (arg_log a || get (cfg_log file) false))
    /\ get (cfg_robotFilter cfg) false
       = arg_robotFilter a || get (cfg_robotFilter file) false
    /\ forall self,
         init lib cfg = Some self ->
         iMaxUrls self = get (arg_maxLinks a) (get (cfg_maxUrls file) 30)
         /\ iCrawlDepth self = get (arg_crawlDepth a) (get (cfg_crawlDepth file) 3)
         /\ sParentDir self = get (arg_parentDir a) (get (cfg_parentDir file) "")
         /\ bUrlListMode self
            = PyStr.truthy (PyStr.strip (get (cfg_urlList file) "")).
Proof.
  intros Hfile Hload. unfold main. rewrite Hfile, Hload.
  eexists. split.
  { f_equal. cbn [apply_options cfg_log]. now destruct (arg_log a). }
  split.
  { cbn [apply_options cfg_robotFilter]. now destruct (arg_robotFilter a). }
  intros self. unfold init.
  cbn [apply_options cfg_maxUrls cfg_crawlDepth cfg_parentDir cfg_urlList
       cfg_startUrl].
  destruct (PyStr.truthy (PyStr.strip (get (cfg_urlList file) ""))).
  - intros H. inversion H; subst; clear H.
    cbn [iMaxUrls iCrawlDepth sParentDir bUrlListMode].
    destruct (arg_maxLinks a), (arg_crawlDepth a), (arg_parentDir a);
      repeat split.
  - destruct (cfg_startUrl file) as [sStart |]; [| discriminate].
    destruct (urlparse lib sStart); [| discriminate].
    intros H. inversion H; subst; clear H.
    cbn [iMaxUrls iCrawlDepth sParentDir bUrlListMode].
    destruct (arg_maxLinks a), (arg_crawlDepth a), (arg_parentDir a);
      repeat split.
Qed.

Lemma X17_option_precedence_witness :
  exists cfg,
    main Sample.os_docs_toml Sample.args_toml
    = Crawl cfg (negb (arg_log Sample.args_toml
                       || get (cfg_log Sample.cfg_docs) false))
    /\ get (cfg_robotFilter cfg) false
       = arg_robotFilter Sample.args_toml
         || get (cfg_robotFilter Sample.cfg_docs) false
    /\ forall self,
         init Demo.lib cfg = Some self ->
         iMaxUrls self
         = get (arg_maxLinks Sample.args_toml) (get (cfg_maxUrls Sample.cfg_docs) 30)
         /\ iCrawlDepth self
            = get (arg_crawlDepth Sample.args_toml)
                  (get (cfg_crawlDepth Sample.cfg_docs) 3)
         /\ sParentDir self
            = get (arg_parentDir Sample.args_toml)
                  (get (cfg_parentDir Sample.cfg_docs) "")
         /\ bUrlListMode self
            = PyStr.truthy (PyStr.strip (get (cfg_urlList Sample.cfg_docs) "")).
Proof.
  apply (X17_option_precedence Demo.lib Sample.os_docs_toml Sample.args_toml
           Sample.cfg_docs); reflexivity.
Defined.

(** ** [parseAndFormatDate] *)

Module DateFacts.
Import PyStr Strptime PyStrFacts.

(** How the loop over the formats ends. *)
Lemma try_formats_outcome host s fmts :
  try_formats host s fmts = s
  \/ exists dt fmt,
       In fmt fmts
       /\ strptime (locale_time host) s fmt = Some dt
       /\ try_formats host s fmts = strftime_Ymd (pads_year host) dt.
Proof.
  induction fmts as [| f fmts IH]; [now left |].
  cbn [try_formats]. destruct (strptime (locale_time host) s f) as [dt |] eqn:E.
  - right. exists dt, f. split; [now left |]. now split.
  - destruct IH as [IH | (dt & fmt & Hin & Hp & Hr)]; [now left |].
    right. exists dt, fmt. split; [now right |]. now split.
Qed.

Lemma year_text_digits pads y :
  forallb is_digit (list_ascii_of_string (year_text pads y)) = true
  /\ year_text pads y <> "".
Proof.
  unfold year_text.
  destruct (pads || (1000 <=? y)); [| destruct (y <? 10); [| destruct (y <? 100)]];
    unfold pad4, pad2; cbn [list_ascii_of_string forallb];
    rewrite ?digit_char_is_digit; split; [reflexivity | discriminate
                                         | reflexivity | discriminate
                                         | reflexivity | discriminate
                                         | reflexivity | discriminate].
Qed.

(** The text of a date is not empty and holds no white space. *)
Lemma date_text_shape pads dt :
  strftime_Ymd pads dt <> ""
  /\ forallb (fun c => negb (is_space c))
             (list_ascii_of_string (strftime_Ymd pads dt)) = true.
Proof.
  unfold strftime_Ymd.
  destruct (year_text_digits pads (year dt)) as (Hd & Hne).
  split.
  - destruct (year_text pads (year dt)); [now destruct Hne | discriminate].
  - rewrite !ReportFacts.chars_app, !forallb_app.
    rewrite (ReportFacts.forallb_impl is_digit _ _
               (fun c H => eq_trans (f_equal negb (digit_not_space c H)) eq_refl) Hd).
    unfold pad2. cbn [list_ascii_of_string forallb].
    rewrite !(digit_not_space _ (digit_char_is_digit _)). reflexivity.
Qed.

(** The result is empty exactly for a blank input. *)
Lemma normaliser_blank_iff host s :
  parseAndFormatDate host s = "" <-> strip s = "".
Proof.
  unfold parseAndFormatDate.
  destruct (truthy (strip s)) eqn:Ht; cbn [negb].
  - destruct (try_formats_outcome host (strip s) lDateFormats)
      as [E | (dt & fmt & _ & _ & E)]; rewrite E; [reflexivity |].
    destruct (date_text_shape (pads_year host) dt) as (Hne & _).
    split; [intros H; now destruct Hne |].
    intros H. rewrite H in Ht. discriminate Ht.
  - split; [| reflexivity]. intros _. now destruct (strip s).
Qed.

(** The result has no white space around it. *)
Lemma normaliser_trimmed host s :
  strip (parseAndFormatDate host s) = parseAndFormatDate host s.
Proof.
  unfold parseAndFormatDate.
  destruct (truthy (strip s)) eqn:Ht; cbn [negb]; [| reflexivity].
  destruct (try_formats_outcome host (strip s) lDateFormats)
    as [E | (dt & fmt & _ & _ & E)]; rewrite E.
  - apply strip_idem.
  - apply strip_no_space, date_text_shape.
Qed.

(** The value of [sUpdatedDate] as the first candidate that is not
    empty. *)
Lemma resolve_updated_candidates lib response :
  resolve_updated lib response
  = first_nonempty
      [ header_candidate lib response;
        parseAndFormatDate (host lib) (or_empty (meta_last_modified response));
        parseAndFormatDate (host lib)
          (or_empty (meta_article_modified_time response));
        parseAndFormatDate (host lib) (or_empty (meta_last_modified_us response));
        parseAndFormatDate (host lib) (or_empty (meta_modified response)) ].
Proof.
  assert (Hc : forall meta,
             meta_candidate lib meta = parseAndFormatDate (host lib) (or_empty meta)).
  { intros [raw |]; [symmetry; apply UpdatedFacts.normaliser_is_meta_candidate |].
    reflexivity. }
  rewrite <- !Hc.
  unfold resolve_updated. fold (header_candidate lib response).
  rewrite !UpdatedFacts.try_meta_candidate.
  generalize (header_candidate lib response)
             (meta_candidate lib (meta_last_modified response))
             (meta_candidate lib (meta_article_modified_time response))
             (meta_candidate lib (meta_last_modified_us response))
             (meta_candidate lib (meta_modified response)).
  intros h c1 c2 c3 c4.
  destruct h, c1, c2, c3, c4; reflexivity.
Qed.

Lemma header_candidate_shape lib response :
  (header_candidate lib response = "" <-> header_date lib response = None)
  /\ strip (header_candidate lib response) = header_candidate lib response.
Proof.
  unfold header_candidate, header_date.
  destruct (hdr_last_modified response) as [raw |]; [| now split].
  destruct (parsedate_to_datetime lib raw) as [dt |]; [| now split].
  destruct (date_text_shape (pads_year (host lib)) dt) as (Hne & Hsp).
  split; [| now apply strip_no_space].
  split; [intros H; now destruct Hne | discriminate].
Qed.

Lemma first_nonempty_blank l :
  first_nonempty l = "" <-> Forall (fun s => s = "") l.
Proof.
  induction l as [| s l IH]; [split; [constructor | reflexivity] |].
  cbn [first_nonempty]. destruct s as [| c s]; cbn [truthy].
  - rewrite IH. split; [now constructor |]. intros H. now inversion H.
  - split; [discriminate |]. intros H. inversion H; subst. discriminate.
Qed.

Lemma first_nonempty_trimmed l :
  Forall (fun s => strip s = s) l -> strip (first_nonempty l) = first_nonempty l.
Proof.
  induction 1 as [| s l Hs _ IH]; [reflexivity |].
  cbn [first_nonempty]. now destruct (truthy s).
Qed.

End DateFacts.

(** X18 -- The normaliser returns either its input with the surrounding
    white space removed, or the [YYYY-MM-DD] text of a date that exists
    and that one of its eleven formats reads from the trimmed input: it
    never makes up a day such as February 30. *)
Theorem X18_normaliser_outcome (host : Strptime.Host) (s : string) :
  parseAndFormatDate host s = PyStr.strip s
  \/ exists dt fmt,
       In fmt lDateFormats
       /\ Strptime.strptime (Strptime.locale_time host) (PyStr.strip s) fmt = Some dt
       /\ Strptime.valid_date (Strptime.year dt) (Strptime.month dt)
                              (Strptime.day dt) = true
       /\ parseAndFormatDate host s
          = Strptime.strftime_Ymd (Strptime.pads_year host) dt.
Proof.
  unfold parseAndFormatDate.
  destruct (PyStr.truthy (PyStr.strip s)) eqn:Ht; cbn [negb].
  - destruct (DateFacts.try_formats_outcome host (PyStr.strip s) lDateFormats)
      as [E | (dt & fmt & Hin & Hp & E)]; [now left |].
    right. exists dt, fmt. split; [exact Hin |]. split; [exact Hp |].
    split; [exact (StrptimeFacts.strptime_valid _ _ _ _ Hp) | exact E].
  - left. now destruct (PyStr.strip s).
Qed.

(** X19 -- The result of the normaliser is empty exactly when the input
    is blank (empty or white space only); it never begins or ends with
    white space; and white space around the input makes no difference
    to it. *)
Theorem X19_normaliser_blank_and_trimmed (host : Strptime.Host) (s : string) :
  (parseAndFormatDate host s = "" <-> PyStr.strip s = "")
  /\ PyStr.strip (parseAndFormatDate host s) = parseAndFormatDate host s
  /\ parseAndFormatDate host (PyStr.strip s) = parseAndFormatDate host s.
Proof.
  split; [apply DateFacts.normaliser_blank_iff |].
  split; [apply DateFacts.normaliser_trimmed |].
  unfold parseAndFormatDate. now rewrite PyStrFacts.strip_idem.
Qed.

(** X20 -- A text in which no four digits stand in a row is not a date
    for the normaliser, in any locale: every format asks for a
    four-digit year, so the text comes back trimmed and otherwise
    unchanged (a two-digit year is never expanded). *)
Theorem X20_no_year_no_date (host : Strptime.Host) (s : string) :
  no_four_digit_run (PyStr.strip s) = true ->
  parseAndFormatDate host s = PyStr.strip s.
Proof.
  intros H. unfold parseAndFormatDate.
  destruct (PyStr.truthy (PyStr.strip s)) eqn:Ht; cbn [negb].
  - now apply NormaliserFacts.try_formats_needs_year.
  - now destruct (PyStr.strip s).
Qed.

Lemma X20_no_year_no_date_witness :
  parseAndFormatDate (host Demo.lib) " 03/18/25 " = PyStr.strip " 03/18/25 ".
Proof.
  apply (X20_no_year_no_date (host Demo.lib) " 03/18/25 ").
  vm_compute. reflexivity.
Defined.

(** X23 -- The [updated] field is empty only when the page gives no
    date signal at all: the [Last-Modified] header is missing or does
    not parse, and each of the four meta tags is missing or blank.  And
    the field never begins or ends with white space. *)
Theorem X23_updated_blank_iff (lib : Lib) (response : Response) :
  (resolve_updated lib response = ""
   <-> header_date lib response = None
       /\ Forall (fun meta => PyStr.strip (or_empty meta) = "")
                 [ meta_last_modified response;
                   meta_article_modified_time response;
                   meta_last_modified_us response;
                   meta_modified response ])
  /\ PyStr.strip (resolve_updated lib response) = resolve_updated lib response.
Proof.
  rewrite DateFacts.resolve_updated_candidates.
  destruct (DateFacts.header_candidate_shape lib response) as (Hh & Hht).
  split.
  - rewrite DateFacts.first_nonempty_blank, !Forall_cons, !Forall_nil.
    rewrite Hh, !DateFacts.normaliser_blank_iff. tauto.
  - apply DateFacts.first_nonempty_trimmed.
    repeat (constructor; [first [exact Hht | apply DateFacts.normaliser_trimmed] |]).
    constructor.
Qed.

(** ** Numeric dates *)

Module NumericFacts.
Import PyStr Re Strptime PyStrFacts StrptimeFacts NormaliserFacts.

(** The [%m] group takes the two digits of a padded month, whatever
    follows, when the rest of the match succeeds from there. *)
Lemma month_group {A} loc Gm m subj pos rest g
      (k : groups -> nat -> string -> option A) x :
  directive_re loc "m" = Some Gm -> 1 <= m <= 12 ->
  k (g ++ [("m"%char, slice pos (S (S pos)) subj)])%list (S (S pos)) rest = Some x ->
  rmatch subj Gm pos (pad2 m +:+ rest) g k = Some x.
Proof.
  intros HG Hm. vm_compute in HG. injection HG as <-.
  pattern m. apply (all_from_spec _ 12 1); [| lia].
  cbn [all_from].
  repeat split; intros H; vm_compute in H; vm_compute; rewrite H; reflexivity.
Qed.

(** Likewise the [%d] group and a padded day. *)
Lemma day_group {A} loc Gd d subj pos rest g
      (k : groups -> nat -> string -> option A) x :
  directive_re loc "d" = Some Gd -> 1 <= d <= 31 ->
  k (g ++ [("d"%char, slice pos (S (S pos)) subj)])%list (S (S pos)) rest = Some x ->
  rmatch subj Gd pos (pad2 d +:+ rest) g k = Some x.
Proof.
  intros HG Hd. vm_compute in HG. injection HG as <-.
  pattern d. apply (all_from_spec _ 31 1); [| lia].
  cbn [all_from].
  repeat split; intros H; vm_compute in H; vm_compute; rewrite H; reflexivity.
Qed.

Lemma chr_step {A} subj c pos rest g (k : groups -> nat -> string -> option A) :
  rmatch subj (Chr c) pos (String c rest) g k = k g (S pos) rest.
Proof.
  cbn [rmatch]. unfold one, ieq. now rewrite Ascii.eqb_refl.
Qed.

Lemma set_fields_mdY loc sy sm sd :
  set_fields loc fields0 [("m"%char, sm); ("d"%char, sd); ("Y"%char, sy)]
  = match int sm, int sd, int sy with
    | Some m, Some d, Some y =>
        Some {| f_year := y; f_mon := m; f_day := d;
                f_hour := 0; f_min := 0; f_sec := 0; f_gmtoff := None |}
    | _, _, _ => None
    end.
Proof.
  cbn -[int]. destruct (int sm); [| reflexivity]. cbn -[int].
  destruct (int sd); [| reflexivity]. cbn -[int].
  destruct (int sy); reflexivity.
Qed.

Lemma set_fields_dmY loc sy sm sd :
  set_fields loc fields0 [("d"%char, sd); ("m"%char, sm); ("Y"%char, sy)]
  = match int sd, int sm, int sy with
    | Some d, Some m, Some y =>
        Some {| f_year := y; f_mon := m; f_day := d;
                f_hour := 0; f_min := 0; f_sec := 0; f_gmtoff := None |}
    | _, _, _ => None
    end.
Proof.
  cbn -[int]. destruct (int sd); [| reflexivity]. cbn -[int].
  destruct (int sm); [| reflexivity]. cbn -[int].
  destruct (int sy); reflexivity.
Qed.

(** The groups a month-first format finds in a month-first text. *)
Lemma mdY_match loc c re a0 b0 c0 d0 m d :
  is_sep c ->
  pattern loc ("%m" +:+ String c ("%d" +:+ String c "%Y")) = Some re ->
  is_digit a0 = true -> is_digit b0 = true ->
  is_digit c0 = true -> is_digit d0 = true ->
  1 <= m <= 12 -> 1 <= d <= 31 ->
  re_match re (pad2 m +:+ String c (pad2 d +:+ String c
                 (String a0 (String b0 (String c0 (String d0 ""))))))
  = Some ([("m"%char, pad2 m); ("d"%char, pad2 d);
           ("Y"%char, String a0 (String b0 (String c0 (String d0 ""))))],
          EmptyString).
Proof.
  intros Hc Hre Ha Hb Hc0 Hd0 Hm Hd.
  destruct Hc as [-> | ->]; vm_compute in Hre; injection Hre as <-;
    unfold re_match; rewrite rmatch_Seq;
    (eapply (month_group loc); [reflexivity | exact Hm |]);
    cbv beta; rewrite rmatch_Seq, chr_step, rmatch_Seq;
    (eapply (day_group loc); [reflexivity | exact Hd |]);
    cbv beta; rewrite rmatch_Seq, chr_step;
    rewrite (year_group _ _ _ _ _ _ _ _ _ Ha Hb Hc0 Hd0); reflexivity.
Qed.

(** The groups a day-first format finds in a day-first text. *)
Lemma dmY_match loc c re a0 b0 c0 d0 m d :
  is_sep c ->
  pattern loc ("%d" +:+ String c ("%m" +:+ String c "%Y")) = Some re ->
  is_digit a0 = true -> is_digit b0 = true ->
  is_digit c0 = true -> is_digit d0 = true ->
  1 <= m <= 12 -> 1 <= d <= 31 ->
  re_match re (pad2 d +:+ String c (pad2 m +:+ String c
                 (String a0 (String b0 (String c0 (String d0 ""))))))
  = Some ([("d"%char, pad2 d); ("m"%char, pad2 m);
           ("Y"%char, String a0 (String b0 (String c0 (String d0 ""))))],
          EmptyString).
Proof.
  intros Hc Hre Ha Hb Hc0 Hd0 Hm Hd.
  destruct Hc as [-> | ->]; vm_compute in Hre; injection Hre as <-;
    unfold re_match; rewrite rmatch_Seq;
    (eapply (day_group loc); [reflexivity | exact Hd |]);
    cbv beta; rewrite rmatch_Seq, chr_step, rmatch_Seq;
    (eapply (month_group loc); [reflexivity | exact Hm |]);
    cbv beta; rewrite rmatch_Seq, chr_step;
    rewrite (year_group _ _ _ _ _ _ _ _ _ Ha Hb Hc0 Hd0); reflexivity.
Qed.

Lemma strptime_mdY loc c y m d :
  is_sep c -> valid_date y m d = true ->
  strptime loc (pad2 m +:+ String c (pad2 d +:+ String c (pad4 y)))
           ("%m" +:+ String c ("%d" +:+ String c "%Y"))
  = Some {| year := y; month := m; day := d;
            hour := 0; minute := 0; second := 0; utcoffset := None |}.
Proof.
  intros Hc Hv. destruct (valid_date_bounds _ _ _ Hv) as (Hy & Hm & Hd).
  unfold strptime.
  destruct (pattern loc ("%m" +:+ String c ("%d" +:+ String c "%Y")))
    as [re |] eqn:Hre;
    [| destruct Hc as [-> | ->]; vm_compute in Hre; discriminate].
  unfold pad4.
  rewrite (mdY_match loc c re _ _ _ _ m d Hc Hre) by
    (first [apply digit_char_is_digit | assumption]).
  cbn [truthy]. rewrite set_fields_mdY.
  fold (pad4 y).
  rewrite (int_pad4 y), (int_pad2 m), (int_pad2 d) by lia.
  cbn [f_year f_mon f_day f_hour f_min f_sec f_gmtoff].
  now rewrite Hv.
Qed.

Lemma strptime_dmY loc c y m d :
  is_sep c -> valid_date y m d = true ->
  strptime loc (pad2 d +:+ String c (pad2 m +:+ String c (pad4 y)))
           ("%d" +:+ String c ("%m" +:+ String c "%Y"))
  = Some {| year := y; month := m; day := d;
            hour := 0; minute := 0; second := 0; utcoffset := None |}.
Proof.
  intros Hc Hv. destruct (valid_date_bounds _ _ _ Hv) as (Hy & Hm & Hd).
  unfold strptime.
  destruct (pattern loc ("%d" +:+ String c ("%m" +:+ String c "%Y")))
    as [re |] eqn:Hre;
    [| destruct Hc as [-> | ->]; vm_compute in Hre; discriminate].
  unfold pad4.
  rewrite (dmY_match loc c re _ _ _ _ m d Hc Hre) by
    (first [apply digit_char_is_digit | assumption]).
  cbn [truthy]. rewrite set_fields_dmY.
  fold (pad4 y).
  rewrite (int_pad4 y), (int_pad2 m), (int_pad2 d) by lia.
  cbn [f_year f_mon f_day f_hour f_min f_sec f_gmtoff].
  now rewrite Hv.
Qed.

(** A text that goes on with a dash after the month is not for
    [%m/%d/%Y]. *)
Lemma month_dash_fails loc m rest :
  1 <= m <= 12 ->
  strptime loc (pad2 m +:+ String "-" rest) "%m/%d/%Y" = None.
Proof.
  intros Hm. pattern m. apply (all_from_spec _ 12 1); [| lia].
  cbn [all_from]. repeat split; vm_compute; reflexivity.
Qed.

(** A text that starts with a day after the 12th is for none of the
    formats tried before the day-first ones. *)
Lemma day_first_fails loc c d rest fmt :
  is_sep c -> 13 <= d <= 31 ->
  In fmt ["%m/%d/%Y"; "%m-%d-%Y"; "%Y-%m-%d"]
  \/ (c = "-"%char /\ fmt = "%d/%m/%Y") ->
  strptime loc (pad2 d +:+ String c rest) fmt = None.
Proof.
  intros Hc Hd Hf.
  assert (Hcases : (c = "/"%char /\ In fmt ["%m/%d/%Y"; "%m-%d-%Y"; "%Y-%m-%d"])
                   \/ (c = "-"%char
                       /\ In fmt ["%m/%d/%Y"; "%m-%d-%Y"; "%Y-%m-%d"; "%d/%m/%Y"])).
  { destruct Hc as [-> | ->]; destruct Hf as [Hf | [E ->]];
      try discriminate E; [left | right | right]; split; try reflexivity;
      simpl in *; tauto. }
  clear Hc Hf.
  destruct Hcases as [[-> Hf] | [-> Hf]]; simpl in Hf;
    repeat (destruct Hf as [<- | Hf];
            [pattern d; (apply (all_from_spec _ 19 13); [| lia]);
             cbn [all_from]; repeat split; vm_compute; reflexivity |]);
    destruct Hf.
Qed.

Lemma numeric_text_no_space c x1 x2 y :
  is_sep c ->
  forallb (fun a => negb (is_space a))
          (list_ascii_of_string
             (pad2 x1 +:+ String c (pad2 x2 +:+ String c (pad4 y)))) = true.
Proof.
  intros Hc. unfold pad2, pad4.
  cbv [String.append list_ascii_of_string forallb].
  rewrite !(digit_not_space _ (digit_char_is_digit _)).
  now destruct Hc as [-> | ->].
Qed.

End NumericFacts.

(** X21 -- A numeric date with the month before the day is always read
    month first: for every date that exists, [MM/DD/YYYY] and
    [MM-DD-YYYY] (two digits each, four for the year) are normalised to
    that date, in every locale.  A day-first text whose day is 12 or
    less is therefore taken for the month. *)
Theorem X21_month_first_dates (host : Strptime.Host) (sep : string) (y m d : Z) :
  sep = "/" \/ sep = "-" ->
  Strptime.valid_date y m d = true ->
  parseAndFormatDate host
    (PyStr.pad2 m +:+ sep +:+ PyStr.pad2 d +:+ sep +:+ PyStr.pad4 y)
  = Strptime.strftime_Ymd (Strptime.pads_year host)
      {| Strptime.year := y; Strptime.month := m; Strptime.day := d;
         Strptime.hour := 0; Strptime.minute := 0; Strptime.second := 0;
         Strptime.utcoffset := None |}.
Proof.
  intros Hsep Hv.
  destruct (StrptimeFacts.valid_date_bounds _ _ _ Hv) as (_ & Hm & _).
  assert (exists c, is_sep c /\ sep = String c "") as (c & Hc & ->)
    by (destruct Hsep as [-> | ->]; eexists; split;
        [left | | right |]; reflexivity).
  change (PyStr.pad2 m +:+ String c "" +:+ PyStr.pad2 d +:+ String c ""
          +:+ PyStr.pad4 y)
    with (PyStr.pad2 m +:+ String c (PyStr.pad2 d +:+ String c (PyStr.pad4 y))).
  unfold parseAndFormatDate.
  rewrite PyStrFacts.strip_no_space by now apply NumericFacts.numeric_text_no_space.
  change (negb (PyStr.truthy (PyStr.pad2 m +:+ _))) with false. cbv iota.
  pose proof (NumericFacts.strptime_mdY (Strptime.locale_time host) c y m d Hc Hv)
    as Hp.
  unfold lDateFormats. destruct Hc as [-> | ->].
  - cbn [try_formats]. change ("%m" +:+ _) with "%m/%d/%Y" in Hp. now rewrite Hp.
  - cbn [try_formats].
    rewrite (NumericFacts.month_dash_fails _ m _ Hm).
    change ("%m" +:+ _) with "%m-%d-%Y" in Hp. now rewrite Hp.
Qed.

Lemma X21_month_first_dates_witness :
  parseAndFormatDate (host Demo.lib)
    (PyStr.pad2 4 +:+ "/" +:+ PyStr.pad2 3 +:+ "/" +:+ PyStr.pad4 2025)
  = Strptime.strftime_Ymd (Strptime.pads_year (host Demo.lib))
      {| Strptime.year := 2025; Strptime.month := 4; Strptime.day := 3;
         Strptime.hour := 0; Strptime.minute := 0; Strptime.second := 0;
         Strptime.utcoffset := None |}.
Proof.
  apply (X21_month_first_dates (host Demo.lib) "/" 2025 4 3).
  - left. reflexivity.
  - reflexivity.
Defined.

(** X22 -- A numeric date with the day first is read day first only
    when the day is after the 12th: for every date that exists and
    whose day is 13 or more, [DD/MM/YYYY] and [DD-MM-YYYY] are
    normalised to that date, in every locale. *)
Theorem X22_day_first_dates (host : Strptime.Host) (sep : string) (y m d : Z) :
  sep = "/" \/ sep = "-" ->
  Strptime.valid_date y m d = true ->
  12 < d ->
  parseAndFormatDate host
    (PyStr.pad2 d +:+ sep +:+ PyStr.pad2 m +:+ sep +:+ PyStr.pad4 y)
  = Strptime.strftime_Ymd (Strptime.pads_year host)
      {| Strptime.year := y; Strptime.month := m; Strptime.day := d;
         Strptime.hour := 0; Strptime.minute := 0; Strptime.second := 0;
         Strptime.utcoffset := None |}.
Proof.
  intros Hsep Hv Hd12.
  destruct (StrptimeFacts.valid_date_bounds _ _ _ Hv) as (_ & _ & Hd).
  assert (exists c, is_sep c /\ sep = String c "") as (c & Hc & ->)
    by (destruct Hsep as [-> | ->]; eexists; split;
        [left | | right |]; reflexivity).
  change (PyStr.pad2 d +:+ String c "" +:+ PyStr.pad2 m +:+ String c ""
          +:+ PyStr.pad4 y)
    with (PyStr.pad2 d +:+ String c (PyStr.pad2 m +:+ String c (PyStr.pad4 y))).
  unfold parseAndFormatDate.
  rewrite PyStrFacts.strip_no_space by now apply NumericFacts.numeric_text_no_space.
  change (negb (PyStr.truthy (PyStr.pad2 d +:+ _))) with false. cbv iota.
  pose proof (NumericFacts.strptime_dmY (Strptime.locale_time host) c y m d Hc Hv)
    as Hp.
  assert (Hfail : forall fmt,
             In fmt ["%m/%d/%Y"; "%m-%d-%Y"; "%Y-%m-%d"]
             \/ (c = "-"%char /\ fmt = "%d/%m/%Y") ->
             Strptime.strptime (Strptime.locale_time host)
               (PyStr.pad2 d +:+ String c (PyStr.pad2 m +:+ String c (PyStr.pad4 y)))
               fmt = None).
  { intros fmt Hf. apply NumericFacts.day_first_fails; [exact Hc | lia | exact Hf]. }
  unfold lDateFormats. cbn [try_formats].
  rewrite !Hfail by (left; simpl; tauto).
  destruct Hc as [-> | ->].
  - change ("%d" +:+ _) with "%d/%m/%Y" in Hp. now rewrite Hp.
  - rewrite Hfail by (right; split; reflexivity).
    change ("%d" +:+ _) with "%d-%m-%Y" in Hp. now rewrite Hp.
Qed.

Lemma X22_day_first_dates_witness :
  parseAndFormatDate (host Demo.lib)
    (PyStr.pad2 18 +:+ "/" +:+ PyStr.pad2 3 +:+ "/" +:+ PyStr.pad4 2025)
  = Strptime.strftime_Ymd (Strptime.pads_year (host Demo.lib))
      {| Strptime.year := 2025; Strptime.month := 3; Strptime.day := 18;
         Strptime.hour := 0; Strptime.minute := 0; Strptime.second := 0;
         Strptime.utcoffset := None |}.
Proof.
  apply (X22_day_first_dates (host Demo.lib) "/" 2025 3 18).
  - left. reflexivity.
  - reflexivity.
  - lia.
Defined.

(** X24 -- A date in the form [YYYY-MM-DD] is read as that date
    whenever the date exists, in every locale, and printed back the way
    the host prints it: unchanged when the year has four significant
    digits or the host pads the year. *)
Theorem X24_iso_dates (host : Strptime.Host) (y m d : Z) :
  Strptime.valid_date y m d = true ->
  parseAndFormatDate host
    (PyStr.pad4 y +:+ "-" +:+ PyStr.pad2 m +:+ "-" +:+ PyStr.pad2 d)
  = Strptime.strftime_Ymd (Strptime.pads_year host)
      {| Strptime.year := y; Strptime.month := m; Strptime.day := d;
         Strptime.hour := 0; Strptime.minute := 0; Strptime.second := 0;
         Strptime.utcoffset := None |}
  /\ (Strptime.pads_year host || (1000 <=? y) = true ->
      parseAndFormatDate host
        (PyStr.pad4 y +:+ "-" +:+ PyStr.pad2 m +:+ "-" +:+ PyStr.pad2 d)
      = PyStr.pad4 y +:+ "-" +:+ PyStr.pad2 m +:+ "-" +:+ PyStr.pad2 d).
Proof.
  intros Hv.
  assert (E : parseAndFormatDate host
                (PyStr.pad4 y +:+ "-" +:+ PyStr.pad2 m +:+ "-" +:+ PyStr.pad2 d)
              = Strptime.strftime_Ymd (Strptime.pads_year host)
                  {| Strptime.year := y; Strptime.month := m; Strptime.day := d;
                     Strptime.hour := 0; Strptime.minute := 0; Strptime.second := 0;
                     Strptime.utcoffset := None |}).
  { unfold parseAndFormatDate.
    rewrite PyStrFacts.strip_no_space.
    2:{ unfold PyStr.pad4, PyStr.pad2.
        cbv [String.append list_ascii_of_string forallb].
        rewrite !(PyStrFacts.digit_not_space _ (PyStrFacts.digit_char_is_digit _)).
        reflexivity. }
    change (negb (PyStr.truthy (PyStr.pad4 y +:+ _))) with false.
    cbv iota. unfold lDateFormats. cbn [try_formats].
    rewrite (StrptimeFacts.strptime_iso_canonical (Strptime.locale_time host) y m d Hv).
    change (PyStr.pad4 y +:+ "-" +:+ PyStr.pad2 m +:+ "-" +:+ PyStr.pad2 d)
      with (String (PyStr.digit_char (y / 1000)) (String (PyStr.digit_char (y / 100))
              (String (PyStr.digit_char (y / 10)) (String (PyStr.digit_char y)
                 ("-" +:+ PyStr.pad2 m +:+ "-" +:+ PyStr.pad2 d))))).
    rewrite StrptimeFacts.fmt_mdY_slash_fails, StrptimeFacts.fmt_mdY_dash_fails
      by apply PyStrFacts.digit_char_is_digit.
    reflexivity. }
  split; [exact E |].
  intros Hp. rewrite E. unfold Strptime.strftime_Ymd, Strptime.year_text.
  cbn [Strptime.year Strptime.month Strptime.day]. now rewrite Hp.
Qed.

Lemma X24_iso_dates_witness :
  parseAndFormatDate (host Demo.lib)
    (PyStr.pad4 2024 +:+ "-" +:+ PyStr.pad2 2 +:+ "-" +:+ PyStr.pad2 29)
  = Strptime.strftime_Ymd (Strptime.pads_year (host Demo.lib))
      {| Strptime.year := 2024; Strptime.month := 2; Strptime.day := 29;
         Strptime.hour := 0; Strptime.minute := 0; Strptime.second := 0;
         Strptime.utcoffset := None |}
  /\ (Strptime.pads_year (host Demo.lib) || (1000 <=? 2024) = true ->
      parseAndFormatDate (host Demo.lib)
        (PyStr.pad4 2024 +:+ "-" +:+ PyStr.pad2 2 +:+ "-" +:+ PyStr.pad2 29)
      = PyStr.pad4 2024 +:+ "-" +:+ PyStr.pad2 2 +:+ "-" +:+ PyStr.pad2 29).
Proof.
  apply (X24_iso_dates (host Demo.lib) 2024 2 29). reflexivity.
Defined.

(** ** Time stamps *)

Module StampFacts.
Import PyStr Re Strptime PyStrFacts StrptimeFacts NormaliserFacts NumericFacts.

(** The groups of the time of day take the two digits of a padded
    number, when the rest of the match succeeds from there. *)
Lemma hour_group {A} loc G h subj pos rest g
      (k : groups -> nat -> string -> option A) x :
  directive_re loc "H" = Some G -> 0 <= h <= 23 ->
  k (g ++ [("H"%char, slice pos (S (S pos)) subj)])%list (S (S pos)) rest = Some x ->
  rmatch subj G pos (pad2 h +:+ rest) g k = Some x.
Proof.
  intros HG Hh. vm_compute in HG. injection HG as <-.
  pattern h. apply (all_from_spec _ 24 0); [| lia].
  cbn [all_from].
  repeat split; intros H; vm_compute in H; vm_compute; rewrite H; reflexivity.
Qed.

Lemma minute_group {A} loc G n subj pos rest g
      (k : groups -> nat -> string -> option A) x :
  directive_re loc "M" = Some G -> 0 <= n <= 59 ->
  k (g ++ [("M"%char, slice pos (S (S pos)) subj)])%list (S (S pos)) rest = Some x ->
  rmatch subj G pos (pad2 n +:+ rest) g k = Some x.
Proof.
  intros HG Hn. vm_compute in HG. injection HG as <-.
  pattern n. apply (all_from_spec _ 60 0); [| lia].
  cbn [all_from].
  repeat split; intros H; vm_compute in H; vm_compute; rewrite H; reflexivity.
Qed.

Lemma second_group {A} loc G n subj pos rest g
      (k : groups -> nat -> string -> option A) x :
  directive_re loc "S" = Some G -> 0 <= n <= 59 ->
  k (g ++ [("S"%char, slice pos (S (S pos)) subj)])%list (S (S pos)) rest = Some x ->
  rmatch subj G pos (pad2 n +:+ rest) g k = Some x.
Proof.
  intros HG Hn. vm_compute in HG. injection HG as <-.
  pattern n. apply (all_from_spec _ 60 0); [| lia].
  cbn [all_from].
  repeat split; intros H; vm_compute in H; vm_compute; rewrite H; reflexivity.
Qed.

(** The [%z] group on the letter [Z]. *)
Lemma zulu_group {A} loc G subj pos g
      (k : groups -> nat -> string -> option A) x :
  directive_re loc "z" = Some G ->
  k (g ++ [("z"%char, slice pos (S pos) subj)])%list (S pos) "" = Some x ->
  rmatch subj G pos "Z" g k = Some x.
Proof.
  intros HG. vm_compute in HG. injection HG as <-.
  intros H; vm_compute in H; vm_compute; rewrite H; reflexivity.
Qed.

Lemma valid_time_bounds hh mi ss :
  valid_time hh mi ss = true -> 0 <= hh <= 23 /\ 0 <= mi <= 59 /\ 0 <= ss <= 59.
Proof.
  unfold valid_time. intros E.
  repeat (apply andb_true_iff in E as [E ?]). lia.
Qed.

(** The groups [%Y-%m-%dT%H:%M:%S%z] finds in a time stamp that ends
    in [Z]. *)
Lemma stamp_match loc re a b c d0 m d hh mi ss :
  pattern loc "%Y-%m-%dT%H:%M:%S%z" = Some re ->
  is_digit a = true -> is_digit b = true ->
  is_digit c = true -> is_digit d0 = true ->
  1 <= m <= 12 -> 1 <= d <= 31 ->
  0 <= hh <= 23 -> 0 <= mi <= 59 -> 0 <= ss <= 59 ->
  re_match re (String a (String b (String c (String d0
                 (String "-" (pad2 m +:+ String "-" (pad2 d +:+ String "T"
                    (pad2 hh +:+ String ":" (pad2 mi +:+ String ":"
                       (pad2 ss +:+ "Z"))))))))))
  = Some ([("Y"%char, String a (String b (String c (String d0 ""))));
           ("m"%char, pad2 m); ("d"%char, pad2 d);
           ("H"%char, pad2 hh); ("M"%char, pad2 mi); ("S"%char, pad2 ss);
           ("z"%char, "Z")], EmptyString).
Proof.
  intros Hre Ha Hb Hc Hd0 Hm Hd HH HM HS.
  vm_compute in Hre. injection Hre as <-.
  unfold re_match. rewrite rmatch_Seq.
  rewrite (year_group _ _ _ _ _ _ _ _ _ Ha Hb Hc Hd0).
  rewrite rmatch_Seq, chr_step, rmatch_Seq.
  eapply (month_group loc); [reflexivity | exact Hm |].
  cbv beta. rewrite rmatch_Seq, chr_step, rmatch_Seq.
  eapply (day_group loc); [reflexivity | exact Hd |].
  cbv beta. rewrite rmatch_Seq, chr_step, rmatch_Seq.
  eapply (hour_group loc); [reflexivity | exact HH |].
  cbv beta. rewrite rmatch_Seq, chr_step, rmatch_Seq.
  eapply (minute_group loc); [reflexivity | exact HM |].
  cbv beta. rewrite rmatch_Seq, chr_step, rmatch_Seq.
  eapply (second_group loc); [reflexivity | exact HS |].
  cbv beta.
  eapply (zulu_group loc); [reflexivity |].
  reflexivity.
Qed.

Lemma set_fields_stamp loc sy sm sd sH sM sS :
  set_fields loc fields0
    [("Y"%char, sy); ("m"%char, sm); ("d"%char, sd);
     ("H"%char, sH); ("M"%char, sM); ("S"%char, sS); ("z"%char, "Z")]
  = match int sy, int sm, int sd, int sH, int sM, int sS with
    | Some y, Some m, Some d, Some hh, Some mi, Some ss =>
        Some {| f_year := y; f_mon := m; f_day := d;
                f_hour := hh; f_min := mi; f_sec := ss; f_gmtoff := Some 0 |}
    | _, _, _, _, _, _ => None
    end.
Proof.
  cbn -[int]. destruct (int sy); [| reflexivity]. cbn -[int].
  destruct (int sm); [| reflexivity]. cbn -[int].
  destruct (int sd); [| reflexivity]. cbn -[int].
  destruct (int sH); [| reflexivity]. cbn -[int].
  destruct (int sM); [| reflexivity]. cbn -[int].
  destruct (int sS); reflexivity.
Qed.

Lemma strptime_stamp loc y m d hh mi ss :
  valid_date y m d = true -> valid_time hh mi ss = true ->
  strptime loc (pad4 y +:+ "-" +:+ pad2 m +:+ "-" +:+ pad2 d +:+ "T"
                +:+ pad2 hh +:+ ":" +:+ pad2 mi +:+ ":" +:+ pad2 ss +:+ "Z")
           "%Y-%m-%dT%H:%M:%S%z"
  = Some {| year := y; month := m; day := d;
            hour := hh; minute := mi; second := ss; utcoffset := Some 0 |}.
Proof.
  intros Hv Ht. destruct (valid_date_bounds _ _ _ Hv) as (Hy & Hm & Hd).
  destruct (valid_time_bounds _ _ _ Ht) as (HH & HM & HS).
  unfold strptime.
  destruct (pattern loc "%Y-%m-%dT%H:%M:%S%z") as [re |] eqn:Hre;
    [| vm_compute in Hre; discriminate].
  change (pad4 y +:+ "-" +:+ pad2 m +:+ "-" +:+ pad2 d +:+ "T"
          +:+ pad2 hh +:+ ":" +:+ pad2 mi +:+ ":" +:+ pad2 ss +:+ "Z")
    with (String (digit_char (y / 1000)) (String (digit_char (y / 100))
            (String (digit_char (y / 10)) (String (digit_char y)
               (String "-" (pad2 m +:+ String "-" (pad2 d +:+ String "T"
                  (pad2 hh +:+ String ":" (pad2 mi +:+ String ":"
                     (pad2 ss +:+ "Z")))))))))).
  rewrite (stamp_match loc re _ _ _ _ m d hh mi ss Hre) by
    (first [apply digit_char_is_digit | assumption]).
  cbn [truthy]. rewrite set_fields_stamp.
  change (String (digit_char (y / 1000)) (String (digit_char (y / 100))
            (String (digit_char (y / 10)) (String (digit_char y) EmptyString))))
    with (pad4 y).
  rewrite (int_pad4 y), !int_pad2 by lia.
  cbn [f_year f_mon f_day f_hour f_min f_sec f_gmtoff].
  rewrite Hv, Ht. reflexivity.
Qed.

(** Formats that begin with a name are not for a text that begins
    with a digit. *)
Lemma names_fail tz0 tz1 dl a rest fmt :
  is_digit a = true ->
  In fmt ["%B %d, %Y"; "%b %d, %Y"; "%a, %d %b %Y %H:%M:%S %Z";
          "%a, %d %b %Y %H:%M:%S %z"] ->
  strptime (locale_C tz0 tz1 dl) (String a rest) fmt = None.
Proof.
  intros Ha Hf. simpl in Hf.
  repeat (destruct Hf as [<- | Hf];
          [digit_cases Ha; vm_compute; reflexivity |]).
  destruct Hf.
Qed.

(** The day-first formats are not for a text that begins with three
    digits. *)
Lemma fmt_dmY_fails loc a b c rest fmt :
  is_digit a = true -> is_digit b = true -> is_digit c = true ->
  In fmt ["%d/%m/%Y"; "%d-%m-%Y"] ->
  strptime loc (String a (String b (String c rest))) fmt = None.
Proof.
  intros Ha Hb Hc Hf. simpl in Hf.
  repeat (destruct Hf as [<- | Hf];
          [digit_cases Ha; digit_cases Hb; digit_cases Hc;
           vm_compute; reflexivity |]).
  destruct Hf.
Qed.

(** [%Y-%m-%d] reads the date of a time stamp and leaves the time
    unread, which [strptime] refuses. *)
Lemma fmt_Ymd_leaves_time loc a b c d0 m d rest :
  is_digit a = true -> is_digit b = true ->
  is_digit c = true -> is_digit d0 = true ->
  1 <= m <= 12 -> 1 <= d <= 31 ->
  strptime loc (String a (String b (String c (String d0
                  (String "-" (pad2 m +:+ String "-" (pad2 d
                     +:+ String "T" rest)))))))
           "%Y-%m-%d" = None.
Proof.
  intros Ha Hb Hc Hd0 Hm Hd. unfold strptime.
  destruct (pattern loc "%Y-%m-%d") as [re |] eqn:Hre; [| reflexivity].
  vm_compute in Hre. injection Hre as <-.
  match goal with
  | |- match re_match ?r ?t with _ => _ end = _ =>
      assert (E : re_match r t
                  = Some ([("Y"%char, String a (String b (String c (String d0 ""))));
                           ("m"%char, pad2 m); ("d"%char, pad2 d)],
                          String "T" rest))
  end.
  { unfold re_match. rewrite rmatch_Seq.
    rewrite (year_group _ _ _ _ _ _ _ _ _ Ha Hb Hc Hd0).
    rewrite rmatch_Seq, chr_step, rmatch_Seq.
    eapply (month_group loc); [reflexivity | exact Hm |].
    cbv beta. rewrite rmatch_Seq, chr_step.
    eapply (day_group loc); [reflexivity | exact Hd |].
    reflexivity. }
  rewrite E. reflexivity.
Qed.

End StampFacts.

(** X25 -- An ISO 8601 time stamp in UTC, [YYYY-MM-DDTHH:MM:SSZ], is
    normalised to its date: for every date that exists and every time
    of day, in the "C" locale of the process and whatever the time-zone
    names and the C library of the host, the result is the date as
    written, the time being dropped. *)
Theorem X25_utc_time_stamps (tz0 tz1 : string) (daylight pads : bool)
        (y m d hh mi ss : Z) :
  Strptime.valid_date y m d = true ->
  Strptime.valid_time hh mi ss = true ->
  parseAndFormatDate
    {| Strptime.locale_time := Strptime.locale_C tz0 tz1 daylight;
       Strptime.pads_year := pads |}
    (PyStr.pad4 y +:+ "-" +:+ PyStr.pad2 m +:+ "-" +:+ PyStr.pad2 d +:+ "T"
     +:+ PyStr.pad2 hh +:+ ":" +:+ PyStr.pad2 mi +:+ ":" +:+ PyStr.pad2 ss +:+ "Z")
  = Strptime.strftime_Ymd pads
      {| Strptime.year := y; Strptime.month := m; Strptime.day := d;
         Strptime.hour := hh; Strptime.minute := mi; Strptime.second := ss;
         Strptime.utcoffset := Some 0 |}.
Proof.
  intros Hv Ht.
  destruct (StrptimeFacts.valid_date_bounds _ _ _ Hv) as (_ & Hm & Hd).
  pose proof (StampFacts.strptime_stamp (Strptime.locale_C tz0 tz1 daylight)
                y m d hh mi ss Hv Ht) as Hp.
  unfold parseAndFormatDate.
  rewrite PyStrFacts.strip_no_space.
  2:{ unfold PyStr.pad4, PyStr.pad2.
      cbv [String.append list_ascii_of_string forallb].
      rewrite !(PyStrFacts.digit_not_space _ (PyStrFacts.digit_char_is_digit _)).
      reflexivity. }
  change (negb (PyStr.truthy (PyStr.pad4 y +:+ _))) with false. cbv iota.
  unfold lDateFormats. cbn [try_formats Strptime.locale_time Strptime.pads_year].
  rewrite Hp.
  change (PyStr.pad4 y +:+ "-" +:+ PyStr.pad2 m +:+ "-" +:+ PyStr.pad2 d +:+ "T"
          +:+ PyStr.pad2 hh +:+ ":" +:+ PyStr.pad2 mi +:+ ":" +:+ PyStr.pad2 ss +:+ "Z")
    with (String (PyStr.digit_char (y / 1000)) (String (PyStr.digit_char (y / 100))
            (String (PyStr.digit_char (y / 10)) (String (PyStr.digit_char y)
               (String "-" (PyStr.pad2 m +:+ String "-" (PyStr.pad2 d
                  +:+ String "T" (PyStr.pad2 hh +:+ String ":" (PyStr.pad2 mi
                     +:+ String ":" (PyStr.pad2 ss +:+ "Z")))))))))).
  rewrite StrptimeFacts.fmt_mdY_slash_fails, StrptimeFacts.fmt_mdY_dash_fails
    by apply PyStrFacts.digit_char_is_digit.
  rewrite StampFacts.fmt_Ymd_leaves_time
    by (first [apply PyStrFacts.digit_char_is_digit | assumption]).
  rewrite !StampFacts.fmt_dmY_fails
    by (first [apply PyStrFacts.digit_char_is_digit | simpl; tauto]).
  rewrite !StampFacts.names_fail
    by (first [apply PyStrFacts.digit_char_is_digit | simpl; tauto]).
  reflexivity.
Qed.

Lemma X25_utc_time_stamps_witness :
  parseAndFormatDate
    {| Strptime.locale_time := Strptime.locale_C "UTC" "UTC" false;
       Strptime.pads_year := false |}
    (PyStr.pad4 2025 +:+ "-" +:+ PyStr.pad2 3 +:+ "-" +:+ PyStr.pad2 18 +:+ "T"
     +:+ PyStr.pad2 23 +:+ ":" +:+ PyStr.pad2 59 +:+ ":" +:+ PyStr.pad2 7 +:+ "Z")
  = Strptime.strftime_Ymd false
      {| Strptime.year := 2025; Strptime.month := 3; Strptime.day := 18;
         Strptime.hour := 23; Strptime.minute := 59; Strptime.second := 7;
         Strptime.utcoffset := Some 0 |}.
Proof.
  apply (X25_utc_time_stamps "UTC" "UTC" false false 2025 3 18 23 59 7);
    reflexivity.
Defined.

(** ** Dates with names *)

Module NameFacts.
Import PyStr Re Strptime PyStrFacts StrptimeFacts NormaliserFacts NumericFacts.

(** The [%B] group takes the name of a month, when the rest of the
    match succeeds from there. *)
Lemma month_name_group {A} tz0 tz1 dl G m subj pos rest g
      (k : groups -> nat -> string -> option A) x :
  directive_re (locale_C tz0 tz1 dl) "B" = Some G -> 1 <= m <= 12 ->
  k (g ++ [("B"%char, slice pos (String.length (month_name m) + pos) subj)])%list
    (String.length (month_name m) + pos)%nat rest = Some x ->
  rmatch subj G pos (month_name m +:+ rest) g k = Some x.
Proof.
  intros HG Hm. vm_compute in HG. injection HG as <-.
  pattern m. apply (all_from_spec _ 12 1); [| lia].
  cbn [all_from].
  repeat split; intros H; vm_compute in H; vm_compute; rewrite H; reflexivity.
Qed.

(** Likewise the [%b] group and the short name of a month.  The text
    must go on with something that is not a letter. *)
Lemma month_abbr_group {A} tz0 tz1 dl G m subj pos rest g
      (k : groups -> nat -> string -> option A) x :
  directive_re (locale_C tz0 tz1 dl) "b" = Some G -> 1 <= m <= 12 ->
  k (g ++ [("b"%char, slice pos (3 + pos) subj)])%list (3 + pos)%nat rest = Some x ->
  rmatch subj G pos (month_abbr m +:+ rest) g k = Some x.
Proof.
  intros HG Hm. vm_compute in HG. injection HG as <-.
  pattern m. apply (all_from_spec _ 12 1); [| lia].
  cbn [all_from].
  repeat split; intros H; vm_compute in H; vm_compute; rewrite H; reflexivity.
Qed.

Lemma weekday_group {A} tz0 tz1 dl G w subj pos rest g
      (k : groups -> nat -> string -> option A) x :
  directive_re (locale_C tz0 tz1 dl) "a" = Some G -> 0 <= w <= 6 ->
  k (g ++ [("a"%char, slice pos (3 + pos) subj)])%list (3 + pos)%nat rest = Some x ->
  rmatch subj G pos (weekday_abbr w +:+ rest) g k = Some x.
Proof.
  intros HG Hw. vm_compute in HG. injection HG as <-.
  pattern w. apply (all_from_spec _ 7 0); [| lia].
  cbn [all_from].
  repeat split; intros H; vm_compute in H; vm_compute; rewrite H; reflexivity.
Qed.

(** One blank before a number is all [\s+] takes. *)
Lemma space_pad2 {A} subj pos n rest g (k : groups -> nat -> string -> option A) :
  rmatch subj SpacePlus pos (String " " (pad2 n +:+ rest)) g k
  = k g (S pos) (pad2 n +:+ rest).
Proof.
  cbn [rmatch spaces_plus]. change (is_space " ") with true. cbv iota.
  unfold pad2 at 1.
  change (String (digit_char (n / 10)) (String (digit_char n) "") +:+ rest)
    with (String (digit_char (n / 10)) (String (digit_char n) rest)).
  cbn [spaces_plus].
  now rewrite (digit_not_space _ (digit_char_is_digit _)).
Qed.

Lemma space_char {A} subj pos c rest g (k : groups -> nat -> string -> option A) :
  is_space c = false ->
  rmatch subj SpacePlus pos (String " " (String c rest)) g k
  = k g (S pos) (String c rest).
Proof.
  intros Hc. cbn [rmatch spaces_plus]. change (is_space " ") with true.
  now rewrite Hc.
Qed.

(** A text stays as it is under [strip] when it begins and ends with
    characters that are not white space. *)
Lemma rstrip_app a t :
  t <> "" -> rstrip t = t -> (a +:+ t) <> "" /\ rstrip (a +:+ t) = a +:+ t.
Proof.
  intros Hne Ht. induction a as [| c a [IH1 IH2]]; [now split |].
  change (String c a +:+ t) with (String c (a +:+ t)).
  split; [discriminate |]. cbn [rstrip]. rewrite IH2.
  destruct (a +:+ t); [now destruct IH1 | reflexivity].
Qed.

Lemma pad4_trimmed y : pad4 y <> "" /\ rstrip (pad4 y) = pad4 y.
Proof.
  split; [discriminate |]. apply rstrip_no_space.
  unfold pad4. cbn [list_ascii_of_string forallb].
  now rewrite !(digit_not_space _ (digit_char_is_digit _)).
Qed.

Lemma set_fields_BdY loc sB sd sy :
  set_fields loc fields0 [("B"%char, sB); ("d"%char, sd); ("Y"%char, sy)]
  = match index_of (lower sB) (f_month loc), int sd, int sy with
    | Some m, Some d, Some y =>
        Some {| f_year := y; f_mon := m; f_day := d;
                f_hour := 0; f_min := 0; f_sec := 0; f_gmtoff := None |}
    | _, _, _ => None
    end.
Proof.
  cbn -[int index_of]. destruct (index_of _ _); [| reflexivity]. cbn -[int].
  destruct (int sd); [| reflexivity]. cbn -[int].
  destruct (int sy); reflexivity.
Qed.

Lemma set_fields_bdY loc sb sd sy :
  set_fields loc fields0 [("b"%char, sb); ("d"%char, sd); ("Y"%char, sy)]
  = match index_of (lower sb) (a_month loc), int sd, int sy with
    | Some m, Some d, Some y =>
        Some {| f_year := y; f_mon := m; f_day := d;
                f_hour := 0; f_min := 0; f_sec := 0; f_gmtoff := None |}
    | _, _, _ => None
    end.
Proof.
  cbn -[int index_of]. destruct (index_of _ _); [| reflexivity]. cbn -[int].
  destruct (int sd); [| reflexivity]. cbn -[int].
  destruct (int sy); reflexivity.
Qed.

Lemma month_index tz0 tz1 dl m :
  1 <= m <= 12 ->
  index_of (lower (month_name m)) (f_month (locale_C tz0 tz1 dl)) = Some m
  /\ index_of (lower (month_abbr m)) (a_month (locale_C tz0 tz1 dl)) = Some m.
Proof.
  intros Hm. pattern m. apply (all_from_spec _ 12 1); [| lia].
  cbn [all_from]. repeat split; vm_compute; reflexivity.
Qed.

(** [%B %d, %Y] on a month name, a day and a year. *)
Lemma strptime_long tz0 tz1 dl y m d :
  valid_date y m d = true ->
  strptime (locale_C tz0 tz1 dl)
           (month_name m +:+ " " +:+ pad2 d +:+ ", " +:+ pad4 y) "%B %d, %Y"
  = Some {| year := y; month := m; day := d;
            hour := 0; minute := 0; second := 0; utcoffset := None |}.
Proof.
  intros Hv. destruct (valid_date_bounds _ _ _ Hv) as (Hy & Hm & Hd).
  unfold strptime.
  destruct (pattern (locale_C tz0 tz1 dl) "%B %d, %Y") as [re |] eqn:Hre;
    [| vm_compute in Hre; discriminate].
  assert (E : re_match re (month_name m +:+ " " +:+ pad2 d +:+ ", " +:+ pad4 y)
              = Some ([("B"%char, month_name m); ("d"%char, pad2 d);
                       ("Y"%char, pad4 y)], "")).
  { clear Hv.
    assert (Hdig : forall n, is_digit (digit_char n) = true)
      by apply digit_char_is_digit.
    vm_compute in Hre. injection Hre as <-.
    pattern m. apply (all_from_spec _ 12 1); [| lia].
    cbn [all_from].
    repeat split;
      unfold re_match, pad4;
      match goal with
      | |- rmatch ?s _ _ (?n +:+ " " +:+ ?p +:+ ", " +:+ ?t) _ _ = _ =>
          change (n +:+ " " +:+ p +:+ ", " +:+ t)
            with (n +:+ String " " (p +:+ String "," (String " " t)))
      end;
      rewrite rmatch_Seq;
      (eapply (month_name_group tz0 tz1 dl); [reflexivity | lia |]);
      cbv beta; rewrite rmatch_Seq, space_pad2, rmatch_Seq;
      (eapply (day_group (locale_C tz0 tz1 dl)); [reflexivity | exact Hd |]);
      cbv beta; rewrite rmatch_Seq, chr_step, rmatch_Seq,
        (space_char _ _ _ _ _ _ (digit_not_space _ (Hdig _)));
      rewrite (year_group _ _ _ _ _ _ _ _ _ (Hdig _) (Hdig _) (Hdig _) (Hdig _));
      reflexivity. }
  rewrite E. cbn [truthy].
  rewrite set_fields_BdY, (proj1 (month_index tz0 tz1 dl m Hm)).
  rewrite (int_pad4 y), (int_pad2 d) by lia.
  cbn [f_year f_mon f_day f_hour f_min f_sec f_gmtoff].
  now rewrite Hv.
Qed.

(** [%b %d, %Y] on a short month name, a day and a year. *)
Lemma strptime_short tz0 tz1 dl y m d :
  valid_date y m d = true ->
  strptime (locale_C tz0 tz1 dl)
           (month_abbr m +:+ " " +:+ pad2 d +:+ ", " +:+ pad4 y) "%b %d, %Y"
  = Some {| year := y; month := m; day := d;
            hour := 0; minute := 0; second := 0; utcoffset := None |}.
Proof.
  intros Hv. destruct (valid_date_bounds _ _ _ Hv) as (Hy & Hm & Hd).
  unfold strptime.
  destruct (pattern (locale_C tz0 tz1 dl) "%b %d, %Y") as [re |] eqn:Hre;
    [| vm_compute in Hre; discriminate].
  assert (E : re_match re (month_abbr m +:+ " " +:+ pad2 d +:+ ", " +:+ pad4 y)
              = Some ([("b"%char, month_abbr m); ("d"%char, pad2 d);
                       ("Y"%char, pad4 y)], "")).
  { clear Hv.
    assert (Hdig : forall n, is_digit (digit_char n) = true)
      by apply digit_char_is_digit.
    vm_compute in Hre. injection Hre as <-.
    pattern m. apply (all_from_spec _ 12 1); [| lia].
    cbn [all_from].
    repeat split;
      unfold re_match, pad4;
      match goal with
      | |- rmatch ?s _ _ (?n +:+ " " +:+ ?p +:+ ", " +:+ ?t) _ _ = _ =>
          change (n +:+ " " +:+ p +:+ ", " +:+ t)
            with (n +:+ String " " (p +:+ String "," (String " " t)))
      end;
      rewrite rmatch_Seq;
      (eapply (month_abbr_group tz0 tz1 dl); [reflexivity | lia |]);
      cbv beta; rewrite rmatch_Seq, space_pad2, rmatch_Seq;
      (eapply (day_group (locale_C tz0 tz1 dl)); [reflexivity | exact Hd |]);
      cbv beta; rewrite rmatch_Seq, chr_step, rmatch_Seq,
        (space_char _ _ _ _ _ _ (digit_not_space _ (Hdig _)));
      rewrite (year_group _ _ _ _ _ _ _ _ _ (Hdig _) (Hdig _) (Hdig _) (Hdig _));
      reflexivity. }
  rewrite E. cbn [truthy].
  rewrite set_fields_bdY, (proj2 (month_index tz0 tz1 dl m Hm)).
  rewrite (int_pad4 y), (int_pad2 d) by lia.
  cbn [f_year f_mon f_day f_hour f_min f_sec f_gmtoff].
  now rewrite Hv.
Qed.

(** What comes before the name formats fails on a text that begins
    with a month name; and a short name other than [May] is not a full
    name. *)
Lemma before_names_fail loc m rest fmt :
  1 <= m <= 12 ->
  In fmt ["%m/%d/%Y"; "%m-%d-%Y"; "%Y-%m-%d"; "%d/%m/%Y"; "%d-%m-%Y"] ->
  strptime loc (month_name m +:+ rest) fmt = None
  /\ strptime loc (month_abbr m +:+ rest) fmt = None.
Proof.
  intros Hm Hf. simpl in Hf.
  repeat (destruct Hf as [<- | Hf];
          [pattern m; (apply (all_from_spec _ 12 1); [| lia]);
           cbn [all_from]; repeat split; vm_compute; reflexivity |]).
  destruct Hf.
Qed.

Lemma short_is_not_long tz0 tz1 dl m rest :
  1 <= m <= 12 -> m <> 5 ->
  strptime (locale_C tz0 tz1 dl) (month_abbr m +:+ String " " rest) "%B %d, %Y"
  = None.
Proof.
  intros Hm. pattern m. apply (all_from_spec _ 12 1); [| lia].
  cbn [all_from].
  repeat split; intros Hne; try (now destruct Hne); vm_compute; reflexivity.
Qed.

Lemma name_text_trimmed name d y :
  (exists m, 1 <= m <= 12 /\ (name = month_name m \/ name = month_abbr m)) ->
  strip (name +:+ " " +:+ pad2 d +:+ ", " +:+ pad4 y)
  = name +:+ " " +:+ pad2 d +:+ ", " +:+ pad4 y.
Proof.
  intros (m & Hm & Hn). unfold strip.
  assert (Hl : lstrip (name +:+ " " +:+ pad2 d +:+ ", " +:+ pad4 y)
               = name +:+ " " +:+ pad2 d +:+ ", " +:+ pad4 y).
  { destruct Hn as [-> | ->]; pattern m;
      (apply (all_from_spec _ 12 1); [| lia]);
      cbn [all_from]; repeat split; reflexivity. }
  rewrite Hl.
  destruct (pad4_trimmed y) as [H1 H2].
  destruct (rstrip_app ", " _ H1 H2) as [H3 H4].
  destruct (rstrip_app (pad2 d) _ H3 H4) as [H5 H6].
  destruct (rstrip_app " " _ H5 H6) as [H7 H8].
  now destruct (rstrip_app name _ H7 H8).
Qed.

End NameFacts.

(** X26 -- A date written with the English name of the month, full or
    short, as in ["March 18, 2025"] and ["Mar 18, 2025"], is normalised
    to that date: for every date that exists, in the "C" locale of the
    process and whatever the time-zone names and the C library of the
    host. *)
Theorem X26_dates_with_month_names (tz0 tz1 : string) (daylight pads : bool)
        (name : string) (y m d : Z) :
  name = month_name m \/ name = month_abbr m ->
  Strptime.valid_date y m d = true ->
  parseAndFormatDate
    {| Strptime.locale_time := Strptime.locale_C tz0 tz1 daylight;
       Strptime.pads_year := pads |}
    (name +:+ " " +:+ PyStr.pad2 d +:+ ", " +:+ PyStr.pad4 y)
  = Strptime.strftime_Ymd pads
      {| Strptime.year := y; Strptime.month := m; Strptime.day := d;
         Strptime.hour := 0; Strptime.minute := 0; Strptime.second := 0;
         Strptime.utcoffset := None |}.
Proof.
  intros Hn Hv.
  destruct (StrptimeFacts.valid_date_bounds _ _ _ Hv) as (_ & Hm & _).
  unfold parseAndFormatDate.
  rewrite NameFacts.name_text_trimmed by (exists m; now split).
  assert (Ht : PyStr.truthy (name +:+ " " +:+ PyStr.pad2 d +:+ ", " +:+ PyStr.pad4 y)
               = true).
  { destruct name; reflexivity. }
  rewrite Ht. cbn [negb]. unfold lDateFormats.
  cbn [try_formats Strptime.locale_time Strptime.pads_year].
  assert (Hfail : forall fmt,
             In fmt ["%m/%d/%Y"; "%m-%d-%Y"; "%Y-%m-%d"; "%d/%m/%Y"; "%d-%m-%Y"] ->
             Strptime.strptime (Strptime.locale_C tz0 tz1 daylight)
               (name +:+ " " +:+ PyStr.pad2 d +:+ ", " +:+ PyStr.pad4 y) fmt = None).
  { intros fmt Hf.
    destruct Hn as [-> | ->];
      now apply (NameFacts.before_names_fail _ m _ fmt Hm Hf). }
  rewrite !Hfail by (simpl; tauto).
  destruct Hn as [-> | ->].
  - now rewrite NameFacts.strptime_long.
  - destruct (Z.eq_dec m 5) as [-> | Hne].
    + change (month_abbr 5) with (month_name 5).
      now rewrite NameFacts.strptime_long.
    + change (month_abbr m +:+ " " +:+ PyStr.pad2 d +:+ ", " +:+ PyStr.pad4 y)
        with (month_abbr m +:+ String " " (PyStr.pad2 d +:+ ", " +:+ PyStr.pad4 y)).
      rewrite (NameFacts.short_is_not_long _ _ _ m _ Hm Hne).
      change (month_abbr m +:+ String " " (PyStr.pad2 d +:+ ", " +:+ PyStr.pad4 y))
        with (month_abbr m +:+ " " +:+ PyStr.pad2 d +:+ ", " +:+ PyStr.pad4 y).
      now rewrite NameFacts.strptime_short.
Qed.

Lemma X26_dates_with_month_names_witness :
  parseAndFormatDate
    {| Strptime.locale_time := Strptime.locale_C "UTC" "UTC" false;
       Strptime.pads_year := false |}
    ("Mar" +:+ " " +:+ PyStr.pad2 18 +:+ ", " +:+ PyStr.pad4 2025)
  = Strptime.strftime_Ymd false
      {| Strptime.year := 2025; Strptime.month := 3; Strptime.day := 18;
         Strptime.hour := 0; Strptime.minute := 0; Strptime.second := 0;
         Strptime.utcoffset := None |}.
Proof.
  apply (X26_dates_with_month_names "UTC" "UTC" false false "Mar" 2025 3 18).
  - right. reflexivity.
  - reflexivity.
Defined.

(** ** HTTP dates *)

Module HttpDateFacts.
Import PyStr Re Strptime PyStrFacts StrptimeFacts NormaliserFacts.
Import ZoneFacts NumericFacts StampFacts NameFacts.

Lemma weekday_index tz0 tz1 dl w :
  0 <= w <= 6 ->
  index_of (lower (weekday_abbr w)) (a_weekday (locale_C tz0 tz1 dl)) = Some w.
Proof.
  intros Hw. pattern w. apply (all_from_spec _ 7 0); [| lia].
  cbn [all_from]. repeat split; vm_compute; reflexivity.
Qed.

Lemma space_abbr {A} subj pos m rest g (k : groups -> nat -> string -> option A) :
  1 <= m <= 12 ->
  rmatch subj SpacePlus pos (String " " (month_abbr m +:+ rest)) g k
  = k g (S pos) (month_abbr m +:+ rest).
Proof.
  intros Hm. pattern m. apply (all_from_spec _ 12 1); [| lia].
  cbn [all_from]. repeat split; apply space_char; reflexivity.
Qed.

Lemma set_fields_http loc sa sd sb sy sH sM sS sZ :
  set_fields loc fields0
    [("a"%char, sa); ("d"%char, sd); ("b"%char, sb); ("Y"%char, sy);
     ("H"%char, sH); ("M"%char, sM); ("S"%char, sS); ("Z"%char, sZ)]
  = match index_of (lower sa) (a_weekday loc), int sd,
          index_of (lower sb) (a_month loc), int sy, int sH, int sM, int sS with
    | Some _, Some d, Some m, Some y, Some hh, Some mi, Some ss =>
        Some {| f_year := y; f_mon := m; f_day := d;
                f_hour := hh; f_min := mi; f_sec := ss; f_gmtoff := None |}
    | _, _, _, _, _, _, _ => None
    end.
Proof.
  cbn -[int index_of].
  destruct (index_of (lower sa) _); [| reflexivity]. cbn -[int index_of].
  destruct (int sd); [| reflexivity]. cbn -[int index_of].
  destruct (index_of (lower sb) _); [| reflexivity]. cbn -[int].
  destruct (int sy); [| reflexivity]. cbn -[int].
  destruct (int sH); [| reflexivity]. cbn -[int].
  destruct (int sM); [| reflexivity]. cbn -[int].
  destruct (int sS); reflexivity.
Qed.

(** The groups of the HTTP format in an HTTP date. *)
Lemma http_match tz0 tz1 dl w d m y hh mi ss :
  0 <= w <= 6 -> 1 <= d <= 31 -> 1 <= m <= 12 ->
  0 <= hh <= 23 -> 0 <= mi <= 59 -> 0 <= ss <= 59 ->
  match pattern (locale_C tz0 tz1 dl) "%a, %d %b %Y %H:%M:%S %Z" with
  | Some re =>
      re_match re
        (weekday_abbr w +:+ ", " +:+ pad2 d +:+ " " +:+ month_abbr m +:+ " "
         +:+ pad4 y +:+ " " +:+ pad2 hh +:+ ":" +:+ pad2 mi +:+ ":" +:+ pad2 ss
         +:+ " GMT")
      = Some ([("a"%char, weekday_abbr w); ("d"%char, pad2 d);
               ("b"%char, month_abbr m); ("Y"%char, pad4 y);
               ("H"%char, pad2 hh); ("M"%char, pad2 mi); ("S"%char, pad2 ss);
               ("Z"%char, "GMT")], "")
  | None => False
  end.
Proof.
  intros Hw Hd Hm Hhh Hmi Hss.
  assert (Hdig : forall n, is_digit (digit_char n) = true)
    by apply digit_char_is_digit.
  let p := eval cbv -[seqToRE timezone locale_C] in
             (pattern (locale_C tz0 tz1 dl) "%a, %d %b %Y %H:%M:%S %Z") in
  change (pattern (locale_C tz0 tz1 dl) "%a, %d %b %Y %H:%M:%S %Z") with p.
  cbv iota beta. unfold re_match, pad4.
  change (weekday_abbr w +:+ ", " +:+ pad2 d +:+ " " +:+ month_abbr m +:+ " "
          +:+ String (digit_char (y / 1000)) (String (digit_char (y / 100))
                (String (digit_char (y / 10)) (String (digit_char y) "")))
          +:+ " " +:+ pad2 hh +:+ ":" +:+ pad2 mi +:+ ":" +:+ pad2 ss +:+ " GMT")
    with (weekday_abbr w +:+ String "," (String " " (pad2 d +:+ String " "
            (month_abbr m +:+ String " "
               (String (digit_char (y / 1000)) (String (digit_char (y / 100))
                  (String (digit_char (y / 10)) (String (digit_char y)
                     (String " " (pad2 hh +:+ String ":" (pad2 mi +:+ String ":"
                        (pad2 ss +:+ String " " "GMT")))))))))))).
  revert m Hm. pattern w. apply (all_from_spec _ 7 0); [| lia].
  cbn [all_from].
  repeat split; intros m Hm; pattern m;
    (apply (all_from_spec _ 12 1); [| lia]);
    cbn [all_from]; repeat split;
    rewrite rmatch_Seq;
    (eapply (weekday_group tz0 tz1 dl); [reflexivity | lia |]);
    cbv beta; rewrite rmatch_Seq, chr_step, rmatch_Seq, space_pad2, rmatch_Seq;
    (eapply (day_group (locale_C tz0 tz1 dl)); [reflexivity | exact Hd |]);
    cbv beta; rewrite rmatch_Seq, space_abbr, rmatch_Seq by lia;
    (eapply (month_abbr_group tz0 tz1 dl); [reflexivity | lia |]);
    cbv beta;
    rewrite rmatch_Seq, (space_char _ _ _ _ _ _ (digit_not_space _ (Hdig _))),
      rmatch_Seq;
    rewrite (year_group _ _ _ _ _ _ _ _ _ (Hdig _) (Hdig _) (Hdig _) (Hdig _));
    rewrite rmatch_Seq, space_pad2, rmatch_Seq;
    (eapply (hour_group (locale_C tz0 tz1 dl)); [reflexivity | exact Hhh |]);
    cbv beta; rewrite rmatch_Seq, chr_step, rmatch_Seq;
    (eapply (minute_group (locale_C tz0 tz1 dl)); [reflexivity | exact Hmi |]);
    cbv beta; rewrite rmatch_Seq, chr_step, rmatch_Seq;
    (eapply (second_group (locale_C tz0 tz1 dl)); [reflexivity | exact Hss |]);
    cbv beta; rewrite rmatch_Seq, (space_char _ _ "G" _ _ _ eq_refl);
    apply zone_gmt; reflexivity.
Qed.

Lemma strptime_http tz0 tz1 dl w d m y hh mi ss :
  0 <= w <= 6 ->
  valid_date y m d = true -> valid_time hh mi ss = true ->
  strptime (locale_C tz0 tz1 dl)
    (weekday_abbr w +:+ ", " +:+ pad2 d +:+ " " +:+ month_abbr m +:+ " "
     +:+ pad4 y +:+ " " +:+ pad2 hh +:+ ":" +:+ pad2 mi +:+ ":" +:+ pad2 ss
     +:+ " GMT")
    "%a, %d %b %Y %H:%M:%S %Z"
  = Some {| year := y; month := m; day := d;
            hour := hh; minute := mi; second := ss; utcoffset := None |}.
Proof.
  intros Hw Hv Ht. destruct (valid_date_bounds _ _ _ Hv) as (Hy & Hm & Hd).
  destruct (valid_time_bounds _ _ _ Ht) as (Hhh & Hmi & Hss).
  pose proof (http_match tz0 tz1 dl w d m y hh mi ss Hw Hd Hm Hhh Hmi Hss) as E.
  unfold strptime.
  destruct (pattern (locale_C tz0 tz1 dl) "%a, %d %b %Y %H:%M:%S %Z") as [re |];
    [| destruct E].
  rewrite E. cbn [truthy]. rewrite set_fields_http.
  rewrite (weekday_index tz0 tz1 dl w Hw),
    (proj2 (month_index tz0 tz1 dl m Hm)).
  rewrite (int_pad4 y), !int_pad2 by lia.
  cbn [f_year f_mon f_day f_hour f_min f_sec f_gmtoff].
  rewrite Hv, Ht. reflexivity.
Qed.

(** The formats tried before the HTTP format fail on a text that
    begins with the name of a day. *)
Lemma before_http_fail tz0 tz1 dl w rest fmt :
  0 <= w <= 6 ->
  In fmt ["%m/%d/%Y"; "%m-%d-%Y"; "%Y-%m-%d"; "%d/%m/%Y"; "%d-%m-%Y";
          "%B %d, %Y"; "%b %d, %Y"] ->
  strptime (locale_C tz0 tz1 dl) (weekday_abbr w +:+ rest) fmt = None.
Proof.
  intros Hw Hf. simpl in Hf.
  repeat (destruct Hf as [<- | Hf];
          [pattern w; (apply (all_from_spec _ 7 0); [| lia]);
           cbn [all_from]; repeat split; vm_compute; reflexivity |]).
  destruct Hf.
Qed.

Lemma http_text_trimmed w d m y hh mi ss :
  0 <= w <= 6 ->
  strip (weekday_abbr w +:+ ", " +:+ pad2 d +:+ " " +:+ month_abbr m +:+ " "
         +:+ pad4 y +:+ " " +:+ pad2 hh +:+ ":" +:+ pad2 mi +:+ ":" +:+ pad2 ss
         +:+ " GMT")
  = weekday_abbr w +:+ ", " +:+ pad2 d +:+ " " +:+ month_abbr m +:+ " "
    +:+ pad4 y +:+ " " +:+ pad2 hh +:+ ":" +:+ pad2 mi +:+ ":" +:+ pad2 ss
    +:+ " GMT".
Proof.
  intros Hw. unfold strip.
  match goal with
  | |- rstrip (lstrip ?t) = _ => assert (Hl : lstrip t = t)
  end.
  { pattern w. apply (all_from_spec _ 7 0); [| lia].
    cbn [all_from]. repeat split; reflexivity. }
  rewrite Hl.
  assert (H0 : " GMT" <> "" /\ rstrip " GMT" = " GMT") by (split; [discriminate | reflexivity]).
  repeat match goal with
         | H : ?t <> "" /\ rstrip ?t = ?t |- rstrip (?a +:+ ?u) = _ =>
             lazymatch u with
             | t => destruct H as [H1 H2];
                    exact (proj2 (rstrip_app a t H1 H2))
             | _ => fail
             end
         | H : ?t <> "" /\ rstrip ?t = ?t |- context [?a +:+ ?t] =>
             let H' := fresh in
             pose proof (rstrip_app a t (proj1 H) (proj2 H)) as H'; clear H
         end.
Qed.

End HttpDateFacts.

(** X27 -- An HTTP date, as in ["Tue, 18 Mar 2025 00:00:00 GMT"], is
    normalised to its date: for every date that exists, every time of
    day and every English day name, in the "C" locale of the process and
    whatever the time-zone names and the C library of the host.  The
    time is dropped, and the day name need not be the day of the week
    of the date. *)
Theorem X27_http_dates (tz0 tz1 : string) (daylight pads : bool)
        (w y m d hh mi ss : Z) :
  0 <= w <= 6 ->
  Strptime.valid_date y m d = true ->
  Strptime.valid_time hh mi ss = true ->
  parseAndFormatDate
    {| Strptime.locale_time := Strptime.locale_C tz0 tz1 daylight;
       Strptime.pads_year := pads |}
    (weekday_abbr w +:+ ", " +:+ PyStr.pad2 d +:+ " " +:+ month_abbr m +:+ " "
     +:+ PyStr.pad4 y +:+ " " +:+ PyStr.pad2 hh +:+ ":" +:+ PyStr.pad2 mi +:+ ":"
     +:+ PyStr.pad2 ss +:+ " GMT")
  = Strptime.strftime_Ymd pads
      {| Strptime.year := y; Strptime.month := m; Strptime.day := d;
         Strptime.hour := hh; Strptime.minute := mi; Strptime.second := ss;
         Strptime.utcoffset := None |}.
Proof.
  intros Hw Hv Ht.
  unfold parseAndFormatDate.
  rewrite HttpDateFacts.http_text_trimmed by exact Hw.
  match goal with
  | |- (if negb (PyStr.truthy ?t) then _ else _) = _ =>
      assert (Htr : PyStr.truthy t = true)
  end.
  { destruct (weekday_abbr w); reflexivity. }
  rewrite Htr. cbn [negb]. unfold lDateFormats.
  cbn [try_formats Strptime.locale_time Strptime.pads_year].
  rewrite !HttpDateFacts.before_http_fail by (first [exact Hw | simpl; tauto]).
  now rewrite HttpDateFacts.strptime_http.
Qed.

Lemma X27_http_dates_witness :
  parseAndFormatDate
    {| Strptime.locale_time := Strptime.locale_C "UTC" "UTC" false;
       Strptime.pads_year := false |}
    (weekday_abbr 0 +:+ ", " +:+ PyStr.pad2 18 +:+ " " +:+ month_abbr 3 +:+ " "
     +:+ PyStr.pad4 2025 +:+ " " +:+ PyStr.pad2 7 +:+ ":" +:+ PyStr.pad2 30 +:+ ":"
     +:+ PyStr.pad2 0 +:+ " GMT")
  = Strptime.strftime_Ymd false
      {| Strptime.year := 2025; Strptime.month := 3; Strptime.day := 18;
         Strptime.hour := 7; Strptime.minute := 30; Strptime.second := 0;
         Strptime.utcoffset := None |}.
Proof.
  apply (X27_http_dates "UTC" "UTC" false false 0 2025 3 18 7 30 0).
  - lia.
  - reflexivity.
  - reflexivity.
Defined.

(** ** Time stamps with an offset *)

Module OffsetFacts.
Import PyStr Re Strptime PyStrFacts StrptimeFacts NormaliserFacts.
Import NumericFacts StampFacts.

Lemma tens_digit n : 0 <= n <= 59 -> in_range 48 53 (digit_char (n / 10)) = true.
Proof.
  intros Hn. assert (Hq : 0 <= n / 10 <= 5).
  { Z.to_euclidean_division_equations; lia. }
  revert Hq. generalize (n / 10). intros q Hq.
  pattern q. apply (all_from_spec _ 6 0); [| lia].
  cbn [all_from]. repeat split; reflexivity.
Qed.

(** The [%z] group on an offset [+HH:MM] or [-HH:MM]. *)
Lemma offset_group {A} loc G sgn oh om subj pos g
      (k : groups -> nat -> string -> option A) x :
  directive_re loc "z" = Some G ->
  sgn = "+"%char \/ sgn = "-"%char ->
  0 <= om <= 59 ->
  k (g ++ [("z"%char, slice pos (6 + pos) subj)])%list (6 + pos)%nat "" = Some x ->
  rmatch subj G pos (String sgn (pad2 oh +:+ String ":" (pad2 om))) g k = Some x.
Proof.
  intros HG Hs Hom Hk. vm_compute in HG. injection HG as <-.
  pose proof (tens_digit om Hom) as Ht.
  pose proof (digit_char_is_digit (oh / 10)) as H1.
  pose proof (digit_char_is_digit oh) as H2.
  pose proof (digit_char_is_digit om) as H4.
  unfold pad2.
  change (String (digit_char (oh / 10)) (String (digit_char oh) "")
          +:+ String ":" (String (digit_char (om / 10)) (String (digit_char om) "")))
    with (String (digit_char (oh / 10)) (String (digit_char oh)
            (String ":" (String (digit_char (om / 10)) (String (digit_char om) ""))))).
  revert Ht H1 H2 H4 Hk.
  generalize (digit_char (oh / 10)) (digit_char oh) (digit_char (om / 10))
             (digit_char om).
  intros a b c d Ht H1 H2 H4 Hk.
  change (in_range 48 53 c = true) in Ht.
  change (6 + pos)%nat with (S (S (S (S (S (S pos)))))) in Hk.
  destruct Hs as [-> | ->];
    cbn [rmatch one existsb Ascii.eqb orb Bool.eqb];
    change (code "0") with 48; change (code "5") with 53;
    change (ieq ":" ":") with true;
    rewrite H1, H2, Ht, H4, Hk; reflexivity.
Qed.

Lemma parse_z_offset sgn oh om :
  sgn = "+"%char \/ sgn = "-"%char ->
  0 <= oh <= 99 -> 0 <= om <= 99 ->
  parse_z (String sgn (pad2 oh +:+ String ":" (pad2 om)))
  = Some (if Ascii.eqb sgn "-" then - ((oh * 3600 + om * 60 + 0) * 1000000 + 0)
          else (oh * 3600 + om * 60 + 0) * 1000000 + 0).
Proof.
  intros Hs Hoh Hom.
  pose proof (int_pad2 oh Hoh) as E1. pose proof (int_pad2 om Hom) as E2.
  assert (E0 : int "000000" = Some 0) by reflexivity.
  unfold pad2 in *.
  change (String (digit_char (oh / 10)) (String (digit_char oh) "")
          +:+ String ":" (String (digit_char (om / 10)) (String (digit_char om) "")))
    with (String (digit_char (oh / 10)) (String (digit_char oh)
            (String ":" (String (digit_char (om / 10)) (String (digit_char om) ""))))).
  revert E1 E2.
  generalize (digit_char (oh / 10)) (digit_char oh) (digit_char (om / 10))
             (digit_char om).
  intros a b c d E1 E2.
  destruct Hs as [-> | ->]; unfold parse_z;
    cbv -[int Z.mul Z.add Z.opp]; rewrite E1, E2, E0; reflexivity.
Qed.

Lemma set_fields_offset loc sy sm sd sH sM sS sz :
  set_fields loc fields0
    [("Y"%char, sy); ("m"%char, sm); ("d"%char, sd);
     ("H"%char, sH); ("M"%char, sM); ("S"%char, sS); ("z"%char, sz)]
  = match int sy, int sm, int sd, int sH, int sM, int sS, parse_z sz with
    | Some y, Some m, Some d, Some hh, Some mi, Some ss, Some off =>
        Some {| f_year := y; f_mon := m; f_day := d;
                f_hour := hh; f_min := mi; f_sec := ss; f_gmtoff := Some off |}
    | _, _, _, _, _, _, _ => None
    end.
Proof.
  cbn -[int parse_z]. destruct (int sy); [| reflexivity]. cbn -[int parse_z].
  destruct (int sm); [| reflexivity]. cbn -[int parse_z].
  destruct (int sd); [| reflexivity]. cbn -[int parse_z].
  destruct (int sH); [| reflexivity]. cbn -[int parse_z].
  destruct (int sM); [| reflexivity]. cbn -[int parse_z].
  destruct (int sS); [| reflexivity]. cbn -[int parse_z].
  destruct (parse_z sz); reflexivity.
Qed.

(** The groups [%Y-%m-%dT%H:%M:%S%z] finds in a time stamp with an
    offset. *)
Lemma offset_match loc re a b c d0 m d hh mi ss sgn oh om :
  pattern loc "%Y-%m-%dT%H:%M:%S%z" = Some re ->
  is_digit a = true -> is_digit b = true ->
  is_digit c = true -> is_digit d0 = true ->
  1 <= m <= 12 -> 1 <= d <= 31 ->
  0 <= hh <= 23 -> 0 <= mi <= 59 -> 0 <= ss <= 59 ->
  sgn = "+"%char \/ sgn = "-"%char -> 0 <= om <= 59 ->
  re_match re (String a (String b (String c (String d0
                 (String "-" (pad2 m +:+ String "-" (pad2 d +:+ String "T"
                    (pad2 hh +:+ String ":" (pad2 mi +:+ String ":"
                       (pad2 ss +:+ String sgn (pad2 oh +:+ String ":"
                          (pad2 om))))))))))))
  = Some ([("Y"%char, String a (String b (String c (String d0 ""))));
           ("m"%char, pad2 m); ("d"%char, pad2 d);
           ("H"%char, pad2 hh); ("M"%char, pad2 mi); ("S"%char, pad2 ss);
           ("z"%char, String sgn (pad2 oh +:+ String ":" (pad2 om)))],
          EmptyString).
Proof.
  intros Hre Ha Hb Hc Hd0 Hm Hd HH HM HS Hs Hom.
  vm_compute in Hre. injection Hre as <-.
  unfold re_match. rewrite rmatch_Seq.
  rewrite (year_group _ _ _ _ _ _ _ _ _ Ha Hb Hc Hd0).
  rewrite rmatch_Seq, chr_step, rmatch_Seq.
  eapply (month_group loc); [reflexivity | exact Hm |].
  cbv beta. rewrite rmatch_Seq, chr_step, rmatch_Seq.
  eapply (day_group loc); [reflexivity | exact Hd |].
  cbv beta. rewrite rmatch_Seq, chr_step, rmatch_Seq.
  eapply (hour_group loc); [reflexivity | exact HH |].
  cbv beta. rewrite rmatch_Seq, chr_step, rmatch_Seq.
  eapply (minute_group loc); [reflexivity | exact HM |].
  cbv beta. rewrite rmatch_Seq, chr_step, rmatch_Seq.
  eapply (second_group loc); [reflexivity | exact HS |].
  cbv beta.
  eapply (offset_group loc); [reflexivity | exact Hs | exact Hom |].
  reflexivity.
Qed.

Lemma strptime_offset loc y m d hh mi ss sgn oh om :
  valid_date y m d = true -> valid_time hh mi ss = true ->
  sgn = "+"%char \/ sgn = "-"%char -> 0 <= oh <= 23 -> 0 <= om <= 59 ->
  exists off,
    strptime loc (pad4 y +:+ "-" +:+ pad2 m +:+ "-" +:+ pad2 d +:+ "T"
                  +:+ pad2 hh +:+ ":" +:+ pad2 mi +:+ ":" +:+ pad2 ss
                  +:+ String sgn (pad2 oh +:+ ":" +:+ pad2 om))
             "%Y-%m-%dT%H:%M:%S%z"
    = Some {| year := y; month := m; day := d;
              hour := hh; minute := mi; second := ss; utcoffset := Some off |}.
Proof.
  intros Hv Ht Hs Hoh Hom.
  destruct (valid_date_bounds _ _ _ Hv) as (Hy & Hm & Hd).
  destruct (valid_time_bounds _ _ _ Ht) as (HH & HM & HS).
  eexists. unfold strptime.
  destruct (pattern loc "%Y-%m-%dT%H:%M:%S%z") as [re |] eqn:Hre;
    [| vm_compute in Hre; discriminate].
  change (pad4 y +:+ "-" +:+ pad2 m +:+ "-" +:+ pad2 d +:+ "T"
          +:+ pad2 hh +:+ ":" +:+ pad2 mi +:+ ":" +:+ pad2 ss
          +:+ String sgn (pad2 oh +:+ ":" +:+ pad2 om))
    with (String (digit_char (y / 1000)) (String (digit_char (y / 100))
            (String (digit_char (y / 10)) (String (digit_char y)
               (String "-" (pad2 m +:+ String "-" (pad2 d +:+ String "T"
                  (pad2 hh +:+ String ":" (pad2 mi +:+ String ":"
                     (pad2 ss +:+ String sgn (pad2 oh +:+ String ":"
                        (pad2 om)))))))))))).
  rewrite (offset_match loc re _ _ _ _ m d hh mi ss sgn oh om Hre) by
    (first [apply digit_char_is_digit | assumption]).
  cbn [truthy]. rewrite set_fields_offset.
  change (String (digit_char (y / 1000)) (String (digit_char (y / 100))
            (String (digit_char (y / 10)) (String (digit_char y) EmptyString))))
    with (pad4 y).
  rewrite (int_pad4 y), !int_pad2 by lia.
  rewrite (parse_z_offset sgn oh om Hs) by lia.
  cbn [f_year f_mon f_day f_hour f_min f_sec f_gmtoff].
  rewrite Hv, Ht. cbn [andb].
  replace (valid_offset _) with true; [reflexivity |].
  symmetry. unfold valid_offset. apply Z.ltb_lt.
  destruct (Ascii.eqb sgn "-"); lia.
Qed.

End OffsetFacts.

(** X28 -- An ISO 8601 time stamp with a UTC offset,
    [YYYY-MM-DDTHH:MM:SS+HH:MM] or [...-HH:MM], is normalised to the
    date as it is written: for every date that exists, every time of day
    and every offset below 24 hours, the time and the offset are dropped
    and the date is not moved to UTC. *)
Theorem X28_time_stamps_with_offset (tz0 tz1 : string) (daylight pads : bool)
        (sign : string) (y m d hh mi ss oh om : Z) :
  sign = "+" \/ sign = "-" ->
  Strptime.valid_date y m d = true ->
  Strptime.valid_time hh mi ss = true ->
  0 <= oh <= 23 -> 0 <= om <= 59 ->
  parseAndFormatDate
    {| Strptime.locale_time := Strptime.locale_C tz0 tz1 daylight;
       Strptime.pads_year := pads |}
    (PyStr.pad4 y +:+ "-" +:+ PyStr.pad2 m +:+ "-" +:+ PyStr.pad2 d +:+ "T"
     +:+ PyStr.pad2 hh +:+ ":" +:+ PyStr.pad2 mi +:+ ":" +:+ PyStr.pad2 ss
     +:+ sign +:+ PyStr.pad2 oh +:+ ":" +:+ PyStr.pad2 om)
  = Strptime.year_text pads y +:+ "-" +:+ PyStr.pad2 m +:+ "-" +:+ PyStr.pad2 d.
Proof.
  intros Hsign Hv Ht Hoh Hom.
  destruct (StrptimeFacts.valid_date_bounds _ _ _ Hv) as (_ & Hm & Hd).
  assert (exists c, (c = "+"%char \/ c = "-"%char) /\ sign = String c "")
    as (c & Hc & ->)
    by (destruct Hsign as [-> | ->]; eexists; split;
        [left | | right |]; reflexivity).
  change (PyStr.pad4 y +:+ "-" +:+ PyStr.pad2 m +:+ "-" +:+ PyStr.pad2 d +:+ "T"
          +:+ PyStr.pad2 hh +:+ ":" +:+ PyStr.pad2 mi +:+ ":" +:+ PyStr.pad2 ss
          +:+ String c "" +:+ PyStr.pad2 oh +:+ ":" +:+ PyStr.pad2 om)
    with (PyStr.pad4 y +:+ "-" +:+ PyStr.pad2 m +:+ "-" +:+ PyStr.pad2 d +:+ "T"
          +:+ PyStr.pad2 hh +:+ ":" +:+ PyStr.pad2 mi +:+ ":" +:+ PyStr.pad2 ss
          +:+ String c (PyStr.pad2 oh +:+ ":" +:+ PyStr.pad2 om)).
  destruct (OffsetFacts.strptime_offset (Strptime.locale_C tz0 tz1 daylight)
              y m d hh mi ss c oh om Hv Ht Hc Hoh Hom) as (off & Hp).
  unfold parseAndFormatDate.
  rewrite PyStrFacts.strip_no_space.
  2:{ unfold PyStr.pad4, PyStr.pad2.
      cbv [String.append list_ascii_of_string forallb].
      rewrite !(PyStrFacts.digit_not_space _ (PyStrFacts.digit_char_is_digit _)).
      now destruct Hc as [-> | ->]. }
  change (negb (PyStr.truthy (PyStr.pad4 y +:+ _))) with false. cbv iota.
  unfold lDateFormats. cbn [try_formats Strptime.locale_time Strptime.pads_year].
  rewrite Hp.
  change (PyStr.pad4 y +:+ "-" +:+ PyStr.pad2 m +:+ "-" +:+ PyStr.pad2 d +:+ "T"
          +:+ PyStr.pad2 hh +:+ ":" +:+ PyStr.pad2 mi +:+ ":" +:+ PyStr.pad2 ss
          +:+ String c (PyStr.pad2 oh +:+ ":" +:+ PyStr.pad2 om))
    with (String (PyStr.digit_char (y / 1000)) (String (PyStr.digit_char (y / 100))
            (String (PyStr.digit_char (y / 10)) (String (PyStr.digit_char y)
               (String "-" (PyStr.pad2 m +:+ String "-" (PyStr.pad2 d
                  +:+ String "T" (PyStr.pad2 hh +:+ String ":" (PyStr.pad2 mi
                     +:+ String ":" (PyStr.pad2 ss
                        +:+ String c (PyStr.pad2 oh +:+ ":" +:+ PyStr.pad2 om))))))))))).
  rewrite StrptimeFacts.fmt_mdY_slash_fails, StrptimeFacts.fmt_mdY_dash_fails
    by apply PyStrFacts.digit_char_is_digit.
  rewrite StampFacts.fmt_Ymd_leaves_time
    by (first [apply PyStrFacts.digit_char_is_digit | assumption]).
  rewrite !StampFacts.fmt_dmY_fails
    by (first [apply PyStrFacts.digit_char_is_digit | simpl; tauto]).
  rewrite !StampFacts.names_fail
    by (first [apply PyStrFacts.digit_char_is_digit | simpl; tauto]).
  reflexivity.
Qed.

Lemma X28_time_stamps_with_offset_witness :
  parseAndFormatDate
    {| Strptime.locale_time := Strptime.locale_C "UTC" "UTC" false;
       Strptime.pads_year := false |}
    (PyStr.pad4 2025 +:+ "-" +:+ PyStr.pad2 3 +:+ "-" +:+ PyStr.pad2 18 +:+ "T"
     +:+ PyStr.pad2 23 +:+ ":" +:+ PyStr.pad2 30 +:+ ":" +:+ PyStr.pad2 0
     +:+ "-" +:+ PyStr.pad2 5 +:+ ":" +:+ PyStr.pad2 0)
  = Strptime.year_text false 2025 +:+ "-" +:+ PyStr.pad2 3 +:+ "-" +:+ PyStr.pad2 18.
Proof.
  apply (X28_time_stamps_with_offset "UTC" "UTC" false false "-"
           2025 3 18 23 30 0 5 0).
  - right. reflexivity.
  - reflexivity.
  - reflexivity.
  - lia.
  - lia.
Defined.

(** ** From the first request to the report *)


